(** * ChatServer (src/stream.py): shallow embedding and verified properties

    The embedding follows [src/stream.py] method by method.  Conventions:

    - A Python [str] is represented by its UTF-8 encoding, held in a Rocq
      [string]; [bytes.decode()] is therefore a validity check,
      [str.encode()] is the identity, and [len] counts code points.
    - Python dicts keep insertion order, and the server iterates over them
      (broadcast order, listings), so they are association lists with unique
      keys: assignment to an existing key keeps its position, a new key goes
      to the end.
    - Every coroutine is a computation in the monad [M]: it threads the
      [ChatServer] object, may raise a Python exception, and appends the
      calls it makes on stream writers to a trace.  One coroutine runs to
      completion before the next one starts; the interleaving of tasks at
      their [await]s is not part of the model.
    - A connection's reader is the sequence of bytes the client sends before
      end of input; the buffer limit of asyncio's [readuntil] is not part of
      the model.
    - What Python and asyncio decide ([str.upper], [str.lower], the text of
      an exception, whether a [drain()] or [wait_closed()] fails) is taken
      from a [Runtime] record; general theorems hold for every runtime.
    - [src/config.py]'s validation, the start-up of [src/main.py] and the
      endpoints of [src/api.py] that call the server are embedded in the
      modules [Config] and [Api], as far as they decide how the server is
      constructed and called; argument parsing, files, the environment and
      HTTP itself are not part of the model. *)

From Stdlib Require Import ZArith String Ascii List Bool Lia.
From Stdlib Require Import DecimalString DecimalZ.
Import ListNotations.

Local Open Scope list_scope.
Local Open Scope string_scope.

(* ================================================================== *)
(** ** Python text *)

Module PyText.

Definition chrs (codes : list nat) : string :=
  fold_right (fun n s => String (ascii_of_nat n) s) "" codes.

Definition tab : string := chrs [9%nat].
Definition nl : string := chrs [10%nat].

Definition byte (c : ascii) : N := N_of_ascii c.

Definition between (lo hi : N) (c : ascii) : bool :=
  ((lo <=? byte c) && (byte c <=? hi))%N.

Definition continuation (c : ascii) : bool := between 128 191 c.

(** Strict UTF-8, as [bytes.decode()] checks it: no overlong forms, no
    surrogates, nothing above U+10FFFF. *)
Fixpoint utf8_valid (s : string) : bool :=
  match s with
  | "" => true
  | String c0 r0 =>
      if (byte c0 <? 128)%N then utf8_valid r0
      else if between 194 223 c0 then
        match r0 with
        | String c1 r1 => continuation c1 && utf8_valid r1
        | _ => false
        end
      else if between 224 239 c0 then
        match r0 with
        | String c1 (String c2 r2) =>
            (if (byte c0 =? 224)%N then between 160 191 c1
             else if (byte c0 =? 237)%N then between 128 159 c1
             else continuation c1)
            && continuation c2 && utf8_valid r2
        | _ => false
        end
      else if between 240 244 c0 then
        match r0 with
        | String c1 (String c2 (String c3 r3)) =>
            (if (byte c0 =? 240)%N then between 144 191 c1
             else if (byte c0 =? 244)%N then between 128 143 c1
             else continuation c1)
            && continuation c2 && continuation c3 && utf8_valid r3
        | _ => false
        end
      else false
  end.

(** [len(s)]: the number of code points, i.e. of non-continuation bytes. *)
Fixpoint py_len (s : string) : Z :=
  match s with
  | "" => 0
  | String c r => ((if continuation c then 0 else 1) + py_len r)%Z
  end.

(** [str(n)] for an [int]. *)
Definition py_str_int (z : Z) : string :=
  NilEmpty.string_of_int (Z.to_int z).

Fixpoint str_join (sep : string) (l : list string) : string :=
  match l with
  | [] => ""
  | [x] => x
  | x :: r => x ++ sep ++ str_join sep r
  end.

(** [s.split(sep=c)] for a one-character separator. *)
Fixpoint split_on (sep : ascii) (s : string) : list string :=
  match s with
  | "" => [""]
  | String c r =>
      if Ascii.eqb c sep then "" :: split_on sep r
      else match split_on sep r with
           | h :: t => String c h :: t
           | [] => [String c ""]
           end
  end.

(** [s.replace(a, b)] for one-character [a] and [b]. *)
Fixpoint replace_char (a b : ascii) (s : string) : string :=
  match s with
  | "" => ""
  | String c r => String (if Ascii.eqb c a then b else c) (replace_char a b r)
  end.

Fixpoint string_rev (s : string) : string :=
  match s with
  | "" => ""
  | String c r => string_rev r ++ String c ""
  end.

Fixpoint drop_prefix (p s : string) : option string :=
  match p, s with
  | "", _ => Some s
  | String a p', String b s' =>
      if Ascii.eqb a b then drop_prefix p' s' else None
  | String _ _, "" => None
  end.

(** The characters [str.strip()] removes (those with [str.isspace()]),
    in UTF-8. *)
Definition whitespace : list string :=
  map chrs
    [[9]; [10]; [11]; [12]; [13]; [28]; [29]; [30]; [31]; [32];
     [194; 133]; [194; 160]; [225; 154; 128];
     [226; 128; 128]; [226; 128; 129]; [226; 128; 130]; [226; 128; 131];
     [226; 128; 132]; [226; 128; 133]; [226; 128; 134]; [226; 128; 135];
     [226; 128; 136]; [226; 128; 137]; [226; 128; 138];
     [226; 128; 168]; [226; 128; 169]; [226; 128; 175];
     [226; 129; 159]; [227; 128; 128]]%nat.

Fixpoint drop_first (ws : list string) (s : string) : option string :=
  match ws with
  | [] => None
  | w :: ws' =>
      match drop_prefix w s with
      | Some r => Some r
      | None => drop_first ws' s
      end
  end.

Fixpoint lstrip_with (ws : list string) (n : nat) (s : string) : string :=
  match n with
  | O => s
  | S n' =>
      match drop_first ws s with
      | Some r => lstrip_with ws n' r
      | None => s
      end
  end.

Definition py_lstrip (s : string) : string :=
  lstrip_with whitespace (String.length s) s.

Definition py_rstrip (s : string) : string :=
  string_rev
    (lstrip_with (map string_rev whitespace) (String.length s) (string_rev s)).

Definition py_strip (s : string) : string := py_rstrip (py_lstrip s).

(** [str(b)] for a [bytes] object [b], i.e. its [repr]: [b'...'] with
    escapes, in double quotes when [b] holds a single quote and no double
    quote. *)
Definition hex_digit (n : N) : ascii :=
  match n with
  | 0 => "0" | 1 => "1" | 2 => "2" | 3 => "3" | 4 => "4" | 5 => "5"
  | 6 => "6" | 7 => "7" | 8 => "8" | 9 => "9" | 10 => "a" | 11 => "b"
  | 12 => "c" | 13 => "d" | 14 => "e" | _ => "f"
  end%N%char.

Fixpoint contains (x : ascii) (s : string) : bool :=
  match s with
  | "" => false
  | String c r => Ascii.eqb c x || contains x r
  end.

Definition double_quote : ascii := ascii_of_nat 34.

Definition repr_quote (b : string) : ascii :=
  if contains "'" b && negb (contains double_quote b)
  then double_quote else "'"%char.

Definition repr_byte (quote c : ascii) : string :=
  if Ascii.eqb c quote || Ascii.eqb c "\" then String "\" (String c "")
  else if (byte c =? 9)%N then "\t"
  else if (byte c =? 10)%N then "\n"
  else if (byte c =? 13)%N then "\r"
  else if (byte c <? 32)%N || (127 <=? byte c)%N then
    String "\" (String "x"
      (String (hex_digit (byte c / 16)) (String (hex_digit (byte c mod 16)) "")))
  else String c "".

Fixpoint repr_body (quote : ascii) (b : string) : string :=
  match b with
  | "" => ""
  | String c r => repr_byte quote c ++ repr_body quote r
  end.

Definition py_str_bytes (b : string) : string :=
  let q := repr_quote b in
  String "b" (String q (repr_body q b ++ String q "")).

End PyText.
Import PyText.

(* ================================================================== *)
(** ** Python dicts with [str] keys *)

Section Dict.
Context {V : Type}.

Definition dict := list (string * V).

Fixpoint dict_get (k : string) (d : dict) : option V :=
  match d with
  | [] => None
  | (k', v) :: r => if String.eqb k' k then Some v else dict_get k r
  end.

(** [k in d] *)
Definition dict_mem (k : string) (d : dict) : bool :=
  match dict_get k d with Some _ => true | None => false end.

(** [d[k] = v] *)
Fixpoint dict_set (k : string) (v : V) (d : dict) : dict :=
  match d with
  | [] => [(k, v)]
  | (k', v') :: r =>
      if String.eqb k' k then (k, v) :: r else (k', v') :: dict_set k v r
  end.

(** [d.keys()] *)
Definition dict_keys (d : dict) : list string := map fst d.
End Dict.
Arguments dict V : clear implicits.

(* ================================================================== *)
(** ** The server object *)

(** A connection's [StreamWriter], named by a number. *)
Definition writer := nat.

(** What a room maps a key to.  [register_client], [join_chatroom] and
    [add_chatroom] store the dict [{"writer": cw, "status": s}];
    [send_error_and_close] and [close_client] assign a plain [str] under the
    key ["status"] of a room (they index [client_list] by a client id). *)
Inductive entry :=
| Session (cw : writer) (status : string)
| Bare (text : string).

Definition room := dict entry.

Record ChatServer := mkChatServer {
  use_ssl : option bool;
  cert_path : option string;
  client_list : dict room;
  client_id_counter : Z;
  host : string;
  port : string;
  client_count : Z;
  max_clients : Z;
  max_message_length : Z
}.

Definition with_client_list (cl : dict room) (s : ChatServer) : ChatServer :=
  mkChatServer (use_ssl s) (cert_path s) cl (client_id_counter s) (host s)
    (port s) (client_count s) (max_clients s) (max_message_length s).

Definition with_client_id_counter (n : Z) (s : ChatServer) : ChatServer :=
  mkChatServer (use_ssl s) (cert_path s) (client_list s) n (host s)
    (port s) (client_count s) (max_clients s) (max_message_length s).

Definition with_client_count (n : Z) (s : ChatServer) : ChatServer :=
  mkChatServer (use_ssl s) (cert_path s) (client_list s) (client_id_counter s)
    (host s) (port s) n (max_clients s) (max_message_length s).

Definition STATUS_LIST : list string :=
  ["NEW"; "CONNECTED"; "ACTIVE"; "SUSPENDED"; "ERROR"; "CLOSING"; "CLOSED"].

Definition ALLOWED_SERVER_COMMANDS : list string :=
  ["NEW"; "LIST"; "JOIN"; "HELLO"; "SEND"; "PAUSE"; "QUIT"; "ERROR";
   "FROM"; "MSG"].

(** [x in l] for a list of [str]. *)
Definition str_in (x : string) (l : list string) : bool :=
  existsb (String.eqb x) l.

(* ================================================================== *)
(** ** Exceptions, stream events and the coroutine monad *)

Inductive exn :=
| KeyError (key : option string)   (* [None]: the key was Python's [None] *)
| TypeError
| AttributeError
| UnicodeDecodeError
| IncompleteReadError
| ConnectionResetError
| BrokenPipeError
| RuntimeError (msg : string)
| OtherError.

(** Calls made on stream writers, in order. *)
Inductive event :=
| Wrote (cw : writer) (data : string)
| Closed (cw : writer).

Inductive outcome (A : Type) :=
| Return (a : A)
| Raise (e : exn).
Arguments Return {A} a.
Arguments Raise {A} e.

Definition M (A : Type) : Type :=
  ChatServer -> outcome A * ChatServer * list event.

Definition ret {A} (a : A) : M A := fun s => (Return a, s, []).

Definition raise {A} (e : exn) : M A := fun s => (Raise e, s, []).

Definition bind {A B} (m : M A) (k : A -> M B) : M B :=
  fun s =>
    match m s with
    | (Return a, s1, out1) =>
        let '(r, s2, out2) := k a s1 in (r, s2, (out1 ++ out2)%list)
    | (Raise e, s1, out1) => (Raise e, s1, out1)
    end.

(** [try: m  except Exception as e: h e] *)
Definition try_except {A} (m : M A) (h : exn -> M A) : M A :=
  fun s =>
    match m s with
    | (Return a, s1, out1) => (Return a, s1, out1)
    | (Raise e, s1, out1) =>
        let '(r, s2, out2) := h e s1 in (r, s2, (out1 ++ out2)%list)
    end.

Definition get_server : M ChatServer := fun s => (Return s, s, []).
Definition modify (f : ChatServer -> ChatServer) : M unit :=
  fun s => (Return tt, f s, []).
Definition emit (e : event) : M unit := fun s => (Return tt, s, [e]).

Notation "x <- m ;; k" := (bind m (fun x => k))
  (at level 61, m at next level, right associativity).
Notation "m ;; k" := (bind m (fun _ => k))
  (at level 61, right associativity).
Notation "' pat <- m ;; k" :=
  (bind m (fun x => match x with pat => k end))
  (at level 61, pat pattern, m at next level, right associativity).

Definition when (b : bool) (m : M unit) : M unit := if b then m else ret tt.

(** [d[k]] *)
Definition getitem {V} (d : dict V) (k : string) : M V :=
  match dict_get k d with
  | Some v => ret v
  | None => raise (KeyError (Some k))
  end.

(** [e["writer"]] and [e["status"]] for a room's value [e]; indexing a
    [str] with a [str] raises [TypeError]. *)
Definition entry_writer (e : entry) : M writer :=
  match e with Session cw _ => ret cw | Bare _ => raise TypeError end.

Definition entry_status (e : entry) : M string :=
  match e with Session _ st => ret st | Bare _ => raise TypeError end.

(** [self.client_list[chat_room][client_id]["status"] = status] *)
Definition set_status (chat_room client_id status : string) : M unit :=
  s <- get_server ;;
  clients <- getitem (client_list s) chat_room ;;
  e <- getitem clients client_id ;;
  match e with
  | Session cw _ =>
      modify (with_client_list
        (dict_set chat_room (dict_set client_id (Session cw status) clients)
           (client_list s)))
  | Bare _ => raise TypeError
  end.

(** [self.client_list[name][key] = value]: item assignment on the room dict
    itself. *)
Definition room_setitem (name key : string) (value : entry) : M unit :=
  s <- get_server ;;
  clients <- getitem (client_list s) name ;;
  modify (with_client_list
    (dict_set name (dict_set key value clients) (client_list s))).

Definition add_client_count (d : Z) : M unit :=
  modify (fun s => with_client_count (client_count s + d) s).

(* ================================================================== *)
(** ** What the embedding takes from Python and asyncio *)

Inductive io_op := Drain | WaitClosed.

Record Runtime := mkRuntime {
  str_upper : string -> string;            (* [str.upper] *)
  str_lower : string -> string;            (* [str.lower] *)
  exn_text : exn -> string;                (* [str(e)], as in [f"{e}"] *)
  io_fail : writer -> io_op -> option exn  (* does the awaited call raise? *)
}.

(* ================================================================== *)
(** ** The methods of [ChatServer] *)

(** [ChatServer.__init__] *)
Definition ChatServer_init (host port : string)
    (max_clients max_message_length : Z)
    (use_ssl : option bool) (cert_path : option string)
    : outcome ChatServer :=
  match use_ssl, cert_path with
  | Some _, None =>
      Raise (RuntimeError
        "You cannot use SSL without providing a certfiicate by path.")
  | _, _ =>
      Return (mkChatServer use_ssl cert_path [] 1 host port 0
                max_clients max_message_length)
  end.

(** The server the tests and [main.py] build when no TLS is configured. *)
Definition fresh_server (max_clients max_message_length : Z) : ChatServer :=
  mkChatServer None None [] 1 "127.0.0.1" "10010" 0
    max_clients max_message_length.

(** The [match] on the sender's status in the [SEND] case: the status it
    assigns, or [None] when no [case] applies. *)
Definition status_after_send (status : string) : option string :=
  if status =? "NEW" then Some "CONNECTED"
  else if status =? "CONNECTED" then Some "ACTIVE"
  else if status =? "PAUSED" then Some "ACTIVE"
  else None.

(** The [while] loop of [register_client]: starting from [counter], step to
    the first counter whose id is unused.  A room of [n] sessions stops the
    loop within [n] iterations (see [next_client_id_unused]). *)
Fixpoint next_client_id (fuel : nat) (clients : room) (client_name : string)
    (counter : Z) : Z * string :=
  let client_id := client_name ++ py_str_int counter in
  match fuel with
  | O => (counter, client_id)
  | S fuel' =>
      if dict_mem client_id clients
      then next_client_id fuel' clients client_name (counter + 1)
      else (counter, client_id)
  end.

(** [reader.readuntil(separator=b" ")] on the bytes still to come: the chunk
    up to and including the first space, and the rest. *)
Fixpoint readuntil_space (buf : string) : option (string * string) :=
  match buf with
  | "" => None
  | String c r =>
      if Ascii.eqb c " " then Some (String c "", r)
      else match readuntil_space r with
           | Some (h, t) => Some (String c h, t)
           | None => None
           end
  end.

Definition readuntil (buf : string) : M (string * string) :=
  match readuntil_space buf with
  | Some x => ret x
  | None => raise IncompleteReadError
  end.

(** [b.decode()] *)
Definition decode (b : string) : M string :=
  if utf8_valid b then ret b else raise UnicodeDecodeError.

(** What the first half of [client_callback] hands to the dispatch. *)
Record command := mkCommand {
  message_name : string;
  chat_room : string;
  client_id : string;
  message_data : string
}.

(** The results of [list_chatrooms_as_dict]. *)
#[local] Set Warnings "-register-all".
Inductive pyobj :=
| PyNone
| PyStr (s : string)
| PyList (l : list pyobj)
| PyDict (d : list (string * pyobj)).

Section Server.
Context (rt : Runtime).

Definition writer_write (cw : writer) (data : string) : M unit :=
  emit (Wrote cw data).

Definition writer_drain (cw : writer) : M unit :=
  match io_fail rt cw Drain with
  | Some e => raise e
  | None => ret tt
  end.

Definition writer_close (cw : writer) : M unit := emit (Closed cw).

Definition writer_wait_closed (cw : writer) : M unit :=
  match io_fail rt cw WaitClosed with
  | Some e => raise e
  | None => ret tt
  end.

(** [send_error_and_close(self, cw, error_message, client_id)] *)
Definition send_error_and_close (cw : writer) (error_message client_id : string)
    : M unit :=
  try_except
    (s <- get_server ;;
     when (dict_mem client_id (client_list s))
       (room_setitem client_id "status" (Bare "ERROR")) ;;
     writer_write cw error_message ;;
     writer_drain cw ;;
     writer_close cw ;;
     writer_wait_closed cw ;;
     s <- get_server ;;
     when (dict_mem client_id (client_list s))
       (room_setitem client_id "status" (Bare "CLOSED")) ;;
     add_client_count (-1))
    (fun _ => add_client_count (-1)).

(** [send_to_client(self, message_data, client_writer)] *)
Definition send_to_client (message_data : string) (client_writer : writer)
    : M unit :=
  try_except
    (writer_write client_writer message_data ;;
     writer_drain client_writer)
    (fun _ => ret tt).

(** [send_error_to_writer(self, message_data, cw)] *)
Definition send_error_to_writer (message_data : string) (cw : writer) : M unit :=
  send_to_client ("ERROR " ++ message_data) cw.

(** [send_error_to_client(self, message_data, chat_room, client_id)] *)
Definition send_error_to_client (message_data chat_room client_id : string)
    : M unit :=
  let full_message :=
    "ERROR " ++ chat_room ++ ":" ++ client_id ++ " " ++ message_data in
  s <- get_server ;;
  clients <- getitem (client_list s) chat_room ;;
  e <- getitem clients client_id ;;
  client_writer <- entry_writer e ;;
  send_to_client full_message client_writer.

(** [writer_iterator(self, chat_room)], an async generator, together with
    the [async for] that consumes it: [body] runs at each [yield]. *)
Fixpoint writer_iterator_items (items : list (string * entry))
    (body : writer -> M unit) : M unit :=
  match items with
  | [] => ret tt
  | (_, client_data) :: rest =>
      cw <- entry_writer client_data ;;
      status <- entry_status client_data ;;
      when (str_in status ["CONNECTED"; "ACTIVE"]) (body cw) ;;
      writer_iterator_items rest body
  end.

Definition writer_iterator (chat_room : string) (body : writer -> M unit)
    : M unit :=
  s <- get_server ;;
  match dict_get chat_room (client_list s) with
  | None => ret tt
  | Some clients => writer_iterator_items clients body
  end.

(** [send_to_all_clients(self, message_data, chat_room)]; the list
    [failed_clients] is only counted for a log line. *)
Definition send_to_all_clients (message_data chat_room : string) : M unit :=
  try_except
    (let full_message := "MSG " ++ message_data in
     writer_iterator chat_room (fun client_writer =>
       try_except
         (writer_write client_writer full_message ;;
          writer_drain client_writer)
         (fun _ => ret tt)))
    (fun _ => ret tt).

(** [register_client(self, cw, client_name, chat_room)] *)
Definition register_client (cw : writer) (client_name chat_room : string)
    : M string :=
  try_except
    (let client_id := client_name in
     s <- get_server ;;
     if negb (dict_mem chat_room (client_list s)) then
       send_error_and_close cw
         ("Chat room " ++ chat_room ++ " does not exist. Please add it first.")
         client_id ;;
       ret "ERROR"
     else
       client_id <-
         (if client_id =? "client" then
            clients <- getitem (client_list s) chat_room ;;
            let '(counter, fresh) :=
              next_client_id (List.length clients) clients client_name
                (client_id_counter s + 1) in
            modify (with_client_id_counter counter) ;;
            ret fresh
          else ret client_id) ;;
       s <- get_server ;;
       when (negb (dict_mem chat_room (client_list s)))
         (modify (with_client_list (dict_set chat_room [] (client_list s)))) ;;
       room_setitem chat_room client_id (Session cw "NEW") ;;
       ret client_id)
    (fun e =>
       send_error_and_close cw ("Registration failed: " ++ exn_text rt e)
         client_name ;;
       ret "ERROR").

(** [pause_client(self, client_id)] *)
Fixpoint pause_rooms (names : list string) (client_id : string)
    (paused_rooms : list string) : M (list string) :=
  match names with
  | [] => ret paused_rooms
  | chat_room :: rest =>
      s <- get_server ;;
      clients <- getitem (client_list s) chat_room ;;
      if dict_mem client_id clients then
        set_status chat_room client_id "PAUSED" ;;
        pause_rooms rest client_id (paused_rooms ++ [chat_room])%list
      else pause_rooms rest client_id paused_rooms
  end.

Definition pause_client (client_id : string) : M string :=
  s <- get_server ;;
  paused_rooms <- pause_rooms (dict_keys (client_list s)) client_id [] ;;
  match paused_rooms with
  | [] => ret ("Client " ++ client_id ++ " not found in any chat rooms")
  | _ =>
      ret ("Client " ++ client_id ++ " paused in rooms: "
           ++ str_join ", " paused_rooms)
  end.

(** [join_chatroom(self, chat_room, client_id, client_writer)] *)
Definition join_chatroom (chat_room client_id : string) (client_writer : writer)
    : M string :=
  s <- get_server ;;
  if negb (dict_mem chat_room (client_list s)) then
    let error_message :=
      "Chat room " ++ chat_room
      ++ " can not be joined because it does not exist." in
    send_error_to_writer error_message client_writer ;;
    ret error_message
  else
    when (negb (dict_mem chat_room (client_list s)))
      (modify (with_client_list (dict_set chat_room [] (client_list s)))) ;;
    room_setitem chat_room client_id (Session client_writer "NEW") ;;
    let announcement_msg :=
      "Client " ++ client_id ++ " has joined Chat room " ++ chat_room in
    send_to_all_clients announcement_msg chat_room ;;
    ret announcement_msg.

(** [add_chatroom(self, chat_room, client_id, client_writer)] *)
Definition add_chatroom (chat_room client_id : string) (client_writer : writer)
    : M string :=
  if chat_room =? "main" then
    let error_message := "ERROR: You cannot create the main chat room" in
    send_error_to_client error_message chat_room client_id ;;
    ret error_message
  else
    s <- get_server ;;
    if dict_mem chat_room (client_list s) then
      let error_message :=
        "ERROR: Chat Room " ++ chat_room ++ " already exists." in
      send_error_to_client error_message chat_room client_id ;;
      ret error_message
    else
      modify (with_client_list (dict_set chat_room [] (client_list s))) ;;
      room_setitem chat_room client_id (Session client_writer "NEW") ;;
      let message_data :=
        "MSG Chatroom " ++ chat_room ++ " was successfully created by "
        ++ client_id ++ "." in
      send_to_client message_data client_writer ;;
      ret message_data.

(** [close_client(self, client_id)].  [self.client_list[client_id]] is a
    room, so [client_writer] is whatever that room holds under the key
    ["writer"]: a session dict or a [str], on which [.write] raises
    [AttributeError]. *)
Definition close_client (client_id : string) : M unit :=
  try_except
    (s <- get_server ;;
     if negb (dict_mem client_id (client_list s)) then ret tt
     else
       room_setitem client_id "status" (Bare "CLOSING") ;;
       s <- get_server ;;
       clients <- getitem (client_list s) client_id ;;
       client_writer <- getitem clients "writer" ;;
       try_except
         (match client_writer with
          | Session _ _ | Bare _ => raise AttributeError
          end)
         (fun _ => ret tt) ;;
       room_setitem client_id "status" (Bare "CLOSED") ;;
       add_client_count (-1))
    (fun _ => add_client_count (-1)).

(** [list_chatrooms(self, list_type, client_id, chat_room)]; an absent
    optional argument is Python's [None]. *)
Fixpoint list_all_clients (items : list (string * entry)) (list_msg : string)
    : M string :=
  match items with
  | [] => ret list_msg
  | (client_id, client_data) :: rest =>
      let list_msg := list_msg ++ (tab ++ tab ++ "+Client:" ++ client_id) in
      status <- entry_status client_data ;;
      list_all_clients rest
        (list_msg ++ (tab ++ tab ++ tab ++ "+Status:" ++ status))
  end.

Fixpoint list_all_rooms (rooms : list (string * room)) (list_msg : string)
    : M string :=
  match rooms with
  | [] => ret list_msg
  | (room_name, clients) :: rest =>
      list_msg <- list_all_clients clients
                    (list_msg ++ (tab ++ "-" ++ room_name ++ nl)) ;;
      list_all_rooms rest list_msg
  end.

Definition list_lines (indent : string) (names : list string)
    (list_msg : string) : string :=
  fold_left (fun msg name => msg ++ (indent ++ name ++ nl)) names list_msg.

Definition list_rooms_and_clients (rooms : list (string * room))
    (list_msg : string) : string :=
  fold_left
    (fun msg rc =>
       list_lines (tab ++ tab ++ "+") (dict_keys (snd rc))
         (msg ++ (tab ++ "-" ++ fst rc ++ nl)))
    rooms list_msg.

Definition rooms_of_client (client_id : string) (rooms : dict room)
    : list string :=
  dict_keys (filter (fun rc => dict_mem client_id (snd rc)) rooms).

Definition list_chatrooms (list_type : string) (client_id chat_room : option string)
    : M string :=
  let list_msg := "Chat Room List" in
  s <- get_server ;;
  if list_type =? "ALL" then
    list_all_rooms (client_list s) (list_msg ++ (" With Clients and Status:" ++ nl))
  else if list_type =? "CHAT_ROOMS" then
    ret (list_lines (tab ++ "-") (dict_keys (client_list s)) (list_msg ++ (":" ++ nl)))
  else if list_type =? "CHAT_ROOM_AND_CLIENTS" then
    ret (list_rooms_and_clients (client_list s)
           (list_msg ++ (" With Clients:" ++ nl)))
  else if list_type =? "CLIENT_CHAT_ROOMS" then
    match client_id with
    | None => ret "Client does not exist."
    | Some client_id =>
        ret (list_lines (tab ++ "-") (rooms_of_client client_id (client_list s))
               (list_msg ++ ("For Client " ++ client_id ++ ":" ++ nl)))
    end
  else if list_type =? "CLIENTS_FOR_CHAT_ROOM" then
    match chat_room with
    | None => raise (KeyError None)
    | Some chat_room =>
        clients <- getitem (client_list s) chat_room ;;
        ret (list_lines (tab ++ "-") (dict_keys clients)
               (list_msg ++ (" of Clients belonging to " ++ chat_room)))
    end
  else ret list_msg.

(** [list_chatrooms_as_dict(self, list_type, client_id, chat_room)] *)
Definition py_opt_str (o : option string) : pyobj :=
  match o with Some s => PyStr s | None => PyNone end.

Fixpoint dict_all_clients (items : list (string * entry))
    (acc : list (string * pyobj)) : M (list (string * pyobj)) :=
  match items with
  | [] => ret acc
  | (client_id, client_data) :: rest =>
      status <- entry_status client_data ;;
      dict_all_clients rest
        (dict_set client_id
           (PyDict [("client_id", PyStr client_id); ("status", PyStr status)])
           acc)
  end.

Fixpoint dict_all_rooms (rooms : list (string * room))
    (acc : list (string * pyobj)) : M (list (string * pyobj)) :=
  match rooms with
  | [] => ret acc
  | (room_name, clients) :: rest =>
      members <- dict_all_clients clients [] ;;
      dict_all_rooms rest (dict_set room_name (PyDict members) acc)
  end.

Definition list_chatrooms_as_dict (list_type : string)
    (client_id chat_room : option string) : M pyobj :=
  let type := PyStr (replace_char "_" " " (str_lower rt list_type)) in
  s <- get_server ;;
  if list_type =? "ALL" then
    chatroom_list <- dict_all_rooms (client_list s) [] ;;
    ret (PyDict [("type", type); ("chatroom_list", PyDict chatroom_list)])
  else if list_type =? "CHAT_ROOMS" then
    ret (PyDict [("type", type);
                 ("chatroom_list",
                  PyDict (map (fun rc => (fst rc, PyDict [])) (client_list s)))])
  else if list_type =? "CHAT_ROOM_AND_CLIENTS" then
    ret (PyDict [("type", type);
                 ("chatroom_list",
                  PyDict (map (fun rc =>
                     (fst rc,
                      PyDict [("client_list",
                               PyList (map PyStr (dict_keys (snd rc))))]))
                    (client_list s)))])
  else if list_type =? "CLIENT_CHAT_ROOMS" then
    match client_id with
    | None =>
        ret (PyDict
          [("error", PyStr "Client ID required for CLIENT_CHAT_ROOMS listing");
           ("status", PyStr "FAILED")])
    | Some client_id =>
        ret (PyDict
          [("type", type); ("client_id", PyStr client_id);
           ("chat_rooms",
            PyList (map PyStr (rooms_of_client client_id (client_list s))))])
    end
  else if list_type =? "CLIENTS_FOR_CHAT_ROOM" then
    let members :=
      match chat_room with
      | Some name =>
          match dict_get name (client_list s) with
          | Some clients => map PyStr (dict_keys clients)
          | None => []
          end
      | None => []
      end in
    ret (PyDict [("type", type); ("chatroom_list", PyDict []);
                 ("chat_room_name", py_opt_str chat_room);
                 ("client_list", PyList members)])
  else
    ret (PyDict [("error", PyStr "Invalid list type");
                 ("type", PyStr list_type)]).

(** *** [client_callback]: reading one command *)

(** The body of the [try] that parses the [room:client] data.  The split is
    applied to [str(client_chatroom_data)], the [repr] of the bytes read;
    the decoded text only decides whether there is anything to split. *)
Definition parse_room_client (client_reader : string)
    : M (string * string * string) :=
  '(client_chatroom_data, client_reader) <- readuntil client_reader ;;
  client_chatroom <- decode client_chatroom_data ;;
  if negb (py_len client_chatroom =? 0)%Z then
    let room_client_parts :=
      split_on ":" (py_strip (py_str_bytes client_chatroom_data)) in
    match room_client_parts with
    | [chat_room; client_id] => ret (chat_room, client_id, client_reader)
    | _ => ret ("main", "client", client_reader)
    end
  else ret ("main", "client", client_reader).

Definition is_unicode_decode_error (e : exn) : bool :=
  match e with UnicodeDecodeError => true | _ => false end.

Definition is_key_error (e : exn) : bool :=
  match e with KeyError _ => true | _ => false end.

(** [try: m  except C as e: h e], for the exception class selected by
    [cls]; any other exception passes through. *)
Definition try_except_only {A} (cls : exn -> bool) (m : M A) (h : exn -> M A)
    : M A :=
  try_except m (fun e => if cls e then h e else raise e).

Definition unknown_command_message (message_name : string) : string :=
  "ERROR: The " ++ message_name
  ++ " command is not a valid command, the client connection will be closed".

Definition max_clients_message : string :=
  "ERROR: The maximum number of clients has been reached. No more clients are allowed, the client connection will be closed".

Definition not_registered_message : string :=
  "ERROR: You have not registered or joined this chat room yet, please say HELLO or JOIN first.".

(** The first [try] block of [client_callback]: [Some c] when the handler
    goes on to dispatch [c], [None] when it has returned. *)
Definition read_command (client_reader : string) (client_writer : writer)
    : M (option command) :=
  try_except
    ('(message_identifier, client_reader) <- readuntil client_reader ;;
     decoded <- decode message_identifier ;;
     let message_name := str_upper rt (py_strip decoded) in
     if negb (str_in message_name ALLOWED_SERVER_COMMANDS) then
       send_error_and_close client_writer
         (unknown_command_message message_name) "Unknown" ;;
       add_client_count (-1) ;;
       ret None
     else
       s <- get_server ;;
       if (client_count s >? max_clients s)%Z then
         send_error_and_close client_writer max_clients_message "Unknown" ;;
         add_client_count (-1) ;;
         ret None
       else
         parsed <-
           try_except
             (x <- parse_room_client client_reader ;; ret (Some x))
             (fun e =>
                send_error_and_close client_writer
                  ("Invalid format: " ++ exn_text rt e) "Unknown" ;;
                add_client_count (-1) ;;
                ret None) ;;
         match parsed with
         | None => ret None
         | Some (chat_room, client_id, message_data_buffer) =>
             try_except_only is_unicode_decode_error
               (message_data <- decode message_data_buffer ;;
                s <- get_server ;;
                if (py_len message_data >? max_message_length s)%Z then
                  send_error_and_close client_writer
                    ("Message exceeds maximum length of "
                     ++ py_str_int (max_message_length s) ++ " characters")
                    client_id ;;
                  add_client_count (-1) ;;
                  ret None
                else
                  ret (Some (mkCommand message_name chat_room client_id
                               message_data)))
               (fun _ =>
                  send_error_and_close client_writer
                    "Invalid message encoding" client_id ;;
                  add_client_count (-1) ;;
                  ret None)
         end)
    (fun e =>
       match e with
       | IncompleteReadError | ConnectionResetError =>
           add_client_count (-1) ;; ret None
       | _ =>
           try_except
             (send_error_and_close client_writer
                ("Server error: " ++ exn_text rt e) "Unknown")
             (fun _ => ret tt) ;;
           add_client_count (-1) ;;
           ret None
       end).

(** *** [client_callback]: the [match message_name] dispatch *)

Definition process_command (c : command) (client_writer : writer) : M unit :=
  let chat_room := chat_room c in
  let client_id := client_id c in
  let message_data := message_data c in
  try_except
    (if message_name c =? "HELLO" then
       _ <- register_client client_writer client_id chat_room ;;
       ret tt
     else if message_name c =? "SEND" then
       try_except_only is_key_error
         (s <- get_server ;;
          if negb (dict_mem chat_room (client_list s))
             || negb (match dict_get chat_room (client_list s) with
                      | Some clients => dict_mem client_id clients
                      | None => false
                      end)
          then
            send_error_and_close client_writer not_registered_message client_id
          else
            clients <- getitem (client_list s) chat_room ;;
            e <- getitem clients client_id ;;
            status <- entry_status e ;;
            match status_after_send status with
            | Some status' => set_status chat_room client_id status'
            | None => ret tt
            end ;;
            (* send_to_all_clients(chat_room, message_data): positional, so
               the room name is the text and the text names the room *)
            send_to_all_clients chat_room message_data)
         (fun _ =>
            send_error_and_close client_writer
              "Client not found in chat room" client_id)
     else if message_name c =? "PAUSE" then
       try_except
         (_ <- pause_client client_id ;; ret tt)
         (fun e =>
            send_error_and_close client_writer
              ("Pause failed: " ++ exn_text rt e) client_id)
     else if message_name c =? "ERROR" then
       send_error_and_close client_writer message_data client_id
     else if message_name c =? "NEW" then
       try_except
         (_ <- add_chatroom chat_room client_id client_writer ;; ret tt)
         (fun e =>
            send_error_and_close client_writer
              ("Room creation failed: " ++ exn_text rt e) client_id)
     else if message_name c =? "JOIN" then
       try_except
         (_ <- join_chatroom chat_room client_id client_writer ;; ret tt)
         (fun e =>
            send_error_and_close client_writer
              ("Join failed: " ++ exn_text rt e) client_id)
     else if message_name c =? "LIST" then
       try_except
         (_ <- list_chatrooms message_data (Some client_id) None ;; ret tt)
         (fun e =>
            send_error_to_writer ("List failed: " ++ exn_text rt e)
              client_writer)
     else if message_name c =? "QUIT" then
       try_except (close_client client_id) (fun _ => ret tt)
     else ret tt)
    (fun e =>
       try_except
         (send_error_and_close client_writer
            ("Command processing failed: " ++ exn_text rt e) client_id)
         (fun _ => ret tt)).

(** [client_callback(self, client_reader, client_writer)]; [client_reader]
    is everything the client sends before end of input. *)
Definition client_callback (client_reader : string) (client_writer : writer)
    : M unit :=
  add_client_count 1 ;;
  cmd <- read_command client_reader client_writer ;;
  match cmd with
  | None => ret tt
  | Some c => process_command c client_writer
  end.

End Server.

(** A runtime for ASCII traffic on healthy connections: [upper] and [lower]
    act on ASCII letters, no awaited call fails.  It is what the concrete
    runs below use. *)
Fixpoint map_chars (f : ascii -> ascii) (s : string) : string :=
  match s with
  | "" => ""
  | String c r => String (f c) (map_chars f r)
  end.

Definition ascii_upper (s : string) : string :=
  map_chars (fun c =>
    if between 97 122 c then ascii_of_N (byte c - 32) else c) s.

Definition ascii_lower (s : string) : string :=
  map_chars (fun c =>
    if between 65 90 c then ascii_of_N (byte c + 32) else c) s.

Definition exn_name (e : exn) : string :=
  match e with
  | KeyError (Some k) => "'" ++ k ++ "'"
  | KeyError None => "None"
  | TypeError => "TypeError"
  | AttributeError => "AttributeError"
  | UnicodeDecodeError => "UnicodeDecodeError"
  | IncompleteReadError => "IncompleteReadError"
  | ConnectionResetError => "ConnectionResetError"
  | BrokenPipeError => "BrokenPipeError"
  | RuntimeError msg => msg
  | OtherError => "OtherError"
  end.

Definition ascii_runtime : Runtime :=
  mkRuntime ascii_upper ascii_lower exn_name (fun _ _ => None).

(* ================================================================== *)
(** ** Observations on a run *)

Definition result {A} (x : outcome A * ChatServer * list event) : outcome A :=
  fst (fst x).
Definition post {A} (x : outcome A * ChatServer * list event) : ChatServer :=
  snd (fst x).
Definition trace {A} (x : outcome A * ChatServer * list event) : list event :=
  snd x.

(** [chat_room in self.client_list] *)
Definition has_room (s : ChatServer) (chat_room : string) : bool :=
  dict_mem chat_room (client_list s).

(** [client_id in self.client_list[chat_room]], false without the room. *)
Definition is_member (s : ChatServer) (chat_room client_id : string) : bool :=
  match dict_get chat_room (client_list s) with
  | Some clients => dict_mem client_id clients
  | None => false
  end.

(** The session stored for a client of a room. *)
Definition session_of (s : ChatServer) (chat_room client_id : string)
    : option entry :=
  match dict_get chat_room (client_list s) with
  | Some clients => dict_get client_id clients
  | None => None
  end.

(** The frames a writer was sent during a run. *)
Definition written_to (cw : writer) (out : list event) : list string :=
  flat_map (fun e =>
    match e with
    | Wrote cw' data => if Nat.eqb cw' cw then [data] else []
    | Closed _ => []
    end) out.

(** The writers a broadcast to [clients] reaches, in order: sessions whose
    status is CONNECTED or ACTIVE, up to the first value that is not a
    session dict (where the iteration stops with a [TypeError]). *)
Fixpoint recipients (clients : room) : list writer :=
  match clients with
  | [] => []
  | (_, Session cw status) :: rest =>
      ((if str_in status ["CONNECTED"; "ACTIVE"] then [cw] else [])
       ++ recipients rest)%list
  | (_, Bare _) :: _ => []
  end.

(** The status a registered sender has after an accepted [SEND]. *)
Definition send_transition (status : string) : string :=
  match status_after_send status with
  | Some status' => status'
  | None => status
  end.

(** A result of [list_chatrooms_as_dict] that reports an error: a dict with
    the key ["error"]. *)
Definition is_error_value (o : pyobj) : bool :=
  match o with
  | PyDict d => dict_mem "error" d
  | _ => false
  end.

Definition SUPPORTED_LIST_TYPES : list string :=
  ["ALL"; "CHAT_ROOMS"; "CHAT_ROOM_AND_CLIENTS"; "CLIENT_CHAT_ROOMS";
   "CLIENTS_FOR_CHAT_ROOM"].

(** *** Server histories *)

(** The calls that reach a server: a connection handled by
    [client_callback], or a coroutine of the class called directly (as the
    HTTP layer does with [send_to_all_clients], [pause_client] and
    [close_client]). *)
Inductive call :=
| Connection (client_reader : string) (client_writer : writer)
| RegisterClient (cw : writer) (client_name chat_room : string)
| JoinChatroom (chat_room client_id : string) (client_writer : writer)
| AddChatroom (chat_room client_id : string) (client_writer : writer)
| PauseClient (client_id : string)
| CloseClient (client_id : string)
| SendToAllClients (message_data chat_room : string)
| SendErrorAndClose (cw : writer) (error_message client_id : string).

Definition run_call (rt : Runtime) (c : call) : M unit :=
  match c with
  | Connection client_reader client_writer =>
      client_callback rt client_reader client_writer
  | RegisterClient cw client_name chat_room =>
      _ <- register_client rt cw client_name chat_room ;; ret tt
  | JoinChatroom chat_room client_id client_writer =>
      _ <- join_chatroom rt chat_room client_id client_writer ;; ret tt
  | AddChatroom chat_room client_id client_writer =>
      _ <- add_chatroom rt chat_room client_id client_writer ;; ret tt
  | PauseClient client_id => _ <- pause_client client_id ;; ret tt
  | CloseClient client_id => close_client client_id
  | SendToAllClients message_data chat_room =>
      send_to_all_clients rt message_data chat_room
  | SendErrorAndClose cw error_message client_id =>
      send_error_and_close rt cw error_message client_id
  end.

(** The states a server goes through: it is constructed, then serves calls
    one after the other, each under whatever the runtime does then. *)
Inductive reachable : ChatServer -> Prop :=
| reachable_init host port max_clients max_message_length use_ssl cert_path s :
    ChatServer_init host port max_clients max_message_length use_ssl cert_path
    = Return s ->
    reachable s
| reachable_call rt c s :
    reachable s -> reachable (post (run_call rt c s)).

(** What no call undoes: rooms stay, members stay, and the room ["main"]
    does not appear. *)
Definition evolves (s s' : ChatServer) : Prop :=
  (forall r, has_room s r = true -> has_room s' r = true)
  /\ (forall r c, is_member s r c = true -> is_member s' r c = true)
  /\ (has_room s' "main" = true -> has_room s "main" = true).

(** A computation every run of which [evolves] the server. *)
Definition steady {A} (m : M A) : Prop := forall s, evolves s (post (m s)).

(** Serving a list of connections in order, collecting the trace. *)
Fixpoint serve (rt : Runtime) (frames : list (string * writer))
    (s : ChatServer) : ChatServer * list event :=
  match frames with
  | [] => (s, [])
  | (client_reader, client_writer) :: rest =>
      let '(_, s1, out1) := client_callback rt client_reader client_writer s in
      let '(s2, out2) := serve rt rest s1 in
      (s2, (out1 ++ out2)%list)
  end.

(* ================================================================== *)
(** ** The rest of [stream.py] *)

(** [get_client_list(self)]: the registry itself, not a copy. *)
Definition get_client_list : M (dict room) :=
  s <- get_server ;; ret (client_list s).

(** [client_to_client(self, message_data, chat_room, source_client_id,
    target_client_id)]; nothing is caught here. *)
Definition client_to_client (rt : Runtime)
    (message_data chat_room source_client_id target_client_id : string)
    : M unit :=
  s <- get_server ;;
  clients <- getitem (client_list s) chat_room ;;
  e <- getitem clients target_client_id ;;
  client_writer <- entry_writer e ;;
  let full_message :=
    "MSG FROM " ++ chat_room ++ ":" ++ source_client_id ++ " " ++ message_data in
  writer_write client_writer full_message ;;
  writer_drain rt client_writer.

(** Python's truth value of an optional flag and of an optional [str]. *)
Definition truthy_flag (o : option bool) : bool :=
  match o with Some true => true | _ => false end.

Definition truthy_text (o : option string) : bool :=
  match o with
  | Some (String _ _) => true
  | _ => false
  end.

(** [run_server]: the path given to [load_cert_chain] for the [ssl_context]
    handed to [start_server], [None] when no context is built and the server
    listens without TLS.  Whether the file loads is not part of the model. *)
Definition run_server_ssl_context (s : ChatServer) : option string :=
  if truthy_flag (use_ssl s) && truthy_text (cert_path s)
  then cert_path s else None.

(** [ssl_handshake_timeout] and [ssl_shutdown_timeout], in seconds. *)
Definition run_server_ssl_timeout (s : ChatServer) : option Z :=
  match run_server_ssl_context s with
  | None => None
  | Some _ => Some 30%Z
  end.

(* ================================================================== *)
(** ** [config.py] and the start-up in [main.py] *)

Module Config.

Definition MODES : list string := ["socket"; "http"; "both"].

(** The converters of [_extract_config_from_parser] and [load_env_vars]
    for ["mode"] and ["use_ssl"]. *)
Definition mode_converter (v : string) : string :=
  if str_in v MODES then v else "both".

Definition use_ssl_converter (rt : Runtime) (v : string) : option bool :=
  match v with
  | "" => None
  | _ => Some (str_in (str_lower rt v) ["true"; "yes"; "1"; "on"])
  end.

(** The [argparse.Namespace] given to [ServerConfig]: an attribute that is
    absent is [None] here. *)
Record Namespace := mkNamespace {
  ns_mode : option string;
  ns_socket_host : option string;
  ns_socket_port : option Z;
  ns_http_host : option string;
  ns_http_port : option Z;
  ns_max_clients : option Z;
  ns_max_message_length : option Z;
  ns_use_ssl : option bool;
  ns_cert_path : option string;
  ns_config_file : option string
}.

Record ServerConfig := mkServerConfig {
  mode : string;
  socket_host : string;
  socket_port : Z;
  http_host : string;
  http_port : Z;
  max_clients : Z;
  max_message_length : Z;
  use_ssl : option bool;
  cert_path : option string;
  config_file : option string
}.

Inductive validated :=
| Valid (c : ServerConfig)
| ValueError (msg : string).

Definition getattr {A} (o : option A) (default : A) : A :=
  match o with Some a => a | None => default end.

(** [ServerConfig._validate] *)
Definition validate (c : ServerConfig) : validated :=
  let c :=
    if negb (str_in (mode c) MODES)
    then mkServerConfig "both" (socket_host c) (socket_port c) (http_host c)
           (http_port c) (max_clients c) (max_message_length c) (use_ssl c)
           (cert_path c) (config_file c)
    else c in
  if truthy_flag (use_ssl c) && negb (truthy_text (cert_path c))
  then ValueError "SSL is enabled but no certificate path provided."
  else Valid c.

(** [ServerConfig.__init__] for a configuration that is given. *)
Definition ServerConfig_init (config : Namespace) : validated :=
  validate
    (mkServerConfig
       (getattr (ns_mode config) "both")
       (getattr (ns_socket_host config) "127.0.0.1")
       (getattr (ns_socket_port config) 10010%Z)
       (getattr (ns_http_host config) "127.0.0.1")
       (getattr (ns_http_port config) 8000%Z)
       (getattr (ns_max_clients config) 100%Z)
       (getattr (ns_max_message_length config) 255%Z)
       (ns_use_ssl config) (ns_cert_path config) (ns_config_file config)).

(** What the [__main__] block of [main.py] does with a configuration: it
    exits, or starts servers around the [ChatServer] it constructs
    ([run_socket_server], [run_both_servers]), or serves the ASGI app, whose
    [ChatServer] was built without arguments. *)
Inductive started :=
| Exit (code : Z)
| SocketServer (chat_server : outcome ChatServer)
| AsgiServer (chat_server : outcome ChatServer)
| BothServers (chat_server : outcome ChatServer)
| NoServer.

Definition main (config : ServerConfig) : started :=
  if truthy_flag (use_ssl config) && negb (truthy_text (cert_path config))
  then Exit 1
  else if mode config =? "socket" then
    SocketServer
      (ChatServer_init (socket_host config) (py_str_int (socket_port config))
         (max_clients config) (max_message_length config)
         (use_ssl config) (cert_path config))
  else if mode config =? "http" then
    AsgiServer (ChatServer_init "127.0.0.1" "10010" 100 255 None None)
  else if mode config =? "both" then
    BothServers
      (ChatServer_init (socket_host config) (py_str_int (socket_port config))
         (max_clients config) (max_message_length config)
         (use_ssl config) (cert_path config))
  else NoServer.

(** The [ChatServer] construction a start-up ends in, if any. *)
Definition constructed (r : started) : option (outcome ChatServer) :=
  match r with
  | SocketServer o | AsgiServer o | BothServers o => Some o
  | Exit _ | NoServer => None
  end.

End Config.

(* ================================================================== *)
(** ** The endpoints of [api.py] that call the server *)

Module Api.

(** A handler returns a response or raises [HTTPException]; [detail] is
    the text of the detail (the 400 replies wrap it as [{"error": text}]). *)
Inductive http_result (A : Type) :=
| Response (a : A)
| HTTPException (status_code : Z) (detail : string).
Arguments Response {A} a.
Arguments HTTPException {A} status_code detail.

Record sent := mkSent {
  sent_status : string;
  sent_message : string;
  sent_chat_room : string;
  clients_notified : Z
}.

(** [POST /messages/send]; [chat_room] and [message_data] come from the
    request.  [client_list] is the server's own dict, so the count is read
    from the server as it is after the broadcast. *)
Definition send_message (rt : Runtime) (message_data chat_room : string)
    : M (http_result sent) :=
  try_except
    (client_list0 <- get_client_list ;;
     if negb (dict_mem chat_room client_list0) then
       ret (HTTPException 404 ("Chat room '" ++ chat_room ++ "' not found"))
     else
       send_to_all_clients rt message_data chat_room ;;
       client_list1 <- get_client_list ;;
       let room_clients :=
         match dict_get chat_room client_list1 with
         | Some clients => clients
         | None => []
         end in
       ret (Response (mkSent "sent" message_data chat_room
                        (Z.of_nat (List.length room_clients)))))
    (fun e => ret (HTTPException 400 (exn_text rt e))).

Record paused := mkPaused {
  paused_status : string;
  paused_client_id : string;
  paused_chat_room : option string;
  paused_message : string
}.

(** [POST /clients/pause] *)
Definition pause_client (rt : Runtime) (client_id : string)
    (chat_room : option string) : M (http_result paused) :=
  try_except
    (result <- pause_client client_id ;;
     ret (Response (mkPaused "paused" client_id chat_room result)))
    (fun e => ret (HTTPException 400 (exn_text rt e))).

Record closed := mkClosed {
  closed_status : string;
  closed_client_id : string;
  closed_chat_room : option string
}.

(** [POST /clients/close] *)
Definition close_client (rt : Runtime) (client_id : string)
    (chat_room : option string) : M (http_result closed) :=
  try_except
    (close_client client_id ;;
     ret (Response (mkClosed "closed" client_id chat_room)))
    (fun e => ret (HTTPException 400 (exn_text rt e))).

End Api.

(* ================================================================== *)
(** ** What a call can do to the server *)

(** The statuses the code gives a session. *)
Definition SESSION_STATUSES : list string :=
  ["NEW"; "CONNECTED"; "ACTIVE"; "PAUSED"].

(** The elementary changes: the connection count is set, the id counter
    moves up, a NEW session is stored in a room, a session's status is set
    to CONNECTED, ACTIVE or PAUSED, a [str] is stored under the key
    ["status"] of a room, a room that is missing (and not ["main"]) is
    created empty. *)
Inductive effect : ChatServer -> ChatServer -> Prop :=
| effect_none s : effect s s
| effect_then s1 s2 s3 : effect s1 s2 -> effect s2 s3 -> effect s1 s3
| effect_count s n : effect s (with_client_count n s)
| effect_counter s n :
    (client_id_counter s <= n)%Z -> effect s (with_client_id_counter n s)
| effect_session s r c cw clients :
    dict_get r (client_list s) = Some clients ->
    effect s
      (with_client_list
         (dict_set r (dict_set c (Session cw "NEW") clients) (client_list s))
         s)
| effect_status s r c cw old status clients :
    dict_get r (client_list s) = Some clients ->
    dict_get c clients = Some (Session cw old) ->
    In status ["CONNECTED"; "ACTIVE"; "PAUSED"] ->
    effect s
      (with_client_list
         (dict_set r (dict_set c (Session cw status) clients) (client_list s))
         s)
| effect_bare s r text clients :
    dict_get r (client_list s) = Some clients ->
    effect s
      (with_client_list
         (dict_set r (dict_set "status" (Bare text) clients) (client_list s))
         s)
| effect_room s r :
    has_room s r = false -> r <> "main" ->
    effect s (with_client_list (dict_set r [] (client_list s)) s).

(** A computation every run of which is made of such changes. *)
Definition tidy {A} (m : M A) : Prop := forall s, effect s (post (m s)).

(** Every session has one of the statuses the code gives. *)
Definition statuses_ok (s : ChatServer) : Prop :=
  forall r c cw status,
    session_of s r c = Some (Session cw status) -> In status SESSION_STATUSES.

(** Python dicts have no repeated key: neither the registry nor a room. *)
Definition well_formed (s : ChatServer) : Prop :=
  NoDup (dict_keys (client_list s))
  /\ forall name clients,
       In (name, clients) (client_list s) -> NoDup (dict_keys clients).

(** The configuration a server was constructed with. *)
Definition same_configuration (s s' : ChatServer) : Prop :=
  use_ssl s' = use_ssl s /\ cert_path s' = cert_path s
  /\ host s' = host s /\ port s' = port s
  /\ max_clients s' = max_clients s
  /\ max_message_length s' = max_message_length s.

(** [pause_client] on one stored value: a session becomes PAUSED. *)
Definition paused_entry (e : option entry) : option entry :=
  match e with
  | Some (Session cw _) => Some (Session cw "PAUSED")
  | other => other
  end.

(** The sessions a broadcast can reach: [Session] values only. *)
Definition only_sessions (clients : room) : Prop :=
  forall c text, ~ In (c, Bare text) clients.

(** [s'] is [s] after some calls. *)
Inductive later (s : ChatServer) : ChatServer -> Prop :=
| later_here : later s s
| later_call rt c s' : later s s' -> later s (post (run_call rt c s')).

(** What a connection that is turned away is sent: the error frame, and
    the close when the [drain()] went through. *)
Definition error_reply (rt : Runtime) (cw : writer) (msg : string)
    : list event :=
  Wrote cw msg ::
  match io_fail rt cw Drain with None => [Closed cw] | Some _ => [] end.

(** A run of the handler that turns the connection away with [msg] under
    the client id [cid], started on the server [s]: it returns, the reply is
    the error frame, the count of connections ends one below that of [s],
    and the registry is as in [s] but for the key ["status"] of a room named
    [cid]. *)
Definition turned_away (rt : Runtime) (cw : writer) (msg cid : string)
    (s : ChatServer) (run : outcome unit * ChatServer * list event) : Prop :=
  result run = Return tt
  /\ trace run = error_reply rt cw msg
  /\ client_count (post run) = (client_count s - 1)%Z
  /\ (forall r, has_room (post run) r = has_room s r)
  /\ (forall r c, (cid =? r) && ("status" =? c) = false ->
        session_of (post run) r c = session_of s r c).

(** Every event of every run of [m] satisfies [P]. *)
Definition emits {A} (P : event -> Prop) (m : M A) : Prop :=
  forall s, Forall P (trace (m s)).

(** An event that closes no writer but [cw]; an event that closes none. *)
Definition closes_only (cw : writer) (e : event) : Prop :=
  match e with Closed w => w = cw | Wrote _ _ => True end.

Definition closes_none (e : event) : Prop :=
  match e with Closed _ => False | Wrote _ _ => True end.

(* ================================================================== *)
(** ** Lemmas on dicts *)

Section DictFacts.
Context {V : Type}.
Implicit Types (d : dict V) (k : string) (v : V).

Lemma dict_get_set_same d k v : dict_get k (dict_set k v d) = Some v.
Proof.
  induction d as [|[k' v'] d IH]; simpl.
  - now rewrite String.eqb_refl.
  - destruct (String.eqb k' k) eqn:E; simpl.
    + now rewrite String.eqb_refl.
    + now rewrite E.
Qed.

Lemma dict_get_set_other d k k' v :
  k <> k' -> dict_get k' (dict_set k v d) = dict_get k' d.
Proof.
  intros Hne. induction d as [|[k0 v0] d IH]; simpl.
  - apply String.eqb_neq in Hne. now rewrite Hne.
  - destruct (String.eqb k0 k) eqn:E; simpl.
    + apply String.eqb_eq in E. subst k0.
      apply String.eqb_neq in Hne. now rewrite Hne.
    + destruct (String.eqb k0 k'); auto.
Qed.

Lemma dict_mem_set d k k' v :
  dict_mem k' (dict_set k v d) = String.eqb k k' || dict_mem k' d.
Proof.
  unfold dict_mem. destruct (String.eqb k k') eqn:E.
  - apply String.eqb_eq in E. subst. now rewrite dict_get_set_same.
  - apply String.eqb_neq in E. now rewrite dict_get_set_other.
Qed.

Lemma dict_mem_set_same d k v : dict_mem k (dict_set k v d) = true.
Proof. rewrite dict_mem_set, String.eqb_refl. reflexivity. Qed.

Lemma dict_mem_set_mono d k k' v :
  dict_mem k' d = true -> dict_mem k' (dict_set k v d) = true.
Proof. intros H. rewrite dict_mem_set, H. apply orb_true_r. Qed.

Lemma dict_mem_keys d k : dict_mem k d = true <-> In k (dict_keys d).
Proof.
  unfold dict_mem. induction d as [|[k' v'] d IH]; simpl.
  - split; [discriminate | tauto].
  - destruct (String.eqb k' k) eqn:E.
    + apply String.eqb_eq in E. subst. tauto.
    + apply String.eqb_neq in E. rewrite IH. intuition congruence.
Qed.

Lemma dict_get_mem d k v : dict_get k d = Some v -> dict_mem k d = true.
Proof. unfold dict_mem. now intros ->. Qed.

Lemma dict_mem_get d k : dict_mem k d = true -> exists v, dict_get k d = Some v.
Proof. unfold dict_mem. destruct (dict_get k d); [eauto | discriminate]. Qed.

Lemma dict_mem_false_get d k : dict_mem k d = false -> dict_get k d = None.
Proof. unfold dict_mem. destruct (dict_get k d); [discriminate | auto]. Qed.

End DictFacts.

(* ================================================================== *)
(** ** Running the monad *)

(** [munfold] unfolds the operations of the monad; [mstep] also computes
    the fields of an updated server; [msimp tac] alternates [mstep] with the
    rewrites [tac] until nothing moves. *)
Ltac munfold :=
  cbv beta iota zeta delta
    [bind try_except try_except_only ret raise get_server modify emit when
     getitem writer_write writer_drain writer_close writer_wait_closed
     add_client_count].

Ltac mstep :=
  munfold;
  cbn [app client_list client_count max_clients max_message_length
       client_id_counter with_client_list with_client_count
       with_client_id_counter].

Ltac msimp tac := repeat (progress (mstep; cbn [negb]; tac)).

(** Case analysis on the innermost [match] of a hypothesis. *)
Ltac break_match_in H :=
  match type of H with
  | context [match ?x with _ => _ end] =>
      lazymatch x with
      | context [match _ with _ => _ end] => fail
      | _ => destruct x eqn:?
      end
  end.

Lemma evolves_refl s : evolves s s.
Proof. repeat split; auto. Qed.

Lemma evolves_trans s1 s2 s3 : evolves s1 s2 -> evolves s2 s3 -> evolves s1 s3.
Proof.
  intros (A1 & B1 & C1) (A2 & B2 & C2). repeat split; auto.
Qed.

Lemma evolves_same_list s s' : client_list s' = client_list s -> evolves s s'.
Proof.
  intros H. unfold evolves, has_room, is_member. rewrite H. auto.
Qed.

Lemma evolves_setitem s name key v clients :
  dict_get name (client_list s) = Some clients ->
  evolves s
    (with_client_list
       (dict_set name (dict_set key v clients) (client_list s)) s).
Proof.
  intros H. unfold evolves, has_room, is_member. cbn [client_list with_client_list].
  split; [|split].
  - intros r Hr. now apply dict_mem_set_mono.
  - intros r c. destruct (String.eqb name r) eqn:E.
    + apply String.eqb_eq in E. subst r. rewrite H, dict_get_set_same.
      apply dict_mem_set_mono.
    + apply String.eqb_neq in E. now rewrite dict_get_set_other.
  - rewrite dict_mem_set. intros Hm. apply orb_true_iff in Hm as [E|Hm]; auto.
    apply String.eqb_eq in E. subst name. eapply dict_get_mem; eauto.
Qed.

Lemma evolves_new_room s name :
  has_room s name = false -> name <> "main" ->
  evolves s (with_client_list (dict_set name [] (client_list s)) s).
Proof.
  unfold evolves, has_room, is_member. intros Hn Hm.
  cbn [client_list with_client_list]. split; [|split].
  - intros r Hr. now apply dict_mem_set_mono.
  - intros r c. destruct (String.eqb name r) eqn:E.
    + apply String.eqb_eq in E. subst r.
      rewrite (dict_mem_false_get _ _ Hn). discriminate.
    + apply String.eqb_neq in E. now rewrite dict_get_set_other.
  - rewrite dict_mem_set. intros H. apply orb_true_iff in H as [E|H]; auto.
    apply String.eqb_eq in E. contradiction.
Qed.

Section Steady.
Context {A B : Type}.

Lemma steady_ret (a : A) : steady (ret a).
Proof. intros s. apply evolves_refl. Qed.

Lemma steady_raise (e : exn) : steady (@raise A e).
Proof. intros s. apply evolves_refl. Qed.

Lemma steady_bind (m : M A) (k : A -> M B) :
  steady m -> (forall a, steady (k a)) -> steady (bind m k).
Proof.
  intros Hm Hk s. specialize (Hm s). unfold bind.
  destruct (m s) as [[[a|e] s1] o1]; cbn in *; auto.
  specialize (Hk a s1). destruct (k a s1) as [[r s2] o2]; cbn in *.
  eapply evolves_trans; eauto.
Qed.

Lemma steady_try_except (m : M A) (h : exn -> M A) :
  steady m -> (forall e, steady (h e)) -> steady (try_except m h).
Proof.
  intros Hm Hh s. specialize (Hm s). unfold try_except.
  destruct (m s) as [[[a|e] s1] o1]; cbn in *; auto.
  specialize (Hh e s1). destruct (h e s1) as [[r s2] o2]; cbn in *.
  eapply evolves_trans; eauto.
Qed.

Lemma steady_try_except_only cls (m : M A) (h : exn -> M A) :
  steady m -> (forall e, steady (h e)) -> steady (try_except_only cls m h).
Proof.
  intros Hm Hh. apply steady_try_except; auto.
  intros e. destruct (cls e); auto using steady_raise.
Qed.

Lemma steady_get_bind (k : ChatServer -> M B) :
  (forall s, evolves s (post (k s s))) -> steady (bind get_server k).
Proof.
  intros H s. specialize (H s). unfold bind, get_server.
  destruct (k s s) as [[r s2] o2]; cbn in *. auto.
Qed.

End Steady.

Lemma steady_get : steady get_server.
Proof. intros s. apply evolves_refl. Qed.

Lemma steady_emit e : steady (emit e).
Proof. intros s. apply evolves_refl. Qed.

Lemma steady_when b m : steady m -> steady (when b m).
Proof. destruct b; cbn; auto. apply steady_ret. Qed.

Lemma steady_getitem {V} (d : dict V) k : steady (getitem d k).
Proof. unfold getitem. destruct (dict_get k d); [apply steady_ret | apply steady_raise]. Qed.

Lemma steady_entry_writer e : steady (entry_writer e).
Proof. destruct e; [apply steady_ret | apply steady_raise]. Qed.

Lemma steady_entry_status e : steady (entry_status e).
Proof. destruct e; [apply steady_ret | apply steady_raise]. Qed.

Lemma steady_add_client_count d : steady (add_client_count d).
Proof. intros s. now apply evolves_same_list. Qed.

Lemma steady_set_counter n : steady (modify (with_client_id_counter n)).
Proof. intros s. now apply evolves_same_list. Qed.

Lemma steady_room_setitem name key value : steady (room_setitem name key value).
Proof.
  intros s. unfold room_setitem. munfold.
  destruct (dict_get name (client_list s)) as [clients|] eqn:E; cbn.
  - now apply evolves_setitem.
  - apply evolves_refl.
Qed.

Lemma steady_set_status chat_room client_id status :
  steady (set_status chat_room client_id status).
Proof.
  intros s. unfold set_status. munfold.
  destruct (dict_get chat_room (client_list s)) as [clients|] eqn:E; cbn;
    [|apply evolves_refl].
  destruct (dict_get client_id clients) as [[cw old|t]|]; cbn;
    try apply evolves_refl.
  now apply evolves_setitem.
Qed.

Create HintDb steady.

#[local] Hint Resolve steady_ret steady_raise steady_get steady_emit
  steady_getitem steady_entry_writer steady_entry_status
  steady_add_client_count steady_set_counter steady_room_setitem
  steady_set_status : steady.

Ltac steady_step :=
  lazymatch goal with
  | |- steady (bind _ _) => apply steady_bind; [|intros ?]
  | |- steady (try_except _ _) => apply steady_try_except; [|intros ?]
  | |- steady (try_except_only _ _ _) => apply steady_try_except_only; [|intros ?]
  | |- steady (when _ _) => apply steady_when
  | |- steady (if ?b then _ else _) => destruct b
  | |- steady (match ?x with _ => _ end) => destruct x
  | |- steady _ => solve [auto with steady]
  end.

Ltac steady_auto := repeat steady_step.

Lemma steady_writer_drain rt cw : steady (writer_drain rt cw).
Proof. unfold writer_drain. steady_auto. Qed.

Lemma steady_writer_wait_closed rt cw : steady (writer_wait_closed rt cw).
Proof. unfold writer_wait_closed. steady_auto. Qed.

#[local] Hint Resolve steady_writer_drain steady_writer_wait_closed : steady.
#[local] Hint Extern 1 (steady (writer_write _ _)) => apply steady_emit : steady.
#[local] Hint Extern 1 (steady (writer_close _)) => apply steady_emit : steady.

Lemma steady_send_error_and_close rt cw msg cid :
  steady (send_error_and_close rt cw msg cid).
Proof. unfold send_error_and_close. steady_auto. Qed.

Lemma steady_send_to_client rt msg cw : steady (send_to_client rt msg cw).
Proof. unfold send_to_client. steady_auto. Qed.

#[local] Hint Resolve steady_send_error_and_close steady_send_to_client : steady.

Lemma steady_send_error_to_writer rt msg cw :
  steady (send_error_to_writer rt msg cw).
Proof. unfold send_error_to_writer. steady_auto. Qed.

Lemma steady_send_error_to_client rt msg chat_room cid :
  steady (send_error_to_client rt msg chat_room cid).
Proof. unfold send_error_to_client. steady_auto. Qed.

#[local] Hint Resolve steady_send_error_to_writer steady_send_error_to_client
  : steady.

Lemma steady_writer_iterator_items items body :
  (forall cw, steady (body cw)) -> steady (writer_iterator_items items body).
Proof.
  intros Hb. induction items as [|[k e] items IH]; cbn [writer_iterator_items].
  - apply steady_ret.
  - steady_auto; auto.
Qed.

Lemma steady_send_to_all_clients rt message_data chat_room :
  steady (send_to_all_clients rt message_data chat_room).
Proof.
  unfold send_to_all_clients, writer_iterator. steady_auto.
  apply steady_writer_iterator_items. intros cw. steady_auto.
Qed.

Lemma steady_pause_rooms names client_id paused :
  steady (pause_rooms names client_id paused).
Proof.
  revert paused. induction names as [|n names IH]; intros paused;
    cbn [pause_rooms]; steady_auto; auto.
Qed.

Lemma steady_pause_client client_id : steady (pause_client client_id).
Proof.
  unfold pause_client. steady_auto. apply steady_pause_rooms.
Qed.

Lemma steady_close_client client_id : steady (close_client client_id).
Proof. unfold close_client. steady_auto. Qed.

#[local] Hint Resolve steady_send_to_all_clients steady_pause_client
  steady_close_client : steady.

Lemma evolves_bind_at {A B} (m : M A) (k : A -> M B) s :
  evolves s (post (m s)) -> (forall a, steady (k a)) ->
  evolves s (post (bind m k s)).
Proof.
  intros Hm Hk. unfold bind.
  destruct (m s) as [[[a|e] s1] o1]; cbn in *; auto.
  specialize (Hk a s1). destruct (k a s1) as [[r s2] o2]; cbn in *.
  eapply evolves_trans; eauto.
Qed.

Ltac steady_here :=
  lazymatch goal with
  | |- evolves ?s (post (?m ?s)) =>
      let H := fresh in assert (H : steady m) by steady_auto; apply H
  end.

Lemma steady_join_chatroom rt chat_room client_id client_writer :
  steady (join_chatroom rt chat_room client_id client_writer).
Proof.
  unfold join_chatroom. apply steady_get_bind. intros s.
  destruct (dict_mem chat_room (client_list s)) eqn:E; cbn [negb when];
    steady_here.
Qed.

Lemma steady_add_chatroom rt chat_room client_id client_writer :
  steady (add_chatroom rt chat_room client_id client_writer).
Proof.
  unfold add_chatroom. destruct (chat_room =? "main") eqn:Em.
  - steady_auto.
  - apply steady_get_bind. intros s.
    destruct (dict_mem chat_room (client_list s)) eqn:E.
    + steady_here.
    + apply evolves_bind_at; [|intros; steady_auto].
      apply evolves_new_room; auto. now apply String.eqb_neq.
Qed.

Lemma evolves_bind_same_list {A B} (m : M A) (k : A -> M B) s :
  client_list (post (m s)) = client_list s ->
  (forall a s1, client_list s1 = client_list s -> evolves s (post (k a s1))) ->
  evolves s (post (bind m k s)).
Proof.
  intros Hm Hk. unfold bind.
  destruct (m s) as [[[a|e] s1] o1]; cbn in *.
  - specialize (Hk a s1 Hm). destruct (k a s1) as [[r s2] o2]; cbn in *; auto.
  - now apply evolves_same_list.
Qed.

Lemma post_get_bind {B} (k : ChatServer -> M B) s :
  post (bind get_server k s) = post (k s s).
Proof.
  unfold bind, get_server. destruct (k s s) as [[r s2] o2]. reflexivity.
Qed.

Lemma steady_register_client rt cw client_name chat_room :
  steady (register_client rt cw client_name chat_room).
Proof.
  unfold register_client. apply steady_try_except; [|intros; steady_auto].
  apply steady_get_bind. intros s.
  destruct (dict_mem chat_room (client_list s)) eqn:E; cbn [negb];
    [|steady_here].
  apply evolves_bind_same_list.
  - destruct (client_name =? "client"); [|reflexivity].
    munfold. destruct (dict_get chat_room (client_list s)); [|reflexivity].
    destruct (next_client_id _ _ _ _). reflexivity.
  - intros cid s1 H1. apply evolves_trans with s1.
    + now apply evolves_same_list.
    + rewrite post_get_bind, H1, E. cbn [negb when]. steady_here.
Qed.

#[local] Hint Resolve steady_join_chatroom steady_add_chatroom
  steady_register_client : steady.

Lemma steady_list_all_clients items msg : steady (list_all_clients items msg).
Proof.
  revert msg. induction items as [|[k e] items IH]; intros msg;
    cbn [list_all_clients]; steady_auto; auto.
Qed.

Lemma steady_list_all_rooms rooms msg : steady (list_all_rooms rooms msg).
Proof.
  revert msg. induction rooms as [|[k e] rooms IH]; intros msg;
    cbn [list_all_rooms]; steady_auto; auto using steady_list_all_clients.
Qed.

Lemma steady_list_chatrooms list_type client_id chat_room :
  steady (list_chatrooms list_type client_id chat_room).
Proof.
  unfold list_chatrooms. steady_auto. apply steady_list_all_rooms.
Qed.

#[local] Hint Resolve steady_list_chatrooms : steady.

Lemma steady_process_command rt c client_writer :
  steady (process_command rt c client_writer).
Proof. unfold process_command. steady_auto. Qed.

Lemma steady_readuntil buf : steady (readuntil buf).
Proof. unfold readuntil. steady_auto. Qed.

Lemma steady_decode b : steady (decode b).
Proof. unfold decode. steady_auto. Qed.

#[local] Hint Resolve steady_readuntil steady_decode : steady.

Lemma steady_parse_room_client client_reader :
  steady (parse_room_client client_reader).
Proof. unfold parse_room_client. steady_auto. Qed.

#[local] Hint Resolve steady_parse_room_client steady_process_command : steady.

Lemma steady_read_command rt client_reader client_writer :
  steady (read_command rt client_reader client_writer).
Proof. unfold read_command. steady_auto. Qed.

#[local] Hint Resolve steady_read_command : steady.

Lemma steady_client_callback rt client_reader client_writer :
  steady (client_callback rt client_reader client_writer).
Proof. unfold client_callback. steady_auto. Qed.

#[local] Hint Resolve steady_client_callback : steady.

Lemma steady_run_call rt c : steady (run_call rt c).
Proof. destruct c; cbn [run_call]; steady_auto. Qed.

(* ================================================================== *)
(** ** Broadcast and status updates, in closed form *)

Lemma guarded_write rt cw data s :
  try_except (writer_write cw data ;; writer_drain rt cw) (fun _ => ret tt) s
  = (Return tt, s, [Wrote cw data]).
Proof. munfold. destruct (io_fail rt cw Drain); reflexivity. Qed.

Lemma writer_iterator_items_run rt items full_message s :
  exists r,
    writer_iterator_items items
      (fun client_writer =>
         try_except
           (writer_write client_writer full_message ;;
            writer_drain rt client_writer)
           (fun _ => ret tt)) s
    = (r, s, map (fun cw => Wrote cw full_message) (recipients items)).
Proof.
  induction items as [|[k e] items [r IH]];
    cbn [writer_iterator_items recipients].
  - eexists. reflexivity.
  - destruct e as [cw st|t]; [|eexists; reflexivity].
    unfold bind at 1 2 3. cbn [entry_writer entry_status ret]. unfold when.
    destruct (str_in st ["CONNECTED"; "ACTIVE"]).
    + rewrite guarded_write, IH. eexists. reflexivity.
    + cbn [ret]. rewrite IH. eexists; reflexivity.
Qed.

(** A broadcast never raises, leaves the server as it is, and writes the
    frame to the recipients of the room it is given. *)
Lemma send_to_all_clients_run rt message_data chat_room s :
  send_to_all_clients rt message_data chat_room s
  = (Return tt, s,
     map (fun cw => Wrote cw ("MSG " ++ message_data))
       (match dict_get chat_room (client_list s) with
        | Some clients => recipients clients
        | None => []
        end)).
Proof.
  unfold send_to_all_clients, writer_iterator. unfold try_except at 1.
  unfold bind at 1, get_server.
  destruct (dict_get chat_room (client_list s)) as [clients|]; [|reflexivity].
  destruct (writer_iterator_items_run rt clients ("MSG " ++ message_data) s)
    as [r H].
  rewrite H. destruct r as [[]|]; cbn; rewrite ?app_nil_r; reflexivity.
Qed.

Lemma set_status_run chat_room client_id status clients cw old s :
  dict_get chat_room (client_list s) = Some clients ->
  dict_get client_id clients = Some (Session cw old) ->
  set_status chat_room client_id status s
  = (Return tt,
     with_client_list
       (dict_set chat_room (dict_set client_id (Session cw status) clients)
          (client_list s)) s, []).
Proof.
  intros H1 H2. unfold set_status. munfold. rewrite H1, H2. reflexivity.
Qed.

Lemma session_of_set s chat_room client_id e clients :
  session_of
    (with_client_list
       (dict_set chat_room (dict_set client_id e clients) (client_list s)) s)
    chat_room client_id = Some e.
Proof.
  unfold session_of. cbn [client_list with_client_list].
  now rewrite !dict_get_set_same.
Qed.

(** What [SEND] does for a registered sender: the status moves by
    [send_transition], and the frame that goes out is [MSG <room name>], to
    the recipients of the room named by the message text. *)
Lemma send_registered_run rt r c body client_writer clients cw status s :
  dict_get r (client_list s) = Some clients ->
  dict_get c clients = Some (Session cw status) ->
  exists s',
    process_command rt (mkCommand "SEND" r c body) client_writer s
    = (Return tt, s',
       map (fun w => Wrote w ("MSG " ++ r))
         (match dict_get body (client_list s') with
          | Some cl => recipients cl
          | None => []
          end))
    /\ session_of s' r c = Some (Session cw (send_transition status)).
Proof.
  intros H1 H2. unfold process_command.
  cbn [message_name chat_room client_id message_data].
  change ("SEND" =? "HELLO") with false. change ("SEND" =? "SEND") with true.
  cbv iota.
  unfold try_except_only, try_except at 1 2. unfold bind at 1.
  unfold get_server at 1.
  unfold dict_mem at 1 2. rewrite H1, H2. cbn [negb orb].
  unfold bind at 1, getitem at 1. rewrite H1. cbn [ret].
  unfold bind at 1, getitem at 1. rewrite H2. cbn [ret].
  unfold bind at 1. cbn [entry_status ret].
  unfold send_transition.
  destruct (status_after_send status) as [st'|].
  - unfold bind at 1. rewrite (set_status_run _ _ _ _ _ _ _ H1 H2).
    rewrite send_to_all_clients_run.
    exists (with_client_list
              (dict_set r (dict_set c (Session cw st') clients)
                 (client_list s)) s).
    split; [reflexivity | apply session_of_set].
  - unfold bind at 1. cbn [ret]. rewrite send_to_all_clients_run.
    exists s. split; [reflexivity|].
    unfold session_of. now rewrite H1.
Qed.

(* ================================================================== *)
(** ** Construction *)

(** C10.  Constructing a server without [cert_path] raises [RuntimeError]
    for every [use_ssl] other than [None], [use_ssl=False] included, while
    [use_ssl=None] constructs a server. *)
Theorem init_without_cert_rejects_any_use_ssl :
  forall host port max_clients max_message_length,
    let rejected :=
      Raise (RuntimeError
        "You cannot use SSL without providing a certfiicate by path.") in
    (forall use_ssl : bool,
       ChatServer_init host port max_clients max_message_length
         (Some use_ssl) None = rejected)
    /\ ChatServer_init host port max_clients max_message_length
         (Some false) None = rejected
    /\ (exists s,
          ChatServer_init host port max_clients max_message_length None None
          = Return s).
Proof.
  intros. split; [reflexivity|]. split; [reflexivity | eexists; reflexivity].
Qed.

(* ================================================================== *)
(** ** The sender's status *)

(** C8.  An accepted [SEND] from a registered session moves its status from
    NEW to CONNECTED, from CONNECTED to ACTIVE, from PAUSED to ACTIVE, and
    leaves ACTIVE as it is. *)
Theorem send_advances_sender_status :
  send_transition "NEW" = "CONNECTED"
  /\ send_transition "CONNECTED" = "ACTIVE"
  /\ send_transition "PAUSED" = "ACTIVE"
  /\ send_transition "ACTIVE" = "ACTIVE"
  /\ forall rt s r c body client_writer cw status,
       session_of s r c = Some (Session cw status) ->
       let run :=
         process_command rt (mkCommand "SEND" r c body) client_writer s in
       result run = Return tt
       /\ session_of (post run) r c
          = Some (Session cw (send_transition status)).
Proof.
  do 4 (split; [reflexivity|]).
  intros rt s r c body client_writer cw status H run.
  unfold session_of in H.
  destruct (dict_get r (client_list s)) as [clients|] eqn:H1; [|discriminate].
  destruct (send_registered_run rt r c body client_writer clients cw status
              s H1 H) as (s' & Hrun & Hs).
  subst run. rewrite Hrun. split; [reflexivity | exact Hs].
Qed.

Lemma send_advances_sender_status_witness :
  let s := with_client_list
             [("b'lobby", [("alice '", Session 1 "PAUSED")])]
             (fresh_server 100 255) in
  let run :=
    process_command ascii_runtime (mkCommand "SEND" "b'lobby" "alice '" "hi")
      1%nat s in
  session_of s "b'lobby" "alice '" = Some (Session 1 "PAUSED")
  /\ result run = Return tt
  /\ session_of (post run) "b'lobby" "alice '" = Some (Session 1 "ACTIVE").
Proof.
  intros s run. split; [reflexivity|].
  apply (proj2 (proj2 (proj2 (proj2 send_advances_sender_status)))
           ascii_runtime s "b'lobby" "alice '" "hi" 1%nat 1%nat "PAUSED").
  reflexivity.
Defined.

(** [send_error_and_close] never raises; it writes the message first, and
    closes the writer when the [drain()] went through. *)
Lemma send_error_and_close_run rt cw msg cid s :
  exists s',
    send_error_and_close rt cw msg cid s
    = (Return tt, s',
       Wrote cw msg ::
       match io_fail rt cw Drain with None => [Closed cw] | Some _ => [] end)
    /\ client_count s' = (client_count s - 1)%Z.
Proof.
  unfold send_error_and_close, room_setitem. munfold.
  destruct (dict_mem cid (client_list s)) eqn:E1.
  - destruct (dict_mem_get _ _ E1) as [clients H1]. rewrite H1.
    destruct (io_fail rt cw Drain); [|destruct (io_fail rt cw WaitClosed)];
      repeat (progress
                (mstep; rewrite ?dict_mem_set_same, ?dict_get_set_same));
      eexists; (split; [reflexivity | cbn; lia]).
  - destruct (io_fail rt cw Drain); [|destruct (io_fail rt cw WaitClosed)];
      rewrite ?E1; eexists; (split; [reflexivity | cbn; lia]).
Qed.

(** The connection is counted, the verb is read and checked against the
    allowed commands, and only then is the count compared with
    [max_clients]. *)
Lemma callback_over_capacity rt client_reader client_writer s verb rest :
  readuntil_space client_reader = Some (verb, rest) ->
  utf8_valid verb = true ->
  (client_count s + 1 > max_clients s)%Z ->
  let name := str_upper rt (py_strip verb) in
  let reject msg :=
    let '(_, s1, out) :=
      send_error_and_close rt client_writer msg "Unknown"
        (with_client_count (client_count s + 1) s) in
    (Return tt, with_client_count (client_count s1 + -1) s1, out) in
  client_callback rt client_reader client_writer s
  = reject (if str_in name ALLOWED_SERVER_COMMANDS
            then max_clients_message
            else unknown_command_message name).
Proof.
  intros Hread Hvalid Hcap name reject. subst reject name.
  unfold client_callback, read_command, readuntil, decode.
  assert (Hc : (client_count s + 1 >? max_clients s)%Z = true)
    by (apply Z.gtb_lt; lia).
  repeat (progress (mstep; rewrite ?Hread, ?Hvalid)).
  destruct (str_in (str_upper rt (py_strip verb)) ALLOWED_SERVER_COMMANDS);
    repeat (progress (mstep; cbn [negb]; rewrite ?Hc));
    match goal with
    | |- context [send_error_and_close rt ?w ?m ?c ?s0] =>
        destruct (send_error_and_close_run rt w m c s0) as (s1 & -> & _)
    end; mstep; now rewrite ?app_nil_r.
Qed.

(* ================================================================== *)
(** ** Reading a command *)

(** A command is handed to the dispatch only by the path that changes
    nothing and writes nothing. *)
Lemma read_command_handed_on rt client_reader client_writer s cmd :
  result (read_command rt client_reader client_writer s) = Return (Some cmd) ->
  read_command rt client_reader client_writer s = (Return (Some cmd), s, []).
Proof.
  unfold read_command, parse_room_client, readuntil, decode, result.
  munfold. intros H.
  repeat (break_match_in H; cbn [fst snd] in H; try discriminate H;
          try match goal with
              | E : (_, _) = (_, _) |- _ => inversion E; clear E; subst
              end).
  all: cbn in H; try discriminate H.
  all: repeat match goal with
              | E : ?x = _ |- context [?x] => rewrite E
              end; cbn; try congruence.
Qed.

(* ================================================================== *)
(** ** Verbs without a dispatch case *)



(* ================================================================== *)
(** ** Capacity *)




(* ================================================================== *)
(** ** Broadcast on SEND *)

(** C1 fails on the code.  [SEND] calls
    [send_to_all_clients(chat_room, message_data)] by position, against the
    signature [send_to_all_clients(message_data, chat_room)].  Here alice
    (PAUSED) and bob (ACTIVE) share the room created by [NEW lobby:alice]:
    alice's [SEND ... hi] makes her ACTIVE, but no frame is written, and bob
    does not get [MSG hi]; when her text happens to be the room's name, bob
    gets the room's name as the message. *)
Theorem send_broadcasts_room_name_to_room_named_by_text :
  let s := fst (serve ascii_runtime
                  [("NEW lobby:alice ", 1%nat); ("JOIN lobby:bob ", 2%nat);
                   ("SEND lobby:bob one", 2%nat); ("SEND lobby:bob two", 2%nat);
                   ("PAUSE lobby:alice ", 1%nat)]
                  (fresh_server 100 255)) in
  let run := client_callback ascii_runtime "SEND lobby:alice hi" 1%nat s in
  let run' := client_callback ascii_runtime "SEND lobby:alice b'lobby" 1%nat s in
  session_of s "b'lobby" "alice '" = Some (Session 1 "PAUSED")
  /\ session_of s "b'lobby" "bob '" = Some (Session 2 "ACTIVE")
  /\ session_of (post run) "b'lobby" "alice '" = Some (Session 1 "ACTIVE")
  /\ trace run = []
  /\ written_to 2 (trace run) = []
  /\ written_to 2 (trace run') = ["MSG b'lobby"].
Proof. vm_compute. repeat split. Qed.

(* ================================================================== *)
(** ** The room:client header *)

Lemma string_app_assoc (a b c : string) : (a ++ b) ++ c = a ++ (b ++ c).
Proof. induction a as [|x a IH]; cbn; [reflexivity | now rewrite IH]. Qed.

Lemma string_app_empty_r (a : string) : a ++ "" = a.
Proof. induction a as [|x a IH]; cbn; [reflexivity | now rewrite IH]. Qed.

Lemma string_rev_snoc s c : string_rev (s ++ String c "") = String c (string_rev s).
Proof. induction s as [|x s IH]; cbn; [reflexivity | now rewrite IH]. Qed.

Lemma string_rev_involutive s : string_rev (string_rev s) = s.
Proof.
  induction s as [|x s IH]; cbn; [reflexivity|].
  now rewrite string_rev_snoc, IH.
Qed.

Lemma lstrip_with_stuck ws n s : drop_first ws s = None -> lstrip_with ws n s = s.
Proof. intros H. destruct n; cbn; [reflexivity | now rewrite H]. Qed.

Lemma repr_quote_cases b : repr_quote b = "'"%char \/ repr_quote b = double_quote.
Proof.
  unfold repr_quote.
  destruct (contains "'" b && negb (contains double_quote b)); auto.
Qed.

(** [strip()] finds nothing to remove on the [repr] of a bytes object: it
    starts with [b] and ends with a quote. *)
Lemma py_strip_str_bytes b : py_strip (py_str_bytes b) = py_str_bytes b.
Proof.
  unfold py_strip, py_str_bytes.
  set (q := repr_quote b). set (body := repr_body q b).
  assert (Hl : py_lstrip (String "b" (String q (body ++ String q "")))
               = String "b" (String q (body ++ String q ""))).
  { unfold py_lstrip. apply lstrip_with_stuck. reflexivity. }
  rewrite Hl. unfold py_rstrip.
  assert (Hrev : string_rev (String "b" (String q (body ++ String q "")))
                 = String q (string_rev body ++ String q "" ++ String "b" "")).
  { cbn [string_rev]. rewrite string_rev_snoc. cbn.
    now rewrite string_app_assoc. }
  rewrite Hrev, lstrip_with_stuck.
  - rewrite <- Hrev. apply string_rev_involutive.
  - destruct (repr_quote_cases b) as [E|E]; fold q in E; rewrite E; reflexivity.
Qed.

Lemma split_on_cons sep s : exists h t, split_on sep s = h :: t.
Proof.
  induction s as [|c s (h & t & IH)]; cbn; [eauto|].
  destruct (Ascii.eqb c sep); [eauto|]. rewrite IH. eauto.
Qed.

Lemma split_on_clean_prefix sep p s h t :
  contains sep p = false -> split_on sep s = h :: t ->
  split_on sep (p ++ s) = (p ++ h) :: t.
Proof.
  intros Hp Hs. induction p as [|c p IH]; cbn in *; [exact Hs|].
  apply orb_false_iff in Hp as [Hc Hp]. rewrite Hc, (IH Hp). reflexivity.
Qed.

Lemma split_on_clean sep s : contains sep s = false -> split_on sep s = [s].
Proof.
  intros H. induction s as [|c s IH]; cbn in *; [reflexivity|].
  apply orb_false_iff in H as [Hc H]. now rewrite Hc, (IH H).
Qed.

Lemma contains_app x a b : contains x (a ++ b) = contains x a || contains x b.
Proof.
  induction a as [|c a IH]; cbn; [reflexivity|].
  now rewrite IH, orb_assoc.
Qed.

Lemma repr_body_app q a b : repr_body q (a ++ b) = repr_body q a ++ repr_body q b.
Proof.
  induction a as [|c a IH]; cbn; [reflexivity|].
  now rewrite IH, string_app_assoc.
Qed.

(** Escaping neither adds nor removes a colon. *)
Lemma repr_byte_colon q c :
  q = "'"%char \/ q = double_quote ->
  contains ":" (repr_byte q c) = Ascii.eqb c ":".
Proof.
  intros [-> | ->];
    destruct c as [[] [] [] [] [] [] [] []]; reflexivity.
Qed.

Lemma repr_body_colon q s :
  q = "'"%char \/ q = double_quote ->
  contains ":" (repr_body q s) = contains ":" s.
Proof.
  intros Hq. induction s as [|c s IH]; cbn; [reflexivity|].
  now rewrite contains_app, repr_byte_colon, IH.
Qed.

Lemma repr_byte_of_colon q :
  q = "'"%char \/ q = double_quote -> repr_byte q ":" = ":".
Proof. intros [-> | ->]; reflexivity. Qed.

Lemma readuntil_space_clean p rest :
  contains " " p = false ->
  readuntil_space (p ++ String " " rest) = Some (p ++ " ", rest).
Proof.
  intros H. induction p as [|c p IH]; cbn in *; [reflexivity|].
  apply orb_false_iff in H as [Hc H]. now rewrite Hc, (IH H).
Qed.

Lemma py_len_nonneg s : (0 <= py_len s)%Z.
Proof. induction s as [|c s IH]; cbn; [lia | destruct (continuation c); lia]. Qed.

Lemma py_len_app a b : py_len (a ++ b) = (py_len a + py_len b)%Z.
Proof. induction a as [|c a IH]; cbn; [reflexivity | rewrite IH; lia]. Qed.

Lemma repr_byte_length q c : (1 <= String.length (repr_byte q c))%nat.
Proof.
  unfold repr_byte.
  repeat match goal with
         | |- context [if ?b then _ else _] => destruct b
         end; cbn; lia.
Qed.

Lemma string_length_app (a b : string) :
  String.length (a ++ b) = (String.length a + String.length b)%nat.
Proof. induction a as [|c a IH]; cbn; [reflexivity | now rewrite IH]. Qed.

Lemma repr_body_length q s : (String.length s <= String.length (repr_body q s))%nat.
Proof.
  induction s as [|c s IH]; cbn; [lia|].
  rewrite string_length_app. pose proof (repr_byte_length q c). lia.
Qed.

(** C3 fails on the code.  The header is split after [str()] has been
    applied to the bytes read, so the parts carry the [repr] of a bytes
    object.  For every header [r:c] (no colon or space inside [r] and [c]),
    the room of the command is [b], a quote and the escaped [r], and its
    client id is the escaped [c], the space and the closing quote: never [r]
    and [c].  For [lobby:alice] they are [b'lobby] and [alice ']. *)
Theorem header_parts_come_from_bytes_repr r c rest s :
  contains ":" r = false -> contains " " r = false ->
  contains ":" c = false -> contains " " c = false ->
  utf8_valid (r ++ ":" ++ c ++ " ") = true ->
  let q := repr_quote (r ++ ":" ++ c ++ " ") in
  let room_part := String "b" (String q (repr_body q r)) in
  let client_part := repr_body q (c ++ " ") ++ String q "" in
  parse_room_client (r ++ ":" ++ c ++ " " ++ rest) s
  = (Return (room_part, client_part, rest), s, [])
  /\ room_part <> r
  /\ client_part <> c.
Proof.
  intros Hr1 Hr2 Hc1 Hc2 Hvalid q room_part client_part.
  assert (Hq : q = "'"%char \/ q = double_quote) by apply repr_quote_cases.
  split; [|split].
  - unfold parse_room_client, readuntil, decode.
    assert (Hread : readuntil_space (r ++ ":" ++ c ++ " " ++ rest)
                    = Some (r ++ ":" ++ c ++ " ", rest)).
    { replace (r ++ ":" ++ c ++ " " ++ rest)
        with ((r ++ ":" ++ c) ++ String " " rest)
        by (now rewrite !string_app_assoc).
      rewrite readuntil_space_clean.
      - now rewrite !string_app_assoc.
      - rewrite contains_app, Hr2. cbn. exact Hc2. }
    rewrite Hread. mstep. rewrite Hvalid. mstep.
    assert (Hlen : (py_len (r ++ ":" ++ c ++ " ") =? 0)%Z = false).
    { apply Z.eqb_neq. rewrite py_len_app.
      change (":" ++ c ++ " ") with (String ":" (c ++ " ")).
      cbn [py_len]. rewrite py_len_app.
      change (continuation ":") with false. cbv iota.
      pose proof (py_len_nonneg r). pose proof (py_len_nonneg c).
      pose proof (py_len_nonneg " "). lia. }
    rewrite Hlen. cbn [negb]. rewrite py_strip_str_bytes.
    unfold py_str_bytes. fold q.
    assert (Hsplit :
      split_on ":"
        (String "b" (String q
           (repr_body q (r ++ ":" ++ c ++ " ") ++ String q "")))
      = [room_part; client_part]).
    { rewrite repr_body_app. cbn [repr_body append].
      change (repr_body q (String ":" (c ++ " ")))
        with (repr_byte q ":" ++ repr_body q (c ++ " ")).
      rewrite (repr_byte_of_colon q Hq).
      change (String "b" (String q
                ((repr_body q r ++ ":" ++ repr_body q (c ++ " "))
                 ++ String q "")))
        with (String "b" (String q "")
              ++ ((repr_body q r ++ ":" ++ repr_body q (c ++ " "))
                  ++ String q "")).
      rewrite !string_app_assoc.
      rewrite <- (string_app_assoc (String "b" (String q "")) (repr_body q r)).
      rewrite (split_on_clean_prefix ":" _ _ "" [client_part]).
      - now rewrite string_app_empty_r.
      - rewrite contains_app, repr_body_colon, Hr1 by exact Hq.
        destruct Hq as [-> | ->]; reflexivity.
      - cbn [append split_on]. change (Ascii.eqb ":" ":") with true. cbv iota.
        rewrite split_on_clean; [reflexivity|].
        rewrite contains_app, repr_body_colon, contains_app, Hc1 by exact Hq.
        destruct Hq as [-> | ->]; reflexivity. }
    rewrite Hsplit. reflexivity.
  - intros H. apply (f_equal String.length) in H. subst room_part.
    cbn in H. pose proof (repr_body_length q r). lia.
  - intros H. apply (f_equal String.length) in H. subst client_part.
    rewrite string_length_app, repr_body_app, string_length_app in H. cbn in H.
    pose proof (repr_body_length q c). lia.
Qed.

Lemma header_parts_come_from_bytes_repr_witness :
  parse_room_client "lobby:alice hi" (fresh_server 100 255)
  = (Return ("b'lobby", "alice '", "hi"), fresh_server 100 255, []).
Proof.
  exact (proj1 (header_parts_come_from_bytes_repr "lobby" "alice" "hi"
                  (fresh_server 100 255)
                  eq_refl eq_refl eq_refl eq_refl eq_refl)).
Defined.

(** The same on the wire: the command read from [HELLO lobby:alice]. *)
Lemma hello_command_as_read :
  read_command ascii_runtime "HELLO lobby:alice " 1%nat (fresh_server 100 255)
  = (Return (Some (mkCommand "HELLO" "b'lobby" "alice '" "")),
     fresh_server 100 255, []).
Proof. reflexivity. Qed.

(** The lenient half of C3 holds whenever the field is text: a decodable
    field that does not split in two leaves the defaults in place. *)
Lemma malformed_header_keeps_defaults client_reader field rest s :
  readuntil_space client_reader = Some (field, rest) ->
  utf8_valid field = true ->
  List.length (split_on ":" (py_strip (py_str_bytes field))) <> 2%nat ->
  parse_room_client client_reader s = (Return ("main", "client", rest), s, []).
Proof.
  intros Hread Hvalid Hparts. unfold parse_room_client, readuntil, decode.
  rewrite Hread. mstep. rewrite Hvalid. mstep.
  destruct (negb (py_len field =? 0)%Z); [|reflexivity].
  destruct (split_on ":" (py_strip (py_str_bytes field))) as [|a [|b [|x l]]];
    try reflexivity.
  now contradiction Hparts.
Qed.

(** A field that is not UTF-8 is not lenient: the connection is closed with
    an [Invalid format] error. *)
Lemma undecodable_header_closes_connection :
  let run := client_callback ascii_runtime
               ("SEND " ++ chrs [255; 32] ++ "hi") 1%nat
               (fresh_server 100 255) in
  trace run
  = [Wrote 1%nat ("Invalid format: " ++ exn_text ascii_runtime UnicodeDecodeError);
     Closed 1%nat].
Proof. reflexivity. Qed.

(* ================================================================== *)
(** ** Listings *)

Lemma unsupported_list_type list_type :
  ~ In list_type SUPPORTED_LIST_TYPES ->
  (list_type =? "ALL") = false
  /\ (list_type =? "CHAT_ROOMS") = false
  /\ (list_type =? "CHAT_ROOM_AND_CLIENTS") = false
  /\ (list_type =? "CLIENT_CHAT_ROOMS") = false
  /\ (list_type =? "CLIENTS_FOR_CHAT_ROOM") = false.
Proof.
  intros H. repeat split; apply String.eqb_neq; intros ->; apply H;
    cbn; tauto.
Qed.

(** C7, as the code has it, for the structured listing
    [list_chatrooms_as_dict]: a selector outside the five supported kinds
    yields the error value [{"error": "Invalid list type", ...}], and
    CLIENT_CHAT_ROOMS without a client id yields an error value; but
    CLIENTS_FOR_CHAT_ROOM without a room yields a listing, not an error,
    with an empty member list.  The text listing [list_chatrooms] answers
    CLIENT_CHAT_ROOMS without a client id with ["Client does not exist."]
    and CLIENTS_FOR_CHAT_ROOM without a room by raising [KeyError]. *)
Theorem list_kinds_and_missing_arguments :
  forall rt s,
    (forall list_type client_id chat_room,
       ~ In list_type SUPPORTED_LIST_TYPES ->
       list_chatrooms_as_dict rt list_type client_id chat_room s
       = (Return (PyDict [("error", PyStr "Invalid list type");
                          ("type", PyStr list_type)]), s, []))
    /\ (forall chat_room,
          exists o,
            list_chatrooms_as_dict rt "CLIENT_CHAT_ROOMS" None chat_room s
            = (Return o, s, [])
            /\ is_error_value o = true)
    /\ (forall client_id,
          exists d,
            list_chatrooms_as_dict rt "CLIENTS_FOR_CHAT_ROOM" client_id None s
            = (Return (PyDict d), s, [])
            /\ is_error_value (PyDict d) = false
            /\ dict_get "client_list" d = Some (PyList []))
    /\ (forall chat_room,
          list_chatrooms "CLIENT_CHAT_ROOMS" None chat_room s
          = (Return "Client does not exist.", s, []))
    /\ (forall client_id,
          list_chatrooms "CLIENTS_FOR_CHAT_ROOM" client_id None s
          = (Raise (KeyError None), s, [])).
Proof.
  intros rt s. split; [|split; [|split; [|split]]].
  - intros list_type client_id chat_room H.
    destruct (unsupported_list_type list_type H) as (E1 & E2 & E3 & E4 & E5).
    unfold list_chatrooms_as_dict. mstep. now rewrite E1, E2, E3, E4, E5.
  - intros chat_room. eexists. split; reflexivity.
  - intros client_id. eexists. split; [reflexivity|]. split; reflexivity.
  - intros chat_room. reflexivity.
  - intros client_id. reflexivity.
Qed.

Lemma list_kinds_and_missing_arguments_witness :
  list_chatrooms_as_dict ascii_runtime "EVERYTHING" None None
    (fresh_server 100 255)
  = (Return (PyDict [("error", PyStr "Invalid list type");
                     ("type", PyStr "EVERYTHING")]),
     fresh_server 100 255, []).
Proof.
  apply (proj1 (list_kinds_and_missing_arguments ascii_runtime
                  (fresh_server 100 255))).
  cbn. intros [H|[H|[H|[H|[H|[]]]]]]; discriminate H.
Defined.

(** C7 as stated fails: asked for the members of a room without naming the
    room, the structured listing returns an ordinary listing with no
    members; asked for an unknown kind, the text listing returns its bare
    header. *)
Lemma list_without_room_is_not_an_error :
  let s := fst (serve ascii_runtime [("NEW lobby:alice ", 1%nat)]
                  (fresh_server 100 255)) in
  (exists o,
     result (list_chatrooms_as_dict ascii_runtime "CLIENTS_FOR_CHAT_ROOM"
               None None s) = Return o
     /\ is_error_value o = false)
  /\ ~ In "EVERYTHING" SUPPORTED_LIST_TYPES
  /\ list_chatrooms "EVERYTHING" (Some "alice '") None s
     = (Return "Chat Room List", s, []).
Proof.
  intros s. split; [eexists; split; reflexivity|]. split; [|reflexivity].
  cbn. intros [H|[H|[H|[H|[H|[]]]]]]; discriminate H.
Qed.

(* ================================================================== *)
(** ** Closing a client *)

Lemma close_client_returns client_id s :
  result (close_client client_id s) = Return tt.
Proof.
  unfold close_client. unfold try_except at 1.
  match goal with
  | |- context [match ?m s with _ => _ end] =>
      destruct (m s) as [[[[]|e] s1] o1]; reflexivity
  end.
Qed.




(* ================================================================== *)
(** ** Registration *)

Lemma py_str_int_inj a b : py_str_int a = py_str_int b -> a = b.
Proof.
  unfold py_str_int. intros H.
  assert (E : Some (Z.to_int a) = Some (Z.to_int b)).
  { rewrite <- !NilEmpty.isi. now rewrite H. }
  injection E as E. rewrite <- (DecimalZ.of_to a), <- (DecimalZ.of_to b).
  now rewrite E.
Qed.

Lemma string_app_inv_head (p a b : string) : p ++ a = p ++ b -> a = b.
Proof.
  induction p as [|c p IH]; cbn; intros H; auto.
  injection H as H. auto.
Qed.

Lemma suffixed_id_inj name (a b : Z) :
  name ++ py_str_int a = name ++ py_str_int b -> a = b.
Proof. intros H. apply py_str_int_inj. eapply string_app_inv_head; eauto. Qed.

(** The id the loop stops at carries the counter it stops at, and if that
    id were taken, so would be every id it stepped over. *)
Lemma next_client_id_scan fuel clients name counter :
  let '(n, id) := next_client_id fuel clients name counter in
  id = name ++ py_str_int n
  /\ (counter <= n)%Z
  /\ (dict_mem id clients = true ->
      forall i, (i <= fuel)%nat ->
        dict_mem (name ++ py_str_int (counter + Z.of_nat i)) clients = true).
Proof.
  revert counter. induction fuel as [|fuel IH]; intros counter;
    cbn [next_client_id].
  - split; [reflexivity|]. split; [lia|].
    intros H i Hi. assert (i = 0%nat) as -> by lia.
    now rewrite Z.add_0_r.
  - destruct (dict_mem (name ++ py_str_int counter) clients) eqn:E.
    + specialize (IH (counter + 1)%Z).
      destruct (next_client_id fuel clients name (counter + 1)) as [n id].
      destruct IH as (Hid & Hle & Hall). split; [exact Hid|].
      split; [lia|]. intros Hm [|i] Hi.
      * now rewrite Z.add_0_r.
      * replace (counter + Z.of_nat (S i))%Z
          with (counter + 1 + Z.of_nat i)%Z by lia.
        apply Hall; [exact Hm | lia].
    + split; [reflexivity|]. split; [lia|]. rewrite E. discriminate.
Qed.

(** A room cannot hold more suffixed ids than it has sessions. *)
Lemma suffixed_ids_fit (clients : room) name counter fuel :
  (forall i, (i <= fuel)%nat ->
     dict_mem (name ++ py_str_int (counter + Z.of_nat i)) clients = true) ->
  (S fuel <= List.length clients)%nat.
Proof.
  intros H.
  set (f := fun i : nat => name ++ py_str_int (counter + Z.of_nat i)).
  assert (Hnd : NoDup (map f (seq 0 (S fuel)))).
  { apply NoDup_map_NoDup_ForallPairs; [|apply seq_NoDup].
    intros x y _ _ Hxy. apply suffixed_id_inj in Hxy. lia. }
  assert (Hincl : incl (map f (seq 0 (S fuel))) (dict_keys clients)).
  { intros k Hk. apply in_map_iff in Hk as (i & <- & Hi).
    apply in_seq in Hi. apply dict_mem_keys. apply H. lia. }
  pose proof (NoDup_incl_length Hnd Hincl) as Hlen.
  unfold dict_keys in Hlen. now rewrite !length_map, length_seq in Hlen.
Qed.

(** The [while] loop ends, within as many steps as the room has sessions,
    on an id that is not in the room. *)
Lemma next_client_id_unused (clients : room) name counter :
  let '(n, id) :=
    next_client_id (List.length clients) clients name counter in
  id = name ++ py_str_int n /\ (counter <= n)%Z
  /\ dict_mem id clients = false.
Proof.
  pose proof (next_client_id_scan (List.length clients) clients name counter)
    as H.
  destruct (next_client_id (List.length clients) clients name counter)
    as [n id].
  destruct H as (Hid & Hle & Hall). split; [exact Hid|]. split; [exact Hle|].
  destruct (dict_mem id clients) eqn:E; [|reflexivity].
  pose proof (suffixed_ids_fit clients name counter _ (Hall eq_refl)). lia.
Qed.

Lemma dict_mem_set_present {V} (d : dict V) k k' v :
  dict_mem k d = true -> dict_mem k' (dict_set k v d) = dict_mem k' d.
Proof.
  intros H. rewrite dict_mem_set. destruct (String.eqb k k') eqn:E; auto.
  apply String.eqb_eq in E. subst. now rewrite H.
Qed.

Lemma send_error_and_close_same_rooms rt cw msg cid s r :
  has_room (post (send_error_and_close rt cw msg cid s)) r = has_room s r.
Proof.
  unfold send_error_and_close, room_setitem, has_room. mstep.
  destruct (dict_mem cid (client_list s)) eqn:E1.
  - destruct (dict_mem_get _ _ E1) as [clients H1]. rewrite H1.
    destruct (io_fail rt cw Drain); [|destruct (io_fail rt cw WaitClosed)];
      repeat (progress
                (mstep; rewrite ?dict_mem_set_same, ?dict_get_set_same));
      cbn [post fst snd client_list with_client_list with_client_count];
      rewrite ?dict_mem_set_present; auto using dict_mem_set_same.
  - destruct (io_fail rt cw Drain); [|destruct (io_fail rt cw WaitClosed)];
      rewrite ?E1; reflexivity.
Qed.

(** Registration in a room that is missing. *)
Lemma register_client_no_room rt cw name r s :
  has_room s r = false ->
  register_client rt cw name r s
  = (let '(_, s1, out) :=
       send_error_and_close rt cw
         ("Chat room " ++ r ++ " does not exist. Please add it first.")
         name s in
     (Return "ERROR", s1, out)).
Proof.
  unfold has_room. intros H. unfold register_client. mstep. rewrite H.
  cbn [negb].
  match goal with
  | |- context [send_error_and_close rt ?w ?m ?c ?s0] =>
      destruct (send_error_and_close_run rt w m c s0) as (s1 & -> & _)
  end.
  now rewrite app_nil_r.
Qed.

(** Registration in a room that exists. *)
Lemma register_client_in_room rt cw name r s clients :
  dict_get r (client_list s) = Some clients ->
  register_client rt cw name r s
  = (if name =? "client" then
       let '(n, id) :=
         next_client_id (List.length clients) clients name
           (client_id_counter s + 1) in
       (Return id,
        with_client_list
          (dict_set r (dict_set id (Session cw "NEW") clients) (client_list s))
          (with_client_id_counter n s), [])
     else
       (Return name,
        with_client_list
          (dict_set r (dict_set name (Session cw "NEW") clients)
             (client_list s)) s, [])).
Proof.
  intros H. pose proof (dict_get_mem _ _ _ H) as Hm.
  unfold register_client, room_setitem.
  msimp ltac:(rewrite ?Hm, ?H).
  destruct (name =? "client"); msimp ltac:(rewrite ?Hm, ?H);
    [destruct (next_client_id _ _ _ _) as [n id]|];
    msimp ltac:(rewrite ?Hm, ?H); reflexivity.
Qed.

Lemma session_of_registered s s0 r id e clients :
  session_of
    (with_client_list (dict_set r (dict_set id e clients) (client_list s)) s0)
    r id = Some e.
Proof.
  unfold session_of. cbn [client_list with_client_list].
  now rewrite !dict_get_set_same.
Qed.

(** C4, as the code has it.  [register_client] fails (returns ["ERROR"]
    after writing the room-not-found error) when the room is missing, and
    leaves it missing.  In a room that exists it returns an id and stores a
    NEW session under it.  For the sentinel name ["client"] the id is
    ["client"] followed by a counter above the server's current one, and was
    not in the room before; any other name is returned as it is, also when
    it already names a session of the room (the id is then not fresh: the
    session is replaced).  A registration of ["client"] that follows gets a
    different id. *)
Theorem register_client_outcomes :
  forall rt cw name r s,
    let run := register_client rt cw name r s in
    (has_room s r = false ->
       result run = Return "ERROR"
       /\ has_room (post run) r = false
       /\ hd_error (trace run)
          = Some (Wrote cw
              ("Chat room " ++ r ++ " does not exist. Please add it first.")))
    /\ (forall clients,
          dict_get r (client_list s) = Some clients ->
          exists id,
            result run = Return id
            /\ session_of (post run) r id = Some (Session cw "NEW")
            /\ (name = "client" ->
                dict_mem id clients = false
                /\ exists n,
                     (client_id_counter s < n)%Z
                     /\ id = "client" ++ py_str_int n
                     /\ client_id_counter (post run) = n)
            /\ (name <> "client" -> id = name)
            /\ (forall cw',
                  exists id',
                    result (register_client rt cw' "client" r (post run))
                    = Return id'
                    /\ id' <> id)).
Proof.
  intros rt cw name r s run. split.
  - intros Hr. subst run.
    pose proof (send_error_and_close_same_rooms rt cw
      ("Chat room " ++ r ++ " does not exist. Please add it first.")
      name s r) as Hsame.
    rewrite (register_client_no_room rt cw name r s Hr).
    destruct (send_error_and_close_run rt cw
      ("Chat room " ++ r ++ " does not exist. Please add it first.")
      name s) as (s1 & Hrun & _).
    rewrite Hrun in *. cbn in *. rewrite Hsame. auto.
  - intros clients Hc.
    assert (Hnext : forall cw1 s1 clients1 id1,
              dict_get r (client_list s1) = Some clients1 ->
              dict_mem id1 clients1 = true ->
              exists id',
                result (register_client rt cw1 "client" r s1) = Return id'
                /\ id' <> id1).
    { intros cw1 s1 clients1 id1 H1 Hin.
      rewrite (register_client_in_room rt cw1 "client" r s1 clients1 H1).
      change ("client" =? "client") with true. cbv iota.
      pose proof (next_client_id_unused clients1 "client"
                    (client_id_counter s1 + 1)) as Hfresh.
      destruct (next_client_id _ _ _ _) as [n id'].
      destruct Hfresh as (_ & _ & Hfresh).
      exists id'. split; [reflexivity|]. intros ->. congruence. }
    subst run. rewrite (register_client_in_room rt cw name r s clients Hc).
    destruct (name =? "client") eqn:En.
    + apply String.eqb_eq in En. subst name.
      pose proof (next_client_id_unused clients "client"
                    (client_id_counter s + 1)) as Hfresh.
      destruct (next_client_id _ _ _ _) as [n id].
      destruct Hfresh as (Hid & Hle & Hfresh).
      exists id. split; [reflexivity|].
      split; [apply session_of_registered|].
      split; [|split; [congruence|]].
      * intros _. split; [exact Hfresh|]. exists n.
        split; [lia|]. split; [exact Hid | reflexivity].
      * intros cw'.
        apply (Hnext cw' _ (dict_set id (Session cw "NEW") clients)).
        -- cbn. apply dict_get_set_same.
        -- apply dict_mem_set_same.
    + apply String.eqb_neq in En. exists name. split; [reflexivity|].
      split; [apply session_of_registered|].
      split; [contradiction|]. split; [reflexivity|].
      intros cw'.
      apply (Hnext cw' _ (dict_set name (Session cw "NEW") clients)).
      * cbn. apply dict_get_set_same.
      * apply dict_mem_set_same.
Qed.

Lemma register_client_outcomes_witness :
  let s := fst (serve ascii_runtime [("NEW lobby:alice ", 1%nat)]
                  (fresh_server 100 255)) in
  exists id,
    result (register_client ascii_runtime 2%nat "client" "b'lobby" s)
    = Return id
    /\ session_of
         (post (register_client ascii_runtime 2%nat "client" "b'lobby" s))
         "b'lobby" id = Some (Session 2 "NEW")
    /\ id = "client2".
Proof.
  intros s.
  destruct (proj2 (register_client_outcomes ascii_runtime 2%nat "client"
                     "b'lobby" s) [("alice '", Session 1 "NEW")] eq_refl)
    as (id & Hres & Hses & _).
  exists id. split; [exact Hres|]. split; [exact Hses|].
  vm_compute in Hres. now injection Hres as <-.
Defined.

(** C4 as stated fails: a requested id that already names a session of the
    room is handed back as it is, not replaced by a generated one; the
    session that had it is overwritten. *)
Lemma register_client_reuses_taken_name :
  let s := fst (serve ascii_runtime
                  [("NEW lobby:alice ", 1%nat); ("SEND lobby:alice hi", 1%nat)]
                  (fresh_server 100 255)) in
  let run := register_client ascii_runtime 2%nat "alice '" "b'lobby" s in
  session_of s "b'lobby" "alice '" = Some (Session 1 "CONNECTED")
  /\ result run = Return "alice '"
  /\ session_of (post run) "b'lobby" "alice '" = Some (Session 2 "NEW")
  /\ client_list (post run) = [("b'lobby", [("alice '", Session 2 "NEW")])]
  /\ post (client_callback ascii_runtime "HELLO lobby:alice " 2%nat s)
     = with_client_count 3 (post run).
Proof. vm_compute. repeat split. Qed.

(* ================================================================== *)
(** ** The default room *)

Lemma init_registry_empty host port mc mml ssl cert s :
  ChatServer_init host port mc mml ssl cert = Return s -> client_list s = [].
Proof.
  unfold ChatServer_init. destruct ssl, cert; intros H;
    try discriminate H; injection H as <-; reflexivity.
Qed.

Lemma reachable_main_absent s : reachable s -> has_room s "main" = false.
Proof.
  induction 1 as [host port mc mml ssl cert s H | rt c s _ IH].
  - unfold has_room. now rewrite (init_registry_empty _ _ _ _ _ _ _ H).
  - destruct (steady_run_call rt c s) as (_ & _ & Hmain).
    destruct (has_room (post (run_call rt c s)) "main"); [|reflexivity].
    rewrite Hmain in IH; [discriminate IH | reflexivity].
Qed.

Lemma add_chatroom_main rt c client_writer s :
  exists r out,
    add_chatroom rt "main" c client_writer s = (r, s, out)
    /\ r <> Return ("MSG Chatroom main was successfully created by "
                    ++ c ++ ".").
Proof.
  unfold add_chatroom. change ("main" =? "main") with true. cbv iota.
  unfold send_error_to_client, send_to_client, entry_writer. mstep.
  destruct (dict_get "main" (client_list s)) as [clients|];
    [|do 2 eexists; split; [reflexivity | discriminate]].
  destruct (dict_get c clients) as [[cw st|t]|];
    try (do 2 eexists; split; [reflexivity | discriminate]).
  destruct (io_fail rt cw Drain);
    do 2 eexists; (split; [reflexivity | discriminate]).
Qed.

(** C2, as the code has it.  A server is constructed with an empty
    registry, so the room ["main"] is not there; no call creates it
    ([add_chatroom("main", c)] fails and leaves the server as it was), so it
    is absent in every reachable state; and no call deletes a room. *)
Theorem main_room_never_exists_and_rooms_are_never_deleted :
  (forall host port max_clients max_message_length use_ssl cert_path s,
     ChatServer_init host port max_clients max_message_length use_ssl
       cert_path = Return s ->
     client_list s = [])
  /\ (forall s, reachable s -> has_room s "main" = false)
  /\ (forall rt c s r,
        has_room s r = true -> has_room (post (run_call rt c s)) r = true)
  /\ (forall rt c client_writer s,
        exists r out,
          add_chatroom rt "main" c client_writer s = (r, s, out)
          /\ r <> Return ("MSG Chatroom main was successfully created by "
                          ++ c ++ ".")).
Proof.
  split; [exact init_registry_empty|].
  split; [exact reachable_main_absent|].
  split; [|exact add_chatroom_main].
  intros rt c s r. destruct (steady_run_call rt c s) as (Hr & _ & _). auto.
Qed.

Lemma main_room_never_exists_and_rooms_are_never_deleted_witness :
  let s := post (run_call ascii_runtime (Connection "NEW main:alice " 1%nat)
                   (fresh_server 100 255)) in
  has_room s "main" = false
  /\ has_room
       (post (run_call ascii_runtime (CloseClient "b'main") s)) "b'main"
     = true.
Proof.
  intros s. split.
  - apply (proj1 (proj2 main_room_never_exists_and_rooms_are_never_deleted)).
    apply reachable_call.
    apply (reachable_init "127.0.0.1" "10010" 100 255 None None).
    reflexivity.
  - apply (proj1 (proj2 (proj2
             main_room_never_exists_and_rooms_are_never_deleted))).
    reflexivity.
Defined.

(** C2 as stated fails: the server the tests construct is a reachable state
    and its registry has no room at all, ["main"] included; a client that
    then says HELLO in ["main"] is turned away because the room does not
    exist. *)
Lemma constructed_server_has_no_main_room :
  let s := fresh_server 100 255 in
  ChatServer_init "127.0.0.1" "10010" 100 255 None None = Return s
  /\ reachable s
  /\ client_list s = []
  /\ has_room s "main" = false
  /\ result (register_client ascii_runtime 1%nat "client" "main" s)
     = Return "ERROR".
Proof.
  intros s. split; [reflexivity|]. split.
  - apply (reachable_init "127.0.0.1" "10010" 100 255 None None). reflexivity.
  - repeat split.
Qed.

(* ================================================================== *)
(** ** What calls do to the server, change by change *)

Section Tidy.
Context {A B : Type}.

Lemma tidy_ret (a : A) : tidy (ret a).
Proof. intros s. apply effect_none. Qed.

Lemma tidy_raise (e : exn) : tidy (@raise A e).
Proof. intros s. apply effect_none. Qed.

Lemma tidy_bind (m : M A) (k : A -> M B) :
  tidy m -> (forall a, tidy (k a)) -> tidy (bind m k).
Proof.
  intros Hm Hk s. specialize (Hm s). unfold bind.
  destruct (m s) as [[[a|e] s1] o1]; cbn in *; auto.
  specialize (Hk a s1). destruct (k a s1) as [[r s2] o2]; cbn in *.
  eapply effect_then; eauto.
Qed.

Lemma tidy_try_except (m : M A) (h : exn -> M A) :
  tidy m -> (forall e, tidy (h e)) -> tidy (try_except m h).
Proof.
  intros Hm Hh s. specialize (Hm s). unfold try_except.
  destruct (m s) as [[[a|e] s1] o1]; cbn in *; auto.
  specialize (Hh e s1). destruct (h e s1) as [[r s2] o2]; cbn in *.
  eapply effect_then; eauto.
Qed.

Lemma tidy_try_except_only cls (m : M A) (h : exn -> M A) :
  tidy m -> (forall e, tidy (h e)) -> tidy (try_except_only cls m h).
Proof.
  intros Hm Hh. apply tidy_try_except; auto.
  intros e. destruct (cls e); auto using tidy_raise.
Qed.

Lemma tidy_get_bind (k : ChatServer -> M B) :
  (forall s, effect s (post (k s s))) -> tidy (bind get_server k).
Proof.
  intros H s. specialize (H s). unfold bind, get_server.
  destruct (k s s) as [[r s2] o2]; cbn in *. auto.
Qed.

End Tidy.

Lemma tidy_get : tidy get_server.
Proof. intros s. apply effect_none. Qed.

Lemma tidy_emit e : tidy (emit e).
Proof. intros s. apply effect_none. Qed.

Lemma tidy_when b m : tidy m -> tidy (when b m).
Proof. destruct b; cbn; auto. apply tidy_ret. Qed.

Lemma tidy_getitem {V} (d : dict V) k : tidy (getitem d k).
Proof. unfold getitem. destruct (dict_get k d); [apply tidy_ret | apply tidy_raise]. Qed.

Lemma tidy_entry_writer e : tidy (entry_writer e).
Proof. destruct e; [apply tidy_ret | apply tidy_raise]. Qed.

Lemma tidy_entry_status e : tidy (entry_status e).
Proof. destruct e; [apply tidy_ret | apply tidy_raise]. Qed.

Lemma tidy_add_client_count d : tidy (add_client_count d).
Proof. intros s. apply effect_count. Qed.

Lemma tidy_store_bare name text :
  tidy (room_setitem name "status" (Bare text)).
Proof.
  intros s. unfold room_setitem. munfold.
  destruct (dict_get name (client_list s)) as [clients|] eqn:E; cbn.
  - now apply effect_bare.
  - apply effect_none.
Qed.

Lemma tidy_store_session name key cw :
  tidy (room_setitem name key (Session cw "NEW")).
Proof.
  intros s. unfold room_setitem. munfold.
  destruct (dict_get name (client_list s)) as [clients|] eqn:E; cbn.
  - now apply effect_session.
  - apply effect_none.
Qed.

Lemma tidy_set_status r c status :
  In status ["CONNECTED"; "ACTIVE"; "PAUSED"] -> tidy (set_status r c status).
Proof.
  intros Hin s. unfold set_status. munfold.
  destruct (dict_get r (client_list s)) as [clients|] eqn:E; cbn;
    [|apply effect_none].
  destruct (dict_get c clients) as [[cw old|t]|] eqn:E2; cbn;
    try apply effect_none.
  eapply effect_status; eauto.
Qed.

Lemma tidy_pause_status r c : tidy (set_status r c "PAUSED").
Proof. apply tidy_set_status. cbn. tauto. Qed.

Lemma tidy_send_status r c status :
  tidy (match status_after_send status with
        | Some status' => set_status r c status'
        | None => ret tt
        end).
Proof.
  unfold status_after_send.
  destruct (status =? "NEW"); [apply tidy_set_status; cbn; tauto|].
  destruct (status =? "CONNECTED"); [apply tidy_set_status; cbn; tauto|].
  destruct (status =? "PAUSED"); [apply tidy_set_status; cbn; tauto|].
  apply tidy_ret.
Qed.

Create HintDb tidy.

#[local] Hint Resolve tidy_ret tidy_raise tidy_get tidy_emit
  tidy_getitem tidy_entry_writer tidy_entry_status
  tidy_add_client_count tidy_store_bare tidy_store_session
  tidy_pause_status tidy_send_status : tidy.

Ltac tidy_step :=
  lazymatch goal with
  | |- tidy (bind _ _) => apply tidy_bind; [|intros ?]
  | |- tidy (try_except _ _) => apply tidy_try_except; [|intros ?]
  | |- tidy (try_except_only _ _ _) => apply tidy_try_except_only; [|intros ?]
  | |- tidy (when _ _) => apply tidy_when
  | |- tidy (match status_after_send _ with _ => _ end) =>
      apply tidy_send_status
  | |- tidy (if ?b then _ else _) => destruct b
  | |- tidy (match ?x with _ => _ end) => destruct x
  | |- tidy _ => solve [auto with tidy]
  end.

Ltac tidy_auto := repeat tidy_step.

Ltac tidy_here :=
  lazymatch goal with
  | |- effect ?s (post (?m ?s)) =>
      let H := fresh in assert (H : tidy m) by tidy_auto; apply H
  end.

Lemma tidy_writer_drain rt cw : tidy (writer_drain rt cw).
Proof. unfold writer_drain. tidy_auto. Qed.

Lemma tidy_writer_wait_closed rt cw : tidy (writer_wait_closed rt cw).
Proof. unfold writer_wait_closed. tidy_auto. Qed.

#[local] Hint Resolve tidy_writer_drain tidy_writer_wait_closed : tidy.
#[local] Hint Extern 1 (tidy (writer_write _ _)) => apply tidy_emit : tidy.
#[local] Hint Extern 1 (tidy (writer_close _)) => apply tidy_emit : tidy.

Lemma tidy_send_error_and_close rt cw msg cid :
  tidy (send_error_and_close rt cw msg cid).
Proof. unfold send_error_and_close. tidy_auto. Qed.

Lemma tidy_send_to_client rt msg cw : tidy (send_to_client rt msg cw).
Proof. unfold send_to_client. tidy_auto. Qed.

#[local] Hint Resolve tidy_send_error_and_close tidy_send_to_client : tidy.

Lemma tidy_send_error_to_writer rt msg cw :
  tidy (send_error_to_writer rt msg cw).
Proof. unfold send_error_to_writer. tidy_auto. Qed.

Lemma tidy_send_error_to_client rt msg r cid :
  tidy (send_error_to_client rt msg r cid).
Proof. unfold send_error_to_client. tidy_auto. Qed.

Lemma tidy_send_to_all_clients rt message_data r :
  tidy (send_to_all_clients rt message_data r).
Proof.
  intros s. rewrite send_to_all_clients_run. apply effect_none.
Qed.

#[local] Hint Resolve tidy_send_error_to_writer tidy_send_error_to_client
  tidy_send_to_all_clients : tidy.

Lemma tidy_pause_rooms names c acc : tidy (pause_rooms names c acc).
Proof.
  revert acc. induction names as [|n names IH]; intros acc;
    cbn [pause_rooms]; tidy_auto; auto.
Qed.

Lemma tidy_pause_client c : tidy (pause_client c).
Proof. unfold pause_client. tidy_auto. apply tidy_pause_rooms. Qed.

Lemma tidy_close_client c : tidy (close_client c).
Proof. unfold close_client. tidy_auto. Qed.

#[local] Hint Resolve tidy_pause_client tidy_close_client : tidy.

Lemma effect_bind_at {A B} (m : M A) (k : A -> M B) s :
  effect s (post (m s)) -> (forall a, tidy (k a)) ->
  effect s (post (bind m k s)).
Proof.
  intros Hm Hk. unfold bind.
  destruct (m s) as [[[a|e] s1] o1]; cbn in *; auto.
  specialize (Hk a s1). destruct (k a s1) as [[r s2] o2]; cbn in *.
  eapply effect_then; eauto.
Qed.

Lemma tidy_join_chatroom rt r c client_writer :
  tidy (join_chatroom rt r c client_writer).
Proof.
  unfold join_chatroom. apply tidy_get_bind. intros s.
  destruct (dict_mem r (client_list s)) eqn:E; cbn [negb when];
    tidy_here.
Qed.

Lemma tidy_add_chatroom rt r c client_writer :
  tidy (add_chatroom rt r c client_writer).
Proof.
  unfold add_chatroom. destruct (r =? "main") eqn:Em.
  - tidy_auto.
  - apply tidy_get_bind. intros s.
    destruct (dict_mem r (client_list s)) eqn:E.
    + tidy_here.
    + apply effect_bind_at; [|intros; tidy_auto].
      apply effect_room; auto. now apply String.eqb_neq.
Qed.

Lemma tidy_register_client rt cw name r : tidy (register_client rt cw name r).
Proof.
  intros s. destruct (has_room s r) eqn:E.
  - destruct (dict_mem_get _ _ E) as [clients H].
    rewrite (register_client_in_room rt cw name r s clients H).
    destruct (name =? "client").
    + pose proof (next_client_id_unused clients name (client_id_counter s + 1))
        as Hn.
      destruct (next_client_id _ _ _ _) as [n id].
      destruct Hn as (_ & Hle & _). cbn [post fst snd].
      apply effect_then with (with_client_id_counter n s).
      * apply effect_counter. lia.
      * now apply (effect_session (with_client_id_counter n s)).
    + cbn [post fst snd]. now apply effect_session.
  - rewrite (register_client_no_room rt cw name r s E).
    pose proof (tidy_send_error_and_close rt cw
      ("Chat room " ++ r ++ " does not exist. Please add it first.") name s)
      as H.
    destruct (send_error_and_close _ _ _ _ s) as [[o s1] out]. exact H.
Qed.

#[local] Hint Resolve tidy_join_chatroom tidy_add_chatroom
  tidy_register_client : tidy.

(** Neither listing changes the server or writes to anyone. *)
Lemma list_all_clients_run items msg s :
  exists r, list_all_clients items msg s = (r, s, []).
Proof.
  revert msg. induction items as [|[k e] items IH]; intros msg;
    cbn [list_all_clients].
  - eexists. reflexivity.
  - destruct e as [cw st|t]; cbn [entry_status]; munfold.
    + match goal with
      | |- context [list_all_clients items ?m s] => destruct (IH m) as [r ->]
      end.
      destruct r; eexists; reflexivity.
    + eexists; reflexivity.
Qed.

Lemma list_all_rooms_run rooms msg s :
  exists r, list_all_rooms rooms msg s = (r, s, []).
Proof.
  revert msg. induction rooms as [|[k cl] rooms IH]; intros msg;
    cbn [list_all_rooms].
  - eexists. reflexivity.
  - munfold.
    destruct (list_all_clients_run cl (msg ++ (tab ++ "-" ++ k ++ nl)) s)
      as [[m|e] ->].
    + destruct (IH m) as [r ->]. destruct r; eexists; reflexivity.
    + eexists; reflexivity.
Qed.

Lemma list_chatrooms_run list_type c r s :
  exists o, list_chatrooms list_type c r s = (o, s, []).
Proof.
  unfold list_chatrooms. munfold.
  destruct (list_type =? "ALL").
  { destruct (list_all_rooms_run (client_list s)
                ("Chat Room List" ++ (" With Clients and Status:" ++ nl)) s)
      as [o ->].
    destruct o; eexists; reflexivity. }
  destruct (list_type =? "CHAT_ROOMS"); [eexists; reflexivity|].
  destruct (list_type =? "CHAT_ROOM_AND_CLIENTS"); [eexists; reflexivity|].
  destruct (list_type =? "CLIENT_CHAT_ROOMS");
    [destruct c; eexists; reflexivity|].
  destruct (list_type =? "CLIENTS_FOR_CHAT_ROOM"); [|eexists; reflexivity].
  destruct r as [r|]; [|eexists; reflexivity].
  destruct (dict_get r (client_list s)); eexists; reflexivity.
Qed.

Lemma tidy_list_chatrooms list_type c r : tidy (list_chatrooms list_type c r).
Proof.
  intros s. destruct (list_chatrooms_run list_type c r s) as [o ->].
  apply effect_none.
Qed.

#[local] Hint Resolve tidy_list_chatrooms : tidy.

Lemma tidy_process_command rt c client_writer :
  tidy (process_command rt c client_writer).
Proof. unfold process_command. tidy_auto. Qed.

Lemma tidy_readuntil buf : tidy (readuntil buf).
Proof. unfold readuntil. tidy_auto. Qed.

Lemma tidy_decode b : tidy (decode b).
Proof. unfold decode. tidy_auto. Qed.

#[local] Hint Resolve tidy_readuntil tidy_decode : tidy.

Lemma tidy_parse_room_client client_reader :
  tidy (parse_room_client client_reader).
Proof. unfold parse_room_client. tidy_auto. Qed.

#[local] Hint Resolve tidy_parse_room_client tidy_process_command : tidy.

Lemma tidy_read_command rt client_reader client_writer :
  tidy (read_command rt client_reader client_writer).
Proof. unfold read_command. tidy_auto. Qed.

#[local] Hint Resolve tidy_read_command : tidy.

Lemma tidy_client_callback rt client_reader client_writer :
  tidy (client_callback rt client_reader client_writer).
Proof. unfold client_callback. tidy_auto. Qed.

#[local] Hint Resolve tidy_client_callback : tidy.

Lemma tidy_run_call rt c : tidy (run_call rt c).
Proof. destruct c; cbn [run_call]; tidy_auto. Qed.

(* ================================================================== *)
(** ** Invariants of the registry *)

Lemma dict_get_in {V} (d : dict V) k v : dict_get k d = Some v -> In (k, v) d.
Proof.
  induction d as [|[k' v'] d IH]; cbn; [discriminate|].
  destruct (String.eqb k' k) eqn:E.
  - apply String.eqb_eq in E. subst k'. intros [= ->]. now left.
  - intros H. right. auto.
Qed.

Lemma in_dict_set {V} (d : dict V) k v k' v' :
  In (k', v') (dict_set k v d) -> (k' = k /\ v' = v) \/ In (k', v') d.
Proof.
  induction d as [|[k0 v0] d IH]; cbn.
  - intros [[= <- <-]|[]]. now left.
  - destruct (String.eqb k0 k); cbn.
    + intros [[= <- <-]|H]; auto.
    + intros [H|H]; auto. destruct (IH H); auto.
Qed.

Lemma dict_keys_set {V} (d : dict V) k v :
  dict_keys (dict_set k v d)
  = if dict_mem k d then dict_keys d else (dict_keys d ++ [k])%list.
Proof.
  unfold dict_mem. induction d as [|[k0 v0] d IH]; cbn; [reflexivity|].
  destruct (String.eqb k0 k) eqn:E; cbn.
  - apply String.eqb_eq in E. now subst k0.
  - fold (dict_keys (dict_set k v d)). rewrite IH. fold (dict_keys d).
    now destruct (dict_get k d).
Qed.

Lemma nodup_keys_set {V} (d : dict V) k v :
  NoDup (dict_keys d) -> NoDup (dict_keys (dict_set k v d)).
Proof.
  intros H. rewrite dict_keys_set. destruct (dict_mem k d) eqn:E; [exact H|].
  apply NoDup_app; [exact H | repeat constructor; cbn; tauto |].
  intros x Hx [<-|[]]. apply dict_mem_keys in Hx. congruence.
Qed.

Lemma nodup_keys_get {V} (d : dict V) k v :
  NoDup (dict_keys d) -> In (k, v) d -> dict_get k d = Some v.
Proof.
  induction d as [|[k0 v0] d IH]; cbn; [tauto|].
  intros Hnd [[= -> ->]|Hin].
  - now rewrite String.eqb_refl.
  - inversion Hnd as [|? ? Hn Hd]; subst.
    destruct (String.eqb k0 k) eqn:E; [|auto].
    apply String.eqb_eq in E. subst k0. exfalso. apply Hn.
    change k with (fst (k, v)). now apply in_map.
Qed.

(** A store into a room, seen from any room and key. *)
Lemma session_of_update s s0 r c e clients r' c' :
  dict_get r (client_list s) = Some clients ->
  session_of
    (with_client_list (dict_set r (dict_set c e clients) (client_list s)) s0)
    r' c'
  = if (r =? r') && (c =? c') then Some e else session_of s r' c'.
Proof.
  intros H. unfold session_of. cbn [client_list with_client_list].
  destruct (r =? r') eqn:Er; cbn [andb].
  - apply String.eqb_eq in Er. subst r'. rewrite dict_get_set_same, H.
    destruct (c =? c') eqn:Ec.
    + apply String.eqb_eq in Ec. subst c'. apply dict_get_set_same.
    + apply String.eqb_neq in Ec. now apply dict_get_set_other.
  - apply String.eqb_neq in Er. now rewrite dict_get_set_other.
Qed.

Lemma session_of_new_room s s0 r r' c' :
  has_room s r = false ->
  session_of (with_client_list (dict_set r [] (client_list s)) s0) r' c'
  = session_of s r' c'.
Proof.
  intros H. unfold session_of. cbn [client_list with_client_list].
  destruct (r =? r') eqn:Er.
  - apply String.eqb_eq in Er. subst r'.
    rewrite dict_get_set_same, (dict_mem_false_get _ _ H). reflexivity.
  - apply String.eqb_neq in Er. now rewrite dict_get_set_other.
Qed.

Lemma effect_configuration s s' : effect s s' -> same_configuration s s'.
Proof.
  unfold same_configuration.
  induction 1; cbn; try (repeat split; reflexivity).
  intuition congruence.
Qed.

Lemma effect_counter_mono s s' :
  effect s s' -> (client_id_counter s <= client_id_counter s')%Z.
Proof. induction 1; cbn; lia. Qed.

Lemma effect_statuses s s' : effect s s' -> statuses_ok s -> statuses_ok s'.
Proof.
  unfold statuses_ok.
  induction 1 as [s|s1 s2 s3 _ IH1 _ IH2|s n|s n Hn|s r c cw clients Hr
                 |s r c cw old status clients Hr Hc Hin|s r text clients Hr
                 |s r Hr Hm];
    intros Hok; [exact Hok | exact (IH2 (IH1 Hok)) | exact Hok | exact Hok
                | | | | ]; intros r' c' cw' st'.
  - rewrite (session_of_update s s r c _ clients r' c' Hr).
    destruct ((r =? r') && (c =? c')).
    + intros [= <- <-]. cbn. tauto.
    + apply Hok.
  - rewrite (session_of_update s s r c _ clients r' c' Hr).
    destruct ((r =? r') && (c =? c')).
    + intros [= <- <-]. cbn in *. tauto.
    + apply Hok.
  - rewrite (session_of_update s s r "status" _ clients r' c' Hr).
    destruct ((r =? r') && ("status" =? c')).
    + discriminate.
    + apply Hok.
  - rewrite (session_of_new_room s s r r' c' Hr). apply Hok.
Qed.

Lemma well_formed_store s r c e clients :
  dict_get r (client_list s) = Some clients ->
  well_formed s ->
  well_formed
    (with_client_list (dict_set r (dict_set c e clients) (client_list s)) s).
Proof.
  intros Hr [Hk Hrooms]. split; cbn [client_list with_client_list].
  - now apply nodup_keys_set.
  - intros name cl Hin. apply in_dict_set in Hin as [[-> ->]|Hin].
    + apply nodup_keys_set. apply (Hrooms r). now apply dict_get_in.
    + eauto.
Qed.

Lemma effect_well_formed s s' : effect s s' -> well_formed s -> well_formed s'.
Proof.
  induction 1; intros Hwf; auto using well_formed_store.
  destruct Hwf as [Hk Hrooms]. split; cbn [client_list with_client_list].
  - now apply nodup_keys_set.
  - intros name cl Hin. apply in_dict_set in Hin as [[-> ->]|Hin].
    + constructor.
    + eauto.
Qed.

Lemma init_statuses_ok host port mc mml ssl cert s :
  ChatServer_init host port mc mml ssl cert = Return s -> statuses_ok s.
Proof.
  intros H r c cw st. unfold session_of.
  rewrite (init_registry_empty _ _ _ _ _ _ _ H). discriminate.
Qed.

Lemma init_well_formed host port mc mml ssl cert s :
  ChatServer_init host port mc mml ssl cert = Return s -> well_formed s.
Proof.
  intros H. unfold well_formed.
  rewrite (init_registry_empty _ _ _ _ _ _ _ H). split; [constructor|].
  intros name cl [].
Qed.

Lemma reachable_well_formed s : reachable s -> well_formed s.
Proof.
  induction 1 as [host port mc mml ssl cert s H | rt c s _ IH].
  - eapply init_well_formed; eauto.
  - eapply effect_well_formed; [apply tidy_run_call | exact IH].
Qed.

Lemma later_counter s s' :
  later s s' -> (client_id_counter s <= client_id_counter s')%Z.
Proof.
  induction 1 as [|rt c s' _ IH]; [lia|].
  pose proof (effect_counter_mono _ _ (tidy_run_call rt c s')). lia.
Qed.

(* ================================================================== *)
(** ** What holds of every reachable server *)

(** X1.  No call changes what the server was constructed with: the TLS
    settings, host and port, and the limits [max_clients] and
    [max_message_length] are after a connection or a direct call what they
    were before it. *)
Theorem calls_never_change_configuration :
  forall rt c s, same_configuration s (post (run_call rt c s)).
Proof. intros rt c s. apply effect_configuration, tidy_run_call. Qed.

(** X2.  In every reachable state a session's status is NEW, CONNECTED,
    ACTIVE or PAUSED.  So no session is ever marked ERROR, CLOSING or CLOSED
    (the code stores those under the key ["status"] of a room), and PAUSED,
    which the code does assign, is not in [STATUS_LIST]. *)
Theorem session_statuses_in_reachable_states :
  forall s, reachable s ->
    (forall r c cw status,
       session_of s r c = Some (Session cw status) ->
       In status SESSION_STATUSES)
    /\ (forall r c cw,
          session_of s r c <> Some (Session cw "ERROR")
          /\ session_of s r c <> Some (Session cw "CLOSING")
          /\ session_of s r c <> Some (Session cw "CLOSED"))
    /\ str_in "PAUSED" STATUS_LIST = false.
Proof.
  intros s Hs.
  assert (Hok : statuses_ok s).
  { induction Hs as [host port mc mml ssl cert s H | rt c s _ IH].
    - eapply init_statuses_ok; eauto.
    - eapply effect_statuses; [apply tidy_run_call | exact IH]. }
  split; [exact Hok|]. split; [|reflexivity].
  intros r c cw.
  repeat split; intros H; apply Hok in H; cbn in H;
    repeat (destruct H as [H|H]; [discriminate H|]); exact H.
Qed.

Lemma session_statuses_in_reachable_states_witness :
  let s := post (run_call ascii_runtime (Connection "QUIT lobby:alice " 1%nat)
             (post (run_call ascii_runtime (Connection "NEW lobby:alice " 1%nat)
                (fresh_server 100 255)))) in
  session_of s "b'lobby" "alice '" <> Some (Session 1 "CLOSED").
Proof.
  intros s.
  apply (proj1 (proj2 (session_statuses_in_reachable_states s
           (reachable_call _ _ _
              (reachable_call _ _ _
                 (reachable_init "127.0.0.1" "10010" 100 255 None None _
                    eq_refl)))))
         "b'lobby" "alice '" 1%nat).
Defined.

(** X3.  Generated ids are not repeated.  The id counter never goes down,
    and a registration under the sentinel name takes a number above it; so
    once [register_client] has generated an id, a later registration under
    the sentinel name, in any room and after any calls in between, generates
    a different one. *)
Theorem generated_ids_are_never_repeated :
  forall rt rt' cw cw' r r' s s' id id',
    has_room s r = true ->
    result (register_client rt cw "client" r s) = Return id ->
    later (post (register_client rt cw "client" r s)) s' ->
    has_room s' r' = true ->
    result (register_client rt' cw' "client" r' s') = Return id' ->
    id <> id'.
Proof.
  intros rt rt' cw cw' r r' s s' id id' Hr Hid Hlater Hr' Hid'.
  destruct (dict_mem_get _ _ Hr) as [clients Hc].
  destruct (dict_mem_get _ _ Hr') as [clients' Hc'].
  rewrite (register_client_in_room rt cw "client" r s clients Hc) in Hid, Hlater.
  rewrite (register_client_in_room rt' cw' "client" r' s' clients' Hc') in Hid'.
  change ("client" =? "client") with true in *. cbv iota in *.
  pose proof (next_client_id_unused clients "client" (client_id_counter s + 1))
    as H1.
  pose proof (next_client_id_unused clients' "client"
                (client_id_counter s' + 1)) as H2.
  destruct (next_client_id _ clients _ _) as [n x].
  destruct (next_client_id _ clients' _ _) as [m y].
  destruct H1 as (-> & _ & _). destruct H2 as (-> & Hm & _).
  apply later_counter in Hlater. cbn in Hlater, Hid, Hid'.
  injection Hid as <-. injection Hid' as <-.
  intros E. apply (suffixed_id_inj "client" n m) in E. lia.
Qed.

Lemma generated_ids_are_never_repeated_witness :
  let s := fst (serve ascii_runtime [("NEW lobby:alice ", 1%nat)]
                  (fresh_server 100 255)) in
  let s1 := post (register_client ascii_runtime 2%nat "client" "b'lobby" s) in
  let s2 := post (run_call ascii_runtime (Connection "NEW den:bob " 3%nat) s1) in
  result (register_client ascii_runtime 2%nat "client" "b'lobby" s)
  = Return "client2"
  /\ result (register_client ascii_runtime 4%nat "client" "b'den" s2)
     = Return "client3"
  /\ "client2" <> "client3".
Proof.
  intros s s1 s2. split; [reflexivity|]. split; [reflexivity|].
  apply (generated_ids_are_never_repeated ascii_runtime ascii_runtime
           2%nat 4%nat "b'lobby" "b'den" s s2 "client2" "client3").
  - reflexivity.
  - reflexivity.
  - apply later_call. apply later_here.
  - reflexivity.
  - reflexivity.
Defined.

(* ================================================================== *)
(** ** The error path *)

Lemma lookup_store (cl : dict room) r c e clients r' c' :
  dict_get r cl = Some clients ->
  match dict_get r' (dict_set r (dict_set c e clients) cl) with
  | Some x => dict_get c' x
  | None => None
  end
  = if (r =? r') && (c =? c') then Some e
    else match dict_get r' cl with
         | Some x => dict_get c' x
         | None => None
         end.
Proof.
  intros H. destruct (r =? r') eqn:Er; cbn [andb].
  - apply String.eqb_eq in Er. subst r'. rewrite dict_get_set_same, H.
    destruct (c =? c') eqn:Ec.
    + apply String.eqb_eq in Ec. subst c'. apply dict_get_set_same.
    + apply String.eqb_neq in Ec. now apply dict_get_set_other.
  - apply String.eqb_neq in Er. now rewrite dict_get_set_other.
Qed.

(** [send_error_and_close] in full: it never raises; it writes the message
    and closes the writer if the [drain()] went through; it lowers the
    connection count by one; and in the registry it touches nothing but the
    key ["status"] of the room named like the client id, if there is one. *)
Lemma send_error_and_close_spec rt cw msg cid s :
  exists s',
    send_error_and_close rt cw msg cid s
    = (Return tt, s',
       Wrote cw msg ::
       match io_fail rt cw Drain with None => [Closed cw] | Some _ => [] end)
    /\ client_count s' = (client_count s - 1)%Z
    /\ client_id_counter s' = client_id_counter s
    /\ (forall r, has_room s' r = has_room s r)
    /\ (forall r c, (cid =? r) && ("status" =? c) = false ->
          session_of s' r c = session_of s r c)
    /\ (has_room s cid = true ->
          session_of s' cid "status"
          = Some (Bare (match io_fail rt cw Drain, io_fail rt cw WaitClosed with
                        | None, None => "CLOSED"
                        | _, _ => "ERROR"
                        end))).
Proof.
  unfold send_error_and_close, room_setitem, has_room. munfold.
  destruct (dict_mem cid (client_list s)) eqn:E1.
  - destruct (dict_mem_get _ _ E1) as [clients H1]. rewrite H1.
    destruct (io_fail rt cw Drain); [|destruct (io_fail rt cw WaitClosed)];
      repeat (progress
                (mstep; rewrite ?dict_mem_set_same, ?dict_get_set_same));
      eexists; (split; [reflexivity|]);
      (split; [cbn; lia|]); (split; [reflexivity|]);
      unfold session_of;
      cbn [client_list with_client_list with_client_count].
    all: split; [intros r; rewrite ?dict_mem_set_present;
                 auto using dict_mem_set_same|].
    all: split; [intros r c Hrc|intros _];
      rewrite ?(lookup_store _ cid "status" _ _ _ _ (dict_get_set_same _ _ _)),
              ?(lookup_store _ cid "status" _ _ _ _ H1),
              ?Hrc, ?String.eqb_refl; reflexivity.
  - destruct (io_fail rt cw Drain); [|destruct (io_fail rt cw WaitClosed)];
      rewrite ?E1; eexists; (split; [reflexivity|]);
      (split; [cbn; lia|]); (split; [reflexivity|]);
      (split; [reflexivity|]); (split; [reflexivity|]); discriminate.
Qed.

(* ================================================================== *)
(** ** A connection, from the first byte to the dispatch *)

(** The server once the connection has been counted. *)
Lemma callback_after_read rt client_reader cw s :
  client_callback rt client_reader cw s
  = (let '(r, s1, out) :=
       read_command rt client_reader cw
         (with_client_count (client_count s + 1) s) in
     match r with
     | Return (Some c) =>
         let '(r2, s2, out2) := process_command rt c cw s1 in
         (r2, s2, (out ++ out2)%list)
     | Return None => (Return tt, s1, (out ++ [])%list)
     | Raise e => (Raise e, s1, out)
     end).
Proof.
  unfold client_callback. unfold bind at 1, add_client_count at 1, modify at 1.
  unfold bind at 1.
  destruct (read_command _ _ _ _) as [[[[c|]|e] s1] out]; try reflexivity.
  destruct (process_command rt c cw s1) as [[r2 s2] out2]. reflexivity.
Qed.

Lemma process_command_returns rt c cw s :
  result (process_command rt c cw s) = Return tt.
Proof.
  unfold process_command. unfold try_except at 1.
  match goal with
  | |- context [match ?m s with _ => _ end] =>
      destruct (m s) as [[[[]|e] s1] o1]; [reflexivity|]
  end.
  unfold try_except.
  destruct (send_error_and_close_spec rt cw
              ("Command processing failed: " ++ exn_text rt e)
              (client_id c) s1) as (s2 & -> & _).
  reflexivity.
Qed.

Lemma read_command_returns rt client_reader cw s :
  exists o, result (read_command rt client_reader cw s) = Return o.
Proof.
  unfold read_command. unfold try_except at 1.
  match goal with
  | |- context [match ?m s with _ => _ end] =>
      destruct (m s) as [[[a|e] s1] o1]; [eexists; reflexivity|]
  end.
  destruct e; munfold;
    try (eexists; reflexivity);
    match goal with
    | |- context [send_error_and_close rt ?w ?m ?c ?s0] =>
        destruct (send_error_and_close_spec rt w m c s0) as (s2 & -> & _)
    end; eexists; reflexivity.
Qed.

Lemma turn_away_run rt cw msg cid s :
  exists s',
    (send_error_and_close rt cw msg cid ;;
     add_client_count (-1) ;; ret (@None command)) s
    = (Return None, s', error_reply rt cw msg)
    /\ client_count s' = (client_count s - 2)%Z
    /\ (forall r, has_room s' r = has_room s r)
    /\ (forall r c, (cid =? r) && ("status" =? c) = false ->
          session_of s' r c = session_of s r c).
Proof.
  destruct (send_error_and_close_spec rt cw msg cid s)
    as (s1 & Hrun & Hcount & _ & Hrooms & Hrest & _).
  unfold bind at 1. rewrite Hrun. munfold.
  exists (with_client_count (client_count s1 + -1) s1).
  split; [unfold error_reply; now rewrite !app_nil_r|].
  split; [cbn; lia|]. split; [exact Hrooms | exact Hrest].
Qed.

(** From a rejection in [read_command] to the whole handler. *)
Lemma callback_turned_away rt client_reader cw s msg cid :
  read_command rt client_reader cw (with_client_count (client_count s + 1) s)
  = (send_error_and_close rt cw msg cid ;;
     add_client_count (-1) ;; ret (@None command))
      (with_client_count (client_count s + 1) s) ->
  turned_away rt cw msg cid s (client_callback rt client_reader cw s).
Proof.
  intros H. rewrite callback_after_read, H.
  destruct (turn_away_run rt cw msg cid
              (with_client_count (client_count s + 1) s))
    as (s' & -> & Hcount & Hrooms & Hrest).
  unfold turned_away. cbn [result post trace fst snd].
  split; [reflexivity|]. split; [apply app_nil_r|].
  split; [cbn in Hcount; lia|]. split; [exact Hrooms | exact Hrest].
Qed.

Lemma parse_room_client_run rest field body s :
  readuntil_space rest = Some (field, body) ->
  utf8_valid field = true ->
  exists r c, parse_room_client rest s = (Return (r, c, body), s, []).
Proof.
  intros Hread Hvalid. unfold parse_room_client, readuntil, decode.
  rewrite Hread. mstep. rewrite Hvalid. mstep.
  destruct (negb (py_len field =? 0)%Z); [|do 2 eexists; reflexivity].
  destruct (split_on ":" (py_strip (py_str_bytes field))) as [|a [|b [|x l]]];
    do 2 eexists; reflexivity.
Qed.

(* ================================================================== *)
(** ** Connections that are turned away before the dispatch *)







(* ================================================================== *)
(** ** Pausing *)

Lemma is_member_session s r c :
  is_member s r c
  = match session_of s r c with Some _ => true | None => false end.
Proof.
  unfold is_member, session_of, dict_mem.
  destruct (dict_get r (client_list s)); reflexivity.
Qed.

Lemma session_of_no_room s r c : has_room s r = false -> session_of s r c = None.
Proof.
  unfold has_room, session_of. intros H.
  now rewrite (dict_mem_false_get _ _ H).
Qed.

Lemma str_in_keys {V} (d : dict V) k : str_in k (dict_keys d) = dict_mem k d.
Proof.
  unfold str_in, dict_mem, dict_keys.
  induction d as [|[k' v] d IH]; cbn; [reflexivity|].
  rewrite IH, (String.eqb_sym k k'). now destruct (k' =? k).
Qed.

(** The loop of [pause_client] over the rooms [names]. *)
Lemma pause_rooms_run names c :
  forall acc s,
    (forall n, In n names -> has_room s n = true) ->
    (forall r text, session_of s r c <> Some (Bare text)) ->
    exists s',
      pause_rooms names c acc s
      = (Return (acc ++ filter (fun r => is_member s r c) names)%list, s', [])
      /\ client_count s' = client_count s
      /\ (forall r c',
            session_of s' r c'
            = if (c =? c') && str_in r names
              then paused_entry (session_of s r c')
              else session_of s r c').
Proof.
  induction names as [|n names IH]; intros acc s Hrooms Hbare.
  - exists s. cbn [pause_rooms filter str_in existsb]. rewrite app_nil_r.
    split; [reflexivity|]. split; [reflexivity|].
    intros r c'. now rewrite andb_false_r.
  - cbn [pause_rooms filter].
    destruct (dict_mem_get _ _ (Hrooms n (or_introl eq_refl))) as [clients Hn].
    unfold bind at 1, get_server at 1. unfold bind at 1, getitem at 1.
    rewrite Hn. cbn [ret].
    assert (Hmem : is_member s n c = dict_mem c clients)
      by (unfold is_member; now rewrite Hn).
    rewrite Hmem.
    destruct (dict_mem c clients) eqn:Ec.
    + destruct (dict_mem_get _ _ Ec) as [e He].
      assert (Hs : session_of s n c = Some e)
        by (unfold session_of; now rewrite Hn).
      destruct e as [cw old|text]; [|exfalso; eapply Hbare; eauto].
      unfold bind at 1.
      rewrite (set_status_run n c "PAUSED" clients cw old s Hn He).
      set (s1 := with_client_list _ s).
      assert (Hses1 : forall r c',
                session_of s1 r c'
                = if (n =? r) && (c =? c') then Some (Session cw "PAUSED")
                  else session_of s r c')
        by (intros; apply session_of_update; exact Hn).
      destruct (IH (acc ++ [n])%list s1) as (s' & Hrun & Hcount & Hses).
      * intros m Hm. unfold has_room, s1. cbn [client_list with_client_list].
        apply dict_mem_set_mono. apply (Hrooms m). now right.
      * intros r text. rewrite Hses1.
        destruct ((n =? r) && (c =? c)); [discriminate | apply Hbare].
      * rewrite Hrun. exists s'. split; [|split; [exact Hcount|]].
        { cbn [app]. rewrite <- app_assoc. cbn [app].
          do 5 f_equal. apply filter_ext. intros r.
          rewrite !is_member_session, Hses1.
          destruct ((n =? r) && (c =? c)) eqn:E; [|reflexivity].
          apply andb_true_iff in E as [E _]. apply String.eqb_eq in E.
          subst r. now rewrite Hs. }
        intros r c'. rewrite Hses, !Hses1. cbn [str_in existsb].
        fold (str_in r names). rewrite (String.eqb_sym r n).
        destruct (String.eqb_spec n r) as [<-|Hnr],
                 (String.eqb_spec c c') as [<-|Hcc]; cbn [andb orb];
          try reflexivity.
        rewrite Hs. now destruct (str_in n names).
    + destruct (IH acc s) as (s' & Hrun & Hcount & Hses); auto.
      { intros m Hm. apply Hrooms. now right. }
      rewrite Hrun. exists s'. split; [reflexivity|]. split; [exact Hcount|].
      intros r c'. rewrite Hses. cbn [str_in existsb]. fold (str_in r names).
      rewrite (String.eqb_sym r n).
      destruct (String.eqb_spec n r) as [<-|Hnr],
               (String.eqb_spec c c') as [<-|Hcc]; cbn [andb orb];
        try reflexivity.
      assert (Hnone : session_of s n c = None).
      { unfold session_of. rewrite Hn. unfold dict_mem in Ec.
        now destruct (dict_get c clients). }
      rewrite Hnone. now destruct (str_in n names).
Qed.

Lemma pause_client_run c s :
  (forall r text, session_of s r c <> Some (Bare text)) ->
  let rooms :=
    filter (fun r => is_member s r c) (dict_keys (client_list s)) in
  exists s',
    pause_client c s
    = (Return
         (match rooms with
          | [] => "Client " ++ c ++ " not found in any chat rooms"
          | _ => "Client " ++ c ++ " paused in rooms: " ++ str_join ", " rooms
          end), s', [])
    /\ client_count s' = client_count s
    /\ (forall r c',
          session_of s' r c'
          = if c =? c' then paused_entry (session_of s r c')
            else session_of s r c').
Proof.
  intros Hbare rooms.
  destruct (pause_rooms_run (dict_keys (client_list s)) c [] s)
    as (s' & Hrun & Hcount & Hses); [|exact Hbare|].
  { intros n Hn. now apply dict_mem_keys. }
  exists s'. split; [|split; [exact Hcount|]].
  - unfold pause_client. unfold bind at 1, get_server at 1.
    unfold bind at 1. rewrite Hrun. cbn [app]. fold rooms.
    destruct rooms; reflexivity.
  - intros r c'. rewrite Hses, str_in_keys.
    destruct (c =? c'); cbn [andb]; [|reflexivity].
    destruct (dict_mem r (client_list s)) eqn:E; [reflexivity|].
    now rewrite (session_of_no_room s r c' E).
Qed.

(** X7.  [pause_client] sets every session of the client id to PAUSED, in
    every room that has one, whatever its status was; it touches no other
    session, writes to no one, and reports the rooms in registry order, or
    that there are none.  On the wire, PAUSE does the same for the id of its
    header, whatever room the header names, and the client gets no reply.
    (The premise sets aside an id under which a room holds a plain [str],
    which only ["status"] can be.) *)
Theorem pause_client_pauses_the_id_in_every_room :
  forall rt c s,
    (forall r text, session_of s r c <> Some (Bare text)) ->
    let run := pause_client c s in
    let rooms :=
      filter (fun r => is_member s r c) (dict_keys (client_list s)) in
    result run
    = Return
        (match rooms with
         | [] => "Client " ++ c ++ " not found in any chat rooms"
         | _ => "Client " ++ c ++ " paused in rooms: " ++ str_join ", " rooms
         end)
    /\ trace run = []
    /\ client_count (post run) = client_count s
    /\ (forall r c',
          session_of (post run) r c'
          = if c =? c' then paused_entry (session_of s r c')
            else session_of s r c')
    /\ (forall r body cw,
          process_command rt (mkCommand "PAUSE" r c body) cw s
          = (Return tt, post run, [])).
Proof.
  intros rt c s Hbare run rooms.
  destruct (pause_client_run c s Hbare) as (s' & Hrun & Hcount & Hses).
  fold rooms in Hrun. subst run. rewrite Hrun. cbn [result post trace fst snd].
  repeat (split; [first [reflexivity | assumption]|]).
  intros r body cw. unfold process_command.
  cbn [message_name chat_room client_id message_data].
  change ("PAUSE" =? "HELLO") with false. change ("PAUSE" =? "SEND") with false.
  change ("PAUSE" =? "PAUSE") with true. cbv iota.
  unfold try_except at 1 2. unfold bind at 1. rewrite Hrun. reflexivity.
Qed.

Lemma pause_client_pauses_the_id_in_every_room_witness :
  let s := fst (serve ascii_runtime
                  [("NEW lobby:alice ", 1%nat); ("NEW den:alice ", 2%nat);
                   ("JOIN den:bob ", 3%nat); ("SEND den:alice hi", 2%nat)]
                  (fresh_server 100 255)) in
  let run := pause_client "alice '" s in
  result run = Return "Client alice ' paused in rooms: b'lobby, b'den"
  /\ session_of (post run) "b'den" "alice '" = Some (Session 2 "PAUSED")
  /\ session_of (post run) "b'den" "bob '" = Some (Session 3 "NEW").
Proof.
  intros s run.
  assert (H : forall r text, session_of s r "alice '" <> Some (Bare text)).
  { intros r text. unfold session_of.
    change (client_list s)
      with [("b'lobby", [("alice '", Session 1 "NEW")]);
            ("b'den", [("alice '", Session 2 "CONNECTED");
                       ("bob '", Session 3 "NEW")])].
    cbn [dict_get].
    destruct ("b'lobby" =? r); [discriminate|].
    destruct ("b'den" =? r); discriminate. }
  destruct (pause_client_pauses_the_id_in_every_room ascii_runtime
              "alice '" s H) as (Hres & _ & _ & Hses & _).
  subst run. split; [exact Hres|]. split.
  - rewrite (Hses "b'den" "alice '"). reflexivity.
  - rewrite (Hses "b'den" "bob '"). reflexivity.
Defined.

(* ================================================================== *)
(** ** Joining and creating rooms *)

Lemma recipients_new_session (clients : room) c cw :
  dict_mem c clients = false ->
  recipients (dict_set c (Session cw "NEW") clients) = recipients clients.
Proof.
  unfold dict_mem. induction clients as [|[k e] clients IH]; cbn.
  - reflexivity.
  - destruct (k =? c) eqn:E; [discriminate|]. intros H. cbn.
    destruct e as [w st|t]; [|reflexivity]. now rewrite IH.
Qed.

Lemma dict_set_twice {V} (d : dict V) k v1 v2 :
  dict_set k v2 (dict_set k v1 d) = dict_set k v2 d.
Proof.
  induction d as [|[k' v'] d IH]; cbn.
  - now rewrite String.eqb_refl.
  - destruct (k' =? k) eqn:E; cbn.
    + now rewrite String.eqb_refl.
    + now rewrite E, IH.
Qed.



(** X9.  [add_chatroom] for a name other than ["main"].  A room that is not
    there is created with the creator as its only session, NEW, and the
    confirmation goes to the creator alone.  A room that is there is left as
    it is, with the rest of the server: if the id has a session in it, the
    error goes to that session's stored writer, not to the caller's;
    otherwise the call raises ([KeyError], or [TypeError] on a plain
    [str]), which the dispatch of NEW answers with [Room creation failed]
    and a close. *)
Theorem add_chatroom_outcomes :
  forall rt r c cw s,
    r <> "main" ->
    let run := add_chatroom rt r c cw s in
    (has_room s r = false ->
       let msg :=
         "MSG Chatroom " ++ r ++ " was successfully created by " ++ c ++ "." in
       run
       = (Return msg,
          with_client_list
            (dict_set r [(c, Session cw "NEW")] (client_list s)) s,
          [Wrote cw msg]))
    /\ (has_room s r = true ->
        let err := "ERROR: Chat Room " ++ r ++ " already exists." in
        post run = s
        /\ match session_of s r c with
           | Some (Session w _) =>
               result run = Return err
               /\ trace run = [Wrote w ("ERROR " ++ r ++ ":" ++ c ++ " " ++ err)]
           | Some (Bare _) => result run = Raise TypeError /\ trace run = []
           | None =>
               result run = Raise (KeyError (Some c)) /\ trace run = []
               /\ trace (process_command rt (mkCommand "NEW" r c "") cw s)
                  = error_reply rt cw
                      ("Room creation failed: "
                       ++ exn_text rt (KeyError (Some c)))
           end).
Proof.
  intros rt r c cw s Hmain run. subst run.
  apply String.eqb_neq in Hmain. split.
  - unfold has_room. intros H. unfold add_chatroom, room_setitem, send_to_client.
    rewrite Hmain.
    msimp ltac:(rewrite ?H, ?dict_get_set_same, ?dict_set_twice).
    destruct (io_fail rt cw Drain); reflexivity.
  - intros H err. unfold has_room in H.
    destruct (dict_mem_get _ _ H) as [clients Hc].
    assert (Hrun :
      add_chatroom rt r c cw s
      = match dict_get c clients with
        | Some (Session w _) =>
            (Return err, s, [Wrote w ("ERROR " ++ r ++ ":" ++ c ++ " " ++ err)])
        | Some (Bare _) => (Raise TypeError, s, [])
        | None => (Raise (KeyError (Some c)), s, [])
        end).
    { unfold add_chatroom, send_error_to_client, send_to_client. rewrite Hmain.
      msimp ltac:(rewrite ?H, ?Hc).
      destruct (dict_get c clients) as [[w st|t]|]; try reflexivity.
      cbn [entry_writer]. mstep. destruct (io_fail rt w Drain); reflexivity. }
    unfold session_of. rewrite Hc, Hrun.
    destruct (dict_get c clients) as [[w st|t]|] eqn:E;
      cbn [result post trace fst snd]; repeat split.
    unfold process_command.
    cbn [message_name chat_room client_id message_data].
    change ("NEW" =? "HELLO") with false. change ("NEW" =? "SEND") with false.
    change ("NEW" =? "PAUSE") with false. change ("NEW" =? "ERROR") with false.
    change ("NEW" =? "NEW") with true. cbv iota.
    unfold try_except at 1 2. unfold bind at 1. rewrite Hrun. rewrite ?E.
    destruct (send_error_and_close_spec rt cw
                ("Room creation failed: " ++ exn_text rt (KeyError (Some c)))
                c s) as (s1 & -> & _).
    reflexivity.
Qed.

Lemma add_chatroom_outcomes_witness :
  let s := fst (serve ascii_runtime [("NEW lobby:alice ", 1%nat)]
                  (fresh_server 100 255)) in
  trace (add_chatroom ascii_runtime "b'lobby" "alice '" 2%nat s)
  = [Wrote 1%nat
       "ERROR b'lobby:alice ' ERROR: Chat Room b'lobby already exists."]
  /\ trace (client_callback ascii_runtime "NEW lobby:bob " 2%nat s)
     = [Wrote 2%nat
          ("Room creation failed: "
           ++ exn_text ascii_runtime (KeyError (Some "bob '")));
        Closed 2%nat].
Proof.
  intros s.
  pose proof (proj2 (add_chatroom_outcomes ascii_runtime "b'lobby" "alice '"
                       2%nat s ltac:(discriminate)) eq_refl) as H.
  split; [apply (proj2 (proj2 H)) | reflexivity].
Defined.

(* ================================================================== *)
(** ** Broadcast *)

Lemma in_recipients (clients : room) w :
  only_sessions clients ->
  (In w (recipients clients)
   <-> exists c st,
         In (c, Session w st) clients
         /\ str_in st ["CONNECTED"; "ACTIVE"] = true).
Proof.
  unfold only_sessions. induction clients as [|[k e] clients IH]; intros Hs.
  - cbn. split; [tauto | intros (c & st & [] & _)].
  - assert (Hs' : forall c text, ~ In (c, Bare text) clients)
      by (intros c text Hin; apply (Hs c text); now right).
    specialize (IH Hs').
    destruct e as [cw st|t]; [|exfalso; apply (Hs k t); now left].
    cbn [recipients]. rewrite in_app_iff, IH. split.
    + intros [H|(c & st' & Hin & Hst)].
      * destruct (str_in st ["CONNECTED"; "ACTIVE"]) eqn:E; [|destruct H].
        destruct H as [<-|[]]. exists k, st. split; [now left | exact E].
      * exists c, st'. split; [now right | exact Hst].
    + intros (c & st' & [[= <- <- <-]|Hin] & Hst).
      * left. rewrite Hst. now left.
      * right. eauto.
Qed.

Lemma recipients_length (clients : room) :
  (List.length (recipients clients) <= List.length clients)%nat.
Proof.
  induction clients as [|[k [cw st|t]] clients IH]; cbn [recipients List.length];
    [lia| |lia].
  rewrite length_app. destruct (str_in st ["CONNECTED"; "ACTIVE"]); cbn; lia.
Qed.

Lemma connected_or_active st :
  str_in st ["CONNECTED"; "ACTIVE"] = true <-> st = "CONNECTED" \/ st = "ACTIVE".
Proof.
  cbn. rewrite orb_false_r, orb_true_iff, !String.eqb_eq. tauto.
Qed.

(** X10.  [send_to_all_clients] never raises and never changes the server,
    whatever the writers do.  In a room of sessions, the frame [MSG text]
    is written to a writer exactly when it belongs to a session of the room
    whose status is CONNECTED or ACTIVE: NEW and PAUSED sessions get
    nothing, no writer is skipped because an earlier one failed, and no
    writer is closed.  A room that does not exist is a broadcast to no
    one. *)
Theorem broadcast_reaches_connected_and_active_sessions :
  forall rt text r s,
    let run := send_to_all_clients rt text r s in
    result run = Return tt
    /\ post run = s
    /\ (forall w, ~ In (Closed w) (trace run))
    /\ (has_room s r = false -> trace run = [])
    /\ (forall clients,
          dict_get r (client_list s) = Some clients ->
          only_sessions clients ->
          forall w frame,
            In (Wrote w frame) (trace run)
            <-> frame = "MSG " ++ text
                /\ exists c st,
                     In (c, Session w st) clients
                     /\ (st = "CONNECTED" \/ st = "ACTIVE")).
Proof.
  intros rt text r s run. subst run. rewrite send_to_all_clients_run.
  cbn [result post trace fst snd].
  split; [reflexivity|]. split; [reflexivity|]. split; [|split].
  - intros w H. apply in_map_iff in H as (x & Hx & _). discriminate Hx.
  - unfold has_room. intros H. now rewrite (dict_mem_false_get _ _ H).
  - intros clients Hc Hs w frame. rewrite Hc, in_map_iff. split.
    + intros (x & [= <- <-] & Hin). split; [reflexivity|].
      apply (in_recipients clients x Hs) in Hin as (c & st & Hin & Hst).
      exists c, st. split; [exact Hin | now apply connected_or_active].
    + intros (-> & c & st & Hin & Hst). exists w. split; [reflexivity|].
      apply (in_recipients clients w Hs). exists c, st.
      split; [exact Hin | now apply connected_or_active].
Qed.

Lemma broadcast_reaches_connected_and_active_sessions_witness :
  let s := with_client_list
             [("lobby", [("alice", Session 1 "ACTIVE");
                         ("bob", Session 2 "PAUSED");
                         ("carol", Session 3 "CONNECTED")])]
             (fresh_server 100 255) in
  In (Wrote 3%nat "MSG hi")
    (trace (send_to_all_clients ascii_runtime "hi" "lobby" s)).
Proof.
  intros s.
  apply (proj2 (proj2 (proj2 (proj2 (proj2
           (broadcast_reaches_connected_and_active_sessions ascii_runtime
              "hi" "lobby" s))))
           [("alice", Session 1 "ACTIVE"); ("bob", Session 2 "PAUSED");
            ("carol", Session 3 "CONNECTED")]
           eq_refl
           ltac:(intros c text [H|[H|[H|[]]]]; discriminate H)
           3%nat "MSG hi")).
  split; [reflexivity|]. exists "carol", "CONNECTED".
  split; [cbn; tauto | now left].
Defined.

(** X11.  [send_error_and_close] never raises, whatever the writer does.  It
    writes the message, and closes the writer if the [drain()] went through;
    it lowers the connection count by one; it leaves rooms, members and
    sessions as they are, but for the key ["status"] of a room named like
    the client id, which ends as CLOSED when the close went through and as
    ERROR otherwise. *)
Theorem send_error_and_close_outcome :
  forall rt cw msg cid s,
    let run := send_error_and_close rt cw msg cid s in
    result run = Return tt
    /\ trace run = error_reply rt cw msg
    /\ client_count (post run) = (client_count s - 1)%Z
    /\ (forall r, has_room (post run) r = has_room s r)
    /\ (forall r c, (cid =? r) && ("status" =? c) = false ->
          session_of (post run) r c = session_of s r c)
    /\ (has_room s cid = true ->
          session_of (post run) cid "status"
          = Some (Bare (match io_fail rt cw Drain, io_fail rt cw WaitClosed with
                        | None, None => "CLOSED"
                        | _, _ => "ERROR"
                        end))).
Proof.
  intros rt cw msg cid s run. subst run.
  destruct (send_error_and_close_spec rt cw msg cid s)
    as (s' & -> & Hcount & _ & Hrooms & Hrest & Hstatus).
  cbn [result post trace fst snd]. repeat split; assumption.
Qed.

Lemma send_error_and_close_outcome_witness :
  let s := fst (serve ascii_runtime [("NEW lobby:alice ", 1%nat)]
                  (fresh_server 100 255)) in
  let run := send_error_and_close ascii_runtime 1%nat "bye" "alice '" s in
  session_of (post run) "b'lobby" "alice '" = Some (Session 1 "NEW").
Proof.
  intros s run.
  apply (proj1 (proj2 (proj2 (proj2 (proj2
           (send_error_and_close_outcome ascii_runtime 1%nat "bye" "alice '"
              s)))))
           "b'lobby" "alice '" eq_refl).
Defined.

(* ================================================================== *)
(** ** The dispatch *)

(** X12.  SEND from a pair that is not registered (the room is missing, or
    the id is not in it) is answered with the not-registered error and a
    close; nothing is broadcast and no status moves.  ERROR is answered
    with its own body, as it came, and a close. *)
Theorem send_unregistered_and_error_are_turned_away :
  forall rt r c body cw s,
    (is_member s r c = false ->
       turned_away rt cw not_registered_message c s
         (process_command rt (mkCommand "SEND" r c body) cw s))
    /\ turned_away rt cw body c s
         (process_command rt (mkCommand "ERROR" r c body) cw s).
Proof.
  intros rt r c body cw s. split.
  - intros Hm.
    assert (Hrun : process_command rt (mkCommand "SEND" r c body) cw s
                   = send_error_and_close rt cw not_registered_message c s).
    { unfold process_command.
      cbn [message_name chat_room client_id message_data].
      change ("SEND" =? "HELLO") with false. change ("SEND" =? "SEND") with true.
      cbv iota. unfold try_except_only, try_except at 1 2.
      unfold bind at 1, get_server at 1.
      assert (Hc : negb (dict_mem r (client_list s))
                   || negb (match dict_get r (client_list s) with
                            | Some clients => dict_mem c clients
                            | None => false
                            end) = true).
      { unfold is_member in Hm. rewrite Hm. apply orb_true_r. }
      rewrite Hc.
      destruct (send_error_and_close_spec rt cw not_registered_message c s)
        as (s1 & -> & _).
      reflexivity. }
    rewrite Hrun.
    destruct (send_error_and_close_spec rt cw not_registered_message c s)
      as (s1 & -> & Hcount & _ & Hrooms & Hrest & _).
    unfold turned_away. cbn [result post trace fst snd]. auto.
  - assert (Hrun : process_command rt (mkCommand "ERROR" r c body) cw s
                   = send_error_and_close rt cw body c s).
    { unfold process_command.
      cbn [message_name chat_room client_id message_data].
      change ("ERROR" =? "HELLO") with false.
      change ("ERROR" =? "SEND") with false.
      change ("ERROR" =? "PAUSE") with false.
      change ("ERROR" =? "ERROR") with true. cbv iota.
      unfold try_except at 1.
      destruct (send_error_and_close_spec rt cw body c s) as (s1 & -> & _).
      reflexivity. }
    rewrite Hrun.
    destruct (send_error_and_close_spec rt cw body c s)
      as (s1 & -> & Hcount & _ & Hrooms & Hrest & _).
    unfold turned_away. cbn [result post trace fst snd]. auto.
Qed.

Lemma send_unregistered_and_error_are_turned_away_witness :
  let s := fst (serve ascii_runtime [("NEW lobby:alice ", 1%nat)]
                  (fresh_server 100 255)) in
  trace (process_command ascii_runtime
           (mkCommand "SEND" "b'lobby" "bob '" "hi") 2%nat s)
  = [Wrote 2%nat not_registered_message; Closed 2%nat].
Proof.
  intros s.
  apply (proj1 (proj2 (proj1 (send_unregistered_and_error_are_turned_away
           ascii_runtime "b'lobby" "bob '" "hi" 2%nat s) eq_refl))).
Defined.

(** X13.  LIST never sends a listing.  The dispatch computes the text
    listing for the kind named by the body and drops it: the server is
    unchanged, nothing is closed, and the only frame there can be is a
    [List failed] error.  That error is what CLIENTS_FOR_CHAT_ROOM always
    gets, since the dispatch passes no room; the kinds that only read names
    get no frame at all. *)
Theorem list_command_sends_no_listing :
  forall rt r c body cw s,
    let run := process_command rt (mkCommand "LIST" r c body) cw s in
    result run = Return tt
    /\ post run = s
    /\ (trace run = []
        \/ exists e,
             trace run = [Wrote cw ("ERROR List failed: " ++ exn_text rt e)])
    /\ (body = "CLIENTS_FOR_CHAT_ROOM" ->
        trace run
        = [Wrote cw ("ERROR List failed: " ++ exn_text rt (KeyError None))])
    /\ (body <> "ALL" -> body <> "CLIENTS_FOR_CHAT_ROOM" -> trace run = []).
Proof.
  intros rt r c body cw s run.
  assert (Hrun :
    run
    = match result (list_chatrooms body (Some c) None s) with
      | Return _ => (Return tt, s, [])
      | Raise e =>
          (Return tt, s, [Wrote cw ("ERROR List failed: " ++ exn_text rt e)])
      end).
  { subst run. unfold process_command.
    cbn [message_name chat_room client_id message_data].
    change ("LIST" =? "HELLO") with false. change ("LIST" =? "SEND") with false.
    change ("LIST" =? "PAUSE") with false. change ("LIST" =? "ERROR") with false.
    change ("LIST" =? "NEW") with false. change ("LIST" =? "JOIN") with false.
    change ("LIST" =? "LIST") with true. cbv iota.
    destruct (list_chatrooms_run body (Some c) None s) as [o Ho].
    unfold try_except at 1 2. unfold bind at 1. rewrite Ho.
    cbn [result fst]. destruct o as [x|e]; [reflexivity|].
    unfold send_error_to_writer, send_to_client. mstep.
    destruct (io_fail rt cw Drain); reflexivity. }
  rewrite Hrun.
  split; [destruct (result _); reflexivity|].
  split; [destruct (result _); reflexivity|].
  split; [destruct (result _) as [x|e]; [now left | right; now exists e]|].
  split.
  - intros ->. reflexivity.
  - intros Hall Hroom. apply String.eqb_neq in Hall, Hroom.
    unfold list_chatrooms. mstep. rewrite Hall, Hroom.
    destruct (body =? "CHAT_ROOMS"); [reflexivity|].
    destruct (body =? "CHAT_ROOM_AND_CLIENTS"); [reflexivity|].
    destruct (body =? "CLIENT_CHAT_ROOMS"); reflexivity.
Qed.

Lemma list_command_sends_no_listing_witness :
  let s := fst (serve ascii_runtime [("NEW lobby:alice ", 1%nat)]
                  (fresh_server 100 255)) in
  trace (client_callback ascii_runtime "LIST lobby:alice CHAT_ROOMS" 1%nat s)
  = [].
Proof.
  intros s.
  apply (proj2 (proj2 (proj2 (proj2
           (list_command_sends_no_listing ascii_runtime "b'lobby" "alice '"
              "CHAT_ROOMS" 1%nat
              (with_client_count (client_count s + 1) s)))))).
  - discriminate.
  - discriminate.
Defined.

(** X14.  The handler never raises: whatever bytes arrive, in whatever
    state, and whichever awaited call fails, [client_callback] returns. *)
Theorem client_callback_never_raises :
  forall rt client_reader cw s,
    result (client_callback rt client_reader cw s) = Return tt.
Proof.
  intros rt client_reader cw s. rewrite callback_after_read.
  destruct (read_command_returns rt client_reader cw
              (with_client_count (client_count s + 1) s)) as [o Ho].
  destruct (read_command _ _ _ _) as [[x s1] out]. cbn [result fst] in Ho.
  subst x. destruct o as [c|]; [|reflexivity].
  pose proof (process_command_returns rt c cw s1) as Hp.
  destruct (process_command rt c cw s1) as [[r2 s2] out2].
  exact Hp.
Qed.

(* ================================================================== *)
(** ** Direct messages *)

(** X15.  [client_to_client] writes [MSG FROM room:source text] to the
    target's stored writer, whatever the target's status and whether or not
    the source is in the room, and changes nothing on the server.  Unlike
    the other senders it catches nothing: a failing [drain()] is raised to
    the caller after the write, and a missing room or target is a
    [KeyError] before it. *)
Theorem client_to_client_outcomes :
  forall rt text r source target s,
    let run := client_to_client rt text r source target s in
    post run = s
    /\ match session_of s r target with
       | Some (Session w _) =>
           trace run
           = [Wrote w ("MSG FROM " ++ r ++ ":" ++ source ++ " " ++ text)]
           /\ result run
              = match io_fail rt w Drain with
                | Some e => Raise e
                | None => Return tt
                end
       | Some (Bare _) => result run = Raise TypeError /\ trace run = []
       | None =>
           trace run = []
           /\ result run
              = Raise (KeyError (Some (if has_room s r then target else r)))
       end.
Proof.
  intros rt text r source target s run. subst run.
  unfold client_to_client, session_of, has_room, dict_mem. mstep.
  destruct (dict_get r (client_list s)) as [clients|]; [|split; auto].
  destruct (dict_get target clients) as [[w st|t]|]; cbn [entry_writer];
    mstep; [|split; auto|split; auto].
  destruct (io_fail rt w Drain); split; auto.
Qed.

(* ================================================================== *)
(** ** Listings *)

Lemma dict_all_clients_run items acc s :
  exists r, dict_all_clients items acc s = (r, s, []).
Proof.
  revert acc. induction items as [|[k e] items IH]; intros acc;
    cbn [dict_all_clients].
  - eexists. reflexivity.
  - destruct e as [cw st|t]; cbn [entry_status]; munfold.
    + match goal with
      | |- context [dict_all_clients items ?a s] => destruct (IH a) as [r ->]
      end.
      destruct r; eexists; reflexivity.
    + eexists; reflexivity.
Qed.

Lemma dict_all_rooms_run rooms acc s :
  exists r, dict_all_rooms rooms acc s = (r, s, []).
Proof.
  revert acc. induction rooms as [|[k cl] rooms IH]; intros acc;
    cbn [dict_all_rooms].
  - eexists. reflexivity.
  - munfold. destruct (dict_all_clients_run cl [] s) as [[m|e] ->].
    + match goal with
      | |- context [dict_all_rooms rooms ?a s] => destruct (IH a) as [r ->]
      end.
      destruct r; eexists; reflexivity.
    + eexists; reflexivity.
Qed.

Lemma list_chatrooms_as_dict_run rt list_type c r s :
  exists o, list_chatrooms_as_dict rt list_type c r s = (o, s, []).
Proof.
  unfold list_chatrooms_as_dict. munfold.
  destruct (list_type =? "ALL").
  { destruct (dict_all_rooms_run (client_list s) [] s) as [o ->].
    destruct o; eexists; reflexivity. }
  destruct (list_type =? "CHAT_ROOMS"); [eexists; reflexivity|].
  destruct (list_type =? "CHAT_ROOM_AND_CLIENTS"); [eexists; reflexivity|].
  destruct (list_type =? "CLIENT_CHAT_ROOMS");
    [destruct c; eexists; reflexivity|].
  destruct (list_type =? "CLIENTS_FOR_CHAT_ROOM"); eexists; reflexivity.
Qed.

(** X16.  Both listings only read: whatever kind is asked for, with or
    without a client id and a room, neither changes the server nor writes to
    or closes any connection (also when it raises). *)
Theorem listings_only_read :
  forall rt list_type c r s,
    (exists o, list_chatrooms list_type c r s = (o, s, []))
    /\ (exists o, list_chatrooms_as_dict rt list_type c r s = (o, s, [])).
Proof.
  intros rt list_type c r s. split.
  - apply list_chatrooms_run.
  - apply list_chatrooms_as_dict_run.
Qed.

Lemma nodup_keys_filter {V} (p : string * V -> bool) (d : dict V) :
  NoDup (dict_keys d) -> NoDup (dict_keys (filter p d)).
Proof.
  unfold dict_keys. induction d as [|kv d IH]; cbn; [auto|].
  intros H. inversion H as [|? ? Hn Hd]; subst.
  destruct (p kv); cbn; auto. constructor; auto.
  intros Hin. apply Hn. apply in_map_iff in Hin as (x & Hx & Hf).
  apply filter_In in Hf as [Hf _]. apply in_map_iff. eauto.
Qed.

Lemma in_rooms_of_client s c r :
  well_formed s ->
  (In r (rooms_of_client c (client_list s)) <-> is_member s r c = true).
Proof.
  intros [Hk _]. unfold rooms_of_client, is_member, dict_keys. split.
  - intros Hin. apply in_map_iff in Hin as ([r' clients] & Hr & Hf).
    cbn in Hr. subst r'. apply filter_In in Hf as [Hin Hm]. cbn in Hm.
    now rewrite (nodup_keys_get _ _ _ Hk Hin).
  - destruct (dict_get r (client_list s)) as [clients|] eqn:E; [|discriminate].
    intros Hm. apply in_map_iff. exists (r, clients). split; [reflexivity|].
    apply filter_In. split; [now apply dict_get_in | exact Hm].
Qed.

(** X17.  In every reachable state the structured listing tells the
    membership as the registry has it: CLIENT_CHAT_ROOMS for an id lists,
    once each, exactly the rooms the id is in, and CLIENTS_FOR_CHAT_ROOM for
    a room lists, once each, exactly the ids in the room (none for a room
    that does not exist). *)
Theorem structured_listing_reports_membership :
  forall rt s,
    reachable s ->
    (forall c r0,
       exists type rooms,
         list_chatrooms_as_dict rt "CLIENT_CHAT_ROOMS" (Some c) r0 s
         = (Return (PyDict [("type", type); ("client_id", PyStr c);
                            ("chat_rooms", PyList (map PyStr rooms))]), s, [])
         /\ NoDup rooms
         /\ forall r, In r rooms <-> is_member s r c = true)
    /\ (forall c0 r,
          exists type members,
            list_chatrooms_as_dict rt "CLIENTS_FOR_CHAT_ROOM" c0 (Some r) s
            = (Return (PyDict [("type", type); ("chatroom_list", PyDict []);
                               ("chat_room_name", PyStr r);
                               ("client_list", PyList (map PyStr members))]),
               s, [])
            /\ NoDup members
            /\ forall c, In c members <-> is_member s r c = true).
Proof.
  intros rt s Hs. pose proof (reachable_well_formed s Hs) as Hwf. split.
  - intros c r0. do 2 eexists. split; [reflexivity|]. split.
    + apply nodup_keys_filter. apply Hwf.
    + intros r. now apply in_rooms_of_client.
  - intros c0 r. unfold list_chatrooms_as_dict, is_member. mstep.
    change ("CLIENTS_FOR_CHAT_ROOM" =? "ALL") with false.
    change ("CLIENTS_FOR_CHAT_ROOM" =? "CHAT_ROOMS") with false.
    change ("CLIENTS_FOR_CHAT_ROOM" =? "CHAT_ROOM_AND_CLIENTS") with false.
    change ("CLIENTS_FOR_CHAT_ROOM" =? "CLIENT_CHAT_ROOMS") with false.
    change ("CLIENTS_FOR_CHAT_ROOM" =? "CLIENTS_FOR_CHAT_ROOM") with true.
    cbv iota. cbn [py_opt_str].
    destruct (dict_get r (client_list s)) as [clients|] eqn:E.
    + exists (PyStr (replace_char "_" " " (str_lower rt "CLIENTS_FOR_CHAT_ROOM"))),
        (dict_keys clients).
      split; [reflexivity|]. split.
      * apply (proj2 Hwf r). now apply dict_get_in.
      * intros c. symmetry. apply dict_mem_keys.
    + exists (PyStr (replace_char "_" " " (str_lower rt "CLIENTS_FOR_CHAT_ROOM"))),
        [].
      split; [reflexivity|]. split; [constructor|].
      intros c. cbn. split; [tauto | discriminate].
Qed.

Lemma structured_listing_reports_membership_witness :
  let s := post (run_call ascii_runtime (Connection "JOIN lobby:bob " 2%nat)
             (post (run_call ascii_runtime (Connection "NEW lobby:alice " 1%nat)
                (fresh_server 100 255)))) in
  exists type members,
    list_chatrooms_as_dict ascii_runtime "CLIENTS_FOR_CHAT_ROOM" None
      (Some "b'lobby") s
    = (Return (PyDict [("type", type); ("chatroom_list", PyDict []);
                       ("chat_room_name", PyStr "b'lobby");
                       ("client_list", PyList (map PyStr members))]), s, [])
    /\ NoDup members
    /\ forall c, In c members <-> is_member s "b'lobby" c = true.
Proof.
  intros s.
  apply (proj2 (structured_listing_reports_membership ascii_runtime s
           (reachable_call _ _ _
              (reachable_call _ _ _
                 (reachable_init "127.0.0.1" "10010" 100 255 None None _
                    eq_refl))))
         None "b'lobby").
Defined.

(* ================================================================== *)
(** ** The HTTP endpoints *)

(** X18.  [POST /messages/send].  For a room that does not exist the reply
    is 404 and nobody is written to.  Otherwise the text is broadcast with
    the arguments the right way round, and the reply reports as
    [clients_notified] the number of entries of the room, whatever their
    status: the frames actually written are those of the CONNECTED and
    ACTIVE sessions, and can be fewer.  The endpoint never answers 400 and
    never changes the server. *)
Theorem http_send_reports_every_entry_as_notified :
  forall rt text r s,
    let run := Api.send_message rt text r s in
    post run = s
    /\ (has_room s r = false ->
        result run
        = Return (Api.HTTPException 404 ("Chat room '" ++ r ++ "' not found"))
        /\ trace run = [])
    /\ (forall clients,
          dict_get r (client_list s) = Some clients ->
          result run
          = Return (Api.Response
                      (Api.mkSent "sent" text r
                         (Z.of_nat (List.length clients))))
          /\ trace run
             = map (fun w => Wrote w ("MSG " ++ text)) (recipients clients)
          /\ (List.length (trace run) <= List.length clients)%nat).
Proof.
  intros rt text r s run. subst run.
  unfold Api.send_message, get_client_list, has_room.
  destruct (dict_mem r (client_list s)) eqn:E.
  - msimp ltac:(rewrite ?E, ?send_to_all_clients_run).
    cbn [result post trace fst snd].
    split; [reflexivity|]. split; [discriminate|].
    intros clients H. rewrite H, !app_nil_r.
    split; [reflexivity|]. split; [reflexivity|].
    rewrite length_map. apply recipients_length.
  - msimp ltac:(rewrite ?E). cbn [result post trace fst snd].
    split; [reflexivity|]. split; [auto|].
    intros clients H. apply dict_get_mem in H. congruence.
Qed.

Lemma http_send_reports_every_entry_as_notified_witness :
  let s := fst (serve ascii_runtime
                  [("NEW lobby:alice ", 1%nat); ("JOIN lobby:bob ", 2%nat)]
                  (fresh_server 100 255)) in
  let run := Api.send_message ascii_runtime "hi" "b'lobby" s in
  result run = Return (Api.Response (Api.mkSent "sent" "hi" "b'lobby" 2))
  /\ trace run = [].
Proof.
  intros s run.
  destruct (proj2 (proj2 (http_send_reports_every_entry_as_notified
              ascii_runtime "hi" "b'lobby" s))
              [("alice '", Session 1 "NEW"); ("bob '", Session 2 "NEW")]
              eq_refl) as (Hres & Htrace & _).
  split; [exact Hres | exact Htrace].
Defined.

Lemma pause_rooms_absent names c :
  forall acc s,
    (forall n, In n names -> has_room s n = true) ->
    (forall r, is_member s r c = false) ->
    pause_rooms names c acc s = (Return acc, s, []).
Proof.
  induction names as [|n names IH]; intros acc s Hrooms Habs;
    cbn [pause_rooms]; [reflexivity|].
  destruct (dict_mem_get _ _ (Hrooms n (or_introl eq_refl))) as [clients Hn].
  unfold bind at 1, get_server at 1. unfold bind at 1, getitem at 1.
  rewrite Hn. cbn [ret].
  pose proof (Habs n) as Hm. unfold is_member in Hm. rewrite Hn in Hm.
  rewrite Hm, IH; auto. intros m Hin. apply Hrooms. now right.
Qed.





(* ================================================================== *)
(** ** Configuration and start-up *)

Lemma validate_valid c c' :
  Config.validate c = Config.Valid c' ->
  In (Config.mode c') Config.MODES
  /\ Config.use_ssl c' = Config.use_ssl c
  /\ Config.cert_path c' = Config.cert_path c
  /\ (truthy_flag (Config.use_ssl c') = true ->
      truthy_text (Config.cert_path c') = true).
Proof.
  unfold Config.validate.
  destruct (str_in (Config.mode c) Config.MODES) eqn:Em; cbn [negb].
  - destruct (truthy_flag (Config.use_ssl c)
              && negb (truthy_text (Config.cert_path c))) eqn:E;
      [discriminate|].
    intros [= <-]. split; [|split; [reflexivity|split; [reflexivity|]]].
    + unfold str_in in Em. apply existsb_exists in Em as (m & Hin & Hm).
      apply String.eqb_eq in Hm. now subst m.
    + intros Hs. rewrite Hs in E. cbn in E.
      now destruct (truthy_text (Config.cert_path c)).
  - cbn [Config.use_ssl Config.cert_path].
    destruct (truthy_flag (Config.use_ssl c)
              && negb (truthy_text (Config.cert_path c))) eqn:E;
      [discriminate|].
    intros [= <-]. cbn. split; [tauto|]. split; [reflexivity|].
    split; [reflexivity|].
    intros Hs. rewrite Hs in E. cbn in E.
    now destruct (truthy_text (Config.cert_path c)).
Qed.

Lemma valid_main_constructs c :
  In (Config.mode c) Config.MODES ->
  (truthy_flag (Config.use_ssl c) = true ->
   truthy_text (Config.cert_path c) = true) ->
  Config.constructed (Config.main c)
  = Some (if Config.mode c =? "http"
          then Return (fresh_server 100 255)
          else ChatServer_init (Config.socket_host c)
                 (py_str_int (Config.socket_port c))
                 (Config.max_clients c) (Config.max_message_length c)
                 (Config.use_ssl c) (Config.cert_path c)).
Proof.
  intros Hmode Hssl. unfold Config.main.
  assert (E : truthy_flag (Config.use_ssl c)
              && negb (truthy_text (Config.cert_path c)) = false).
  { destruct (truthy_flag (Config.use_ssl c)); [|reflexivity].
    now rewrite Hssl. }
  rewrite E.
  destruct Hmode as [<-|[<-|[<-|[]]]]; reflexivity.
Qed.

(** X21.  Start-up from a configuration that passed [ServerConfig]'s
    validation.  Its mode is one of the three, so [main.py] does construct a
    server.  In http mode that server is the one the ASGI app builds without
    arguments: the configured limits, TLS settings and socket address play
    no part.  In the other modes the server gets the configured values, the
    port as text; and the construction raises exactly when [use_ssl] is
    [False] and there is no certificate path, a setting the validation
    lets through. *)
Theorem validated_configuration_start_up :
  forall ns c,
    Config.ServerConfig_init ns = Config.Valid c ->
    In (Config.mode c) Config.MODES
    /\ exists o,
         Config.constructed (Config.main c) = Some o
         /\ (Config.mode c = "http" -> o = Return (fresh_server 100 255))
         /\ (Config.mode c <> "http" ->
             match o with
             | Raise e =>
                 Config.use_ssl c = Some false /\ Config.cert_path c = None
                 /\ e = RuntimeError
                      "You cannot use SSL without providing a certfiicate by path."
             | Return s =>
                 ~ (Config.use_ssl c = Some false /\ Config.cert_path c = None)
                 /\ s = mkChatServer (Config.use_ssl c) (Config.cert_path c)
                          [] 1 (Config.socket_host c)
                          (py_str_int (Config.socket_port c)) 0
                          (Config.max_clients c) (Config.max_message_length c)
             end).
Proof.
  intros ns c H. unfold Config.ServerConfig_init in H.
  apply validate_valid in H as (Hmode & _ & _ & Hssl).
  split; [exact Hmode|]. eexists. split; [now apply valid_main_constructs|].
  split.
  - intros ->. reflexivity.
  - intros Hne. apply String.eqb_neq in Hne. rewrite Hne.
    unfold ChatServer_init.
    destruct (Config.use_ssl c) as [[|]|] eqn:Eu,
             (Config.cert_path c) as [p|] eqn:Ec;
      try (split; [intros [? ?]; discriminate | reflexivity]).
    + specialize (Hssl eq_refl). discriminate Hssl.
    + repeat split.
Qed.

Lemma validated_configuration_start_up_witness :
  let ns := Config.mkNamespace (Some (Config.mode_converter "socket")) None
              (Some 9000%Z) None None (Some 10%Z) None
              (Config.use_ssl_converter ascii_runtime "false") None None in
  exists c o,
    Config.ServerConfig_init ns = Config.Valid c
    /\ Config.constructed (Config.main c) = Some o
    /\ o = Raise (RuntimeError
                    "You cannot use SSL without providing a certfiicate by path.").
Proof.
  intros ns.
  destruct (Config.ServerConfig_init ns) as [c|msg] eqn:E;
    [|discriminate E].
  destruct (validated_configuration_start_up ns c E)
    as (_ & o & Ho & _ & Hsocket).
  exists c, o. split; [reflexivity|]. split; [exact Ho|].
  injection E as <-.
  specialize (Hsocket ltac:(discriminate)).
  vm_compute in Ho. injection Ho as <-. reflexivity.
Defined.

(** X22.  TLS.  [run_server] of a constructed server builds a TLS context
    exactly when [use_ssl] is [True] and the certificate path is a non-empty
    string; it then loads that path, and the two TLS timeouts are 30
    seconds.  So [ChatServer(use_ssl=True, cert_path="")] is constructed and
    listens without TLS.  Through a validated configuration this cannot
    happen: in socket and both modes, [use_ssl=True] always ends in a server
    whose [run_server] builds the context from the configured certificate
    path. *)
Theorem tls_is_served_with_flag_and_certificate :
  (forall host port mc mml ssl cert s,
     ChatServer_init host port mc mml ssl cert = Return s ->
     (forall path,
        run_server_ssl_context s = Some path
        <-> ssl = Some true /\ cert = Some path /\ path <> "")
     /\ (forall path,
           run_server_ssl_context s = Some path ->
           run_server_ssl_timeout s = Some 30%Z)
     /\ (run_server_ssl_context s = None -> run_server_ssl_timeout s = None))
  /\ (forall ns c,
        Config.ServerConfig_init ns = Config.Valid c ->
        Config.mode c <> "http" ->
        Config.use_ssl c = Some true ->
        exists s path,
          Config.constructed (Config.main c) = Some (Return s)
          /\ Config.cert_path c = Some path
          /\ run_server_ssl_context s = Some path).
Proof.
  split.
  - intros host port mc mml ssl cert s H.
    assert (Hs : use_ssl s = ssl /\ cert_path s = cert).
    { unfold ChatServer_init in H. destruct ssl, cert; try discriminate H;
        injection H as <-; split; reflexivity. }
    destruct Hs as [Hu Hc].
    unfold run_server_ssl_timeout, run_server_ssl_context.
    rewrite Hu, Hc. split; [|split].
    + intros path. destruct ssl as [[|]|], cert as [[|a p]|]; cbn;
        split; try discriminate; try (intros (? & ? & ?); discriminate).
      * intros (_ & [= <-] & Hne). now contradiction Hne.
      * intros [= <-]. repeat split. discriminate.
      * intros (_ & [= <-] & _). reflexivity.
    + intros path. destruct ssl as [[|]|], cert as [[|a p]|]; cbn;
        try discriminate; reflexivity.
    + destruct ssl as [[|]|], cert as [[|a p]|]; cbn;
        try discriminate; reflexivity.
  - intros ns c H Hmode Hu. unfold Config.ServerConfig_init in H.
    apply validate_valid in H as (Hm & _ & _ & Hssl).
    rewrite (valid_main_constructs c Hm Hssl).
    apply String.eqb_neq in Hmode. rewrite Hmode.
    rewrite Hu in Hssl. specialize (Hssl eq_refl).
    destruct (Config.cert_path c) as [[|a p]|] eqn:Ec; try discriminate Hssl.
    rewrite Hu. cbn [ChatServer_init]. do 2 eexists.
    split; [reflexivity|]. split; [reflexivity|]. reflexivity.
Qed.

Lemma tls_is_served_with_flag_and_certificate_witness :
  let s := mkChatServer (Some true) (Some "") [] 1 "127.0.0.1" "10010" 0
             100 255 in
  ChatServer_init "127.0.0.1" "10010" 100 255 (Some true) (Some "") = Return s
  /\ run_server_ssl_timeout s = None.
Proof.
  intros s. split; [reflexivity|].
  apply (proj2 (proj2 (proj1 tls_is_served_with_flag_and_certificate
           "127.0.0.1" "10010" 100%Z 255%Z (Some true) (Some "") s eq_refl))).
  reflexivity.
Defined.

(* ================================================================== *)
(** ** Who gets closed *)

Section Emits.
Context (P : event -> Prop).
Hypothesis writes_pass : forall w data, P (Wrote w data).

Lemma emits_ret {A} (a : A) : emits P (ret a).
Proof. intros s. constructor. Qed.

Lemma emits_raise {A} (e : exn) : emits P (@raise A e).
Proof. intros s. constructor. Qed.

Lemma emits_bind {A B} (m : M A) (k : A -> M B) :
  emits P m -> (forall a, emits P (k a)) -> emits P (bind m k).
Proof.
  intros Hm Hk s. specialize (Hm s). unfold bind.
  destruct (m s) as [[[a|e] s1] o1]; cbn [trace snd] in *; auto.
  specialize (Hk a s1). destruct (k a s1) as [[r s2] o2]; cbn [trace snd] in *.
  apply Forall_app. auto.
Qed.

Lemma emits_try_except {A} (m : M A) (h : exn -> M A) :
  emits P m -> (forall e, emits P (h e)) -> emits P (try_except m h).
Proof.
  intros Hm Hh s. specialize (Hm s). unfold try_except.
  destruct (m s) as [[[a|e] s1] o1]; cbn [trace snd] in *; auto.
  specialize (Hh e s1). destruct (h e s1) as [[r s2] o2]; cbn [trace snd] in *.
  apply Forall_app. auto.
Qed.

Lemma emits_try_except_only {A} cls (m : M A) (h : exn -> M A) :
  emits P m -> (forall e, emits P (h e)) -> emits P (try_except_only cls m h).
Proof.
  intros Hm Hh. apply emits_try_except; auto.
  intros e. destruct (cls e); auto using emits_raise.
Qed.

Lemma emits_silent {A} (m : M A) :
  (forall s, trace (m s) = []) -> emits P m.
Proof. intros H s. rewrite H. constructor. Qed.

Lemma emits_get : emits P get_server.
Proof. now apply emits_silent. Qed.

Lemma emits_modify f : emits P (modify f).
Proof. now apply emits_silent. Qed.

Lemma emits_add_client_count d : emits P (add_client_count d).
Proof. now apply emits_silent. Qed.

Lemma emits_when b m : emits P m -> emits P (when b m).
Proof. destruct b; cbn; auto using emits_ret. Qed.

Lemma emits_getitem {V} (d : dict V) k : emits P (getitem d k).
Proof.
  unfold getitem. destruct (dict_get k d); auto using emits_ret, emits_raise.
Qed.

Lemma emits_entry_writer e : emits P (entry_writer e).
Proof. destruct e; [apply emits_ret | apply emits_raise]. Qed.

Lemma emits_entry_status e : emits P (entry_status e).
Proof. destruct e; [apply emits_ret | apply emits_raise]. Qed.

Lemma emits_write w data : emits P (writer_write w data).
Proof. intros s. repeat constructor. apply writes_pass. Qed.

Lemma emits_drain rt w : emits P (writer_drain rt w).
Proof.
  unfold writer_drain. destruct (io_fail rt w Drain);
    auto using emits_ret, emits_raise.
Qed.

Lemma emits_wait_closed rt w : emits P (writer_wait_closed rt w).
Proof.
  unfold writer_wait_closed. destruct (io_fail rt w WaitClosed);
    auto using emits_ret, emits_raise.
Qed.

Lemma emits_room_setitem name key value : emits P (room_setitem name key value).
Proof.
  apply emits_silent. intros s. unfold room_setitem. munfold.
  destruct (dict_get name (client_list s)); reflexivity.
Qed.

Lemma emits_set_status r c status : emits P (set_status r c status).
Proof.
  apply emits_silent. intros s. unfold set_status. munfold.
  destruct (dict_get r (client_list s)) as [clients|]; [|reflexivity].
  destruct (dict_get c clients) as [[cw old|t]|]; reflexivity.
Qed.

Lemma emits_readuntil buf : emits P (readuntil buf).
Proof.
  unfold readuntil. destruct (readuntil_space buf);
    auto using emits_ret, emits_raise.
Qed.

Lemma emits_decode b : emits P (decode b).
Proof. unfold decode. destruct (utf8_valid b); auto using emits_ret, emits_raise. Qed.

Create HintDb emits.

#[local] Hint Resolve emits_ret emits_raise emits_get emits_modify
  emits_add_client_count emits_getitem emits_entry_writer emits_entry_status
  emits_write emits_drain emits_wait_closed emits_room_setitem
  emits_set_status emits_readuntil emits_decode : emits.

Ltac emits_step :=
  lazymatch goal with
  | |- emits _ (bind _ _) => apply emits_bind; [|intros ?]
  | |- emits _ (try_except _ _) => apply emits_try_except; [|intros ?]
  | |- emits _ (try_except_only _ _ _) =>
      apply emits_try_except_only; [|intros ?]
  | |- emits _ (when _ _) => apply emits_when
  | |- emits _ (if ?b then _ else _) => destruct b
  | |- emits _ (match ?x with _ => _ end) => destruct x
  | |- emits _ _ => solve [auto with emits]
  end.

Ltac emits_auto := repeat emits_step.

Lemma emits_send_to_client rt msg w : emits P (send_to_client rt msg w).
Proof. unfold send_to_client. emits_auto. Qed.

#[local] Hint Resolve emits_send_to_client : emits.

Lemma emits_send_error_to_writer rt msg w :
  emits P (send_error_to_writer rt msg w).
Proof. unfold send_error_to_writer. emits_auto. Qed.

Lemma emits_send_error_to_client rt msg r c :
  emits P (send_error_to_client rt msg r c).
Proof. unfold send_error_to_client. emits_auto. Qed.

Lemma emits_send_to_all_clients rt text r :
  emits P (send_to_all_clients rt text r).
Proof.
  intros s. rewrite send_to_all_clients_run. cbn [trace snd].
  apply Forall_forall. intros e He. apply in_map_iff in He as (w & <- & _).
  apply writes_pass.
Qed.

#[local] Hint Resolve emits_send_error_to_writer emits_send_error_to_client
  emits_send_to_all_clients : emits.

Lemma emits_join_chatroom rt r c w : emits P (join_chatroom rt r c w).
Proof. unfold join_chatroom. emits_auto. Qed.

Lemma emits_add_chatroom rt r c w : emits P (add_chatroom rt r c w).
Proof. unfold add_chatroom. emits_auto. Qed.

Lemma emits_pause_rooms names c acc : emits P (pause_rooms names c acc).
Proof.
  revert acc. induction names as [|n names IH]; intros acc;
    cbn [pause_rooms]; emits_auto; auto.
Qed.

Lemma emits_pause_client c : emits P (pause_client c).
Proof. unfold pause_client. emits_auto. apply emits_pause_rooms. Qed.

Lemma emits_close_client c : emits P (close_client c).
Proof. unfold close_client. emits_auto. Qed.

Lemma emits_list_chatrooms list_type c r : emits P (list_chatrooms list_type c r).
Proof.
  apply emits_silent. intros s.
  destruct (list_chatrooms_run list_type c r s) as [o ->]. reflexivity.
Qed.

#[local] Hint Resolve emits_join_chatroom emits_add_chatroom emits_pause_client
  emits_close_client emits_list_chatrooms : emits.

(** From here on the handler's own writer may be closed. *)
Context (cw : writer).
Hypothesis close_passes : P (Closed cw).

Lemma emits_send_error_and_close rt msg cid :
  emits P (send_error_and_close rt cw msg cid).
Proof.
  unfold send_error_and_close. emits_auto.
  intros s. repeat constructor. exact close_passes.
Qed.

#[local] Hint Resolve emits_send_error_and_close : emits.

Lemma emits_register_client rt name r : emits P (register_client rt cw name r).
Proof.
  unfold register_client. emits_auto.
Qed.

#[local] Hint Resolve emits_register_client : emits.

Lemma emits_process_command rt c : emits P (process_command rt c cw).
Proof. unfold process_command. emits_auto. Qed.

Lemma emits_parse_room_client buf : emits P (parse_room_client buf).
Proof. unfold parse_room_client. emits_auto. Qed.

#[local] Hint Resolve emits_process_command emits_parse_room_client : emits.

Lemma emits_read_command rt client_reader :
  emits P (read_command rt client_reader cw).
Proof. unfold read_command. emits_auto. Qed.

#[local] Hint Resolve emits_read_command : emits.

Lemma emits_client_callback rt client_reader :
  emits P (client_callback rt client_reader cw).
Proof. unfold client_callback. emits_auto. Qed.

End Emits.

(** X23.  Only a connection's own handler closes it.  Whatever a connection
    sends, the only writer its handler can close is its own, and the same
    holds for a registration; joining, creating a room, pausing, broadcasting
    and a direct message close no one (a recipient whose [drain()] fails
    stays open and registered).  [close_client] itself closes no one and
    writes to no one: its farewell is sent to what the room dict holds under
    ["writer"], which is never a writer. *)
Theorem connections_are_closed_only_by_their_own_handler :
  forall rt s,
    (forall client_reader cw,
       Forall (closes_only cw) (trace (client_callback rt client_reader cw s)))
    /\ (forall cw name r,
          Forall (closes_only cw) (trace (register_client rt cw name r s)))
    /\ (forall r c cw, Forall closes_none (trace (join_chatroom rt r c cw s)))
    /\ (forall r c cw, Forall closes_none (trace (add_chatroom rt r c cw s)))
    /\ (forall text r, Forall closes_none (trace (send_to_all_clients rt text r s)))
    /\ (forall text r a b,
          Forall closes_none (trace (client_to_client rt text r a b s)))
    /\ (forall c, trace (pause_client c s) = [])
    /\ (forall c, trace (close_client c s) = []).
Proof.
  intros rt s.
  assert (Hnone : forall w data, closes_none (Wrote w data)) by (cbn; auto).
  assert (Honly : forall cw w data, closes_only cw (Wrote w data))
    by (cbn; auto).
  split; [intros client_reader cw;
          now apply (emits_client_callback _ (Honly cw))|].
  split; [intros cw name r; now apply (emits_register_client _ (Honly cw))|].
  split; [intros r c cw; now apply (emits_join_chatroom _ Hnone)|].
  split; [intros r c cw; now apply (emits_add_chatroom _ Hnone)|].
  split; [intros text r; now apply (emits_send_to_all_clients _ Hnone)|].
  split.
  { intros text r a b. unfold client_to_client.
    assert (H : emits closes_none (client_to_client rt text r a b)).
    { unfold client_to_client.
      repeat first
        [ apply emits_bind; [|intros ?]
        | solve [auto using emits_get, emits_getitem, emits_entry_writer,
                   emits_write, emits_drain] ]. }
    apply H. }
  split.
  - intros c.
    pose proof (emits_pause_client (fun _ => False) c s) as H.
    destruct (trace (pause_client c s)) as [|e l]; [reflexivity|].
    inversion H as [|? ? He _]. destruct He.
  - intros c.
    pose proof (emits_close_client (fun _ => False) c s) as H.
    destruct (trace (close_client c s)) as [|e l]; [reflexivity|].
    inversion H as [|? ? He _]. destruct He.
Qed.
